(** * RSS bot pipeline: fetcher, deduplication ledger, summarizer,
      post creator and bot runner

    A shallow embedding of the bot pipeline of the repository
    (bots/lib/rss-fetcher.js, bots/lib/deduplicator.js,
    bots/lib/summarizer.js, bots/lib/post-creator.js,
    bots/lib/bot-runner.js, bots/index.js and the ledger table of
    scripts/create-profiles-table.sql), with the properties the
    specification states about it and further properties of the code:
    of the fetcher, the cleanup and the statistics of the ledger, the
    batch and the retry wrapper of the summarizer, and the accounts of a
    run.

    Conventions of the embedding.
    - A JavaScript string is a [string]; one character stands for one
      UTF-16 code unit (of the range 0..255).
    - [undefined] and [null] are [None]; the empty string is falsy.
    - Times are integers, milliseconds since the epoch ([Z]).
    - An [async] function is a state transformer over the external
      world it talks to; a rejected promise or a [throw] is [Throw]. *)

From Stdlib Require Import ZArith String Ascii List Bool Lia Sorted Permutation.
From stdpp Require Import list.
Import ListNotations.

Local Open Scope Z_scope.
Local Open Scope list_scope.

(** ** JavaScript values *)

Module JS.

(** Truthiness of a string-or-undefined value. *)
Definition truthy (v : option string) : bool :=
  match v with
  | Some s => negb (String.eqb s EmptyString)
  | None => false
  end.

(** [a || b] on string-or-undefined values. *)
Definition or (a b : option string) : option string :=
  if truthy a then a else b.

(** [a || s] where the last operand is a string. *)
Definition orS (a : option string) (s : string) : string :=
  match a with
  | Some x => if String.eqb x EmptyString then s else x
  | None => s
  end.

(** [s.substring(0, n)] for a natural [n]. *)
Definition substring0 (n : nat) (s : string) : string :=
  String.substring 0 n s.

(** [hay.includes(needle)]. *)
Definition includes (hay needle : string) : bool :=
  match String.index 0 needle hay with
  | Some _ => true
  | None => false
  end.

(** White space removed by [String.prototype.trim] (code units below 256). *)
Definition isSpace (c : ascii) : bool :=
  let n := nat_of_ascii c in
  (Nat.eqb n 9 || Nat.eqb n 10 || Nat.eqb n 11 || Nat.eqb n 12
   || Nat.eqb n 13 || Nat.eqb n 32 || Nat.eqb n 160)%bool.

Fixpoint trimStart (s : string) : string :=
  match s with
  | String c r => if isSpace c then trimStart r else s
  | EmptyString => EmptyString
  end.

(** Drops the trailing white space: a space is kept only when something
    that is kept follows it. *)
Fixpoint trimEnd (s : string) : string :=
  match s with
  | String c r =>
      match trimEnd r with
      | EmptyString => if isSpace c then EmptyString else String c EmptyString
      | r' => String c r'
      end
  | EmptyString => EmptyString
  end.

Definition trim (s : string) : string := trimEnd (trimStart s).

(** [arr.slice(0, n)]: a negative [n] counts from the end. *)
Definition slice0 {A} (n : Z) (l : list A) : list A :=
  if n <? 0
  then firstn (Z.to_nat (Z.max 0 (Z.of_nat (List.length l) + n))) l
  else firstn (Z.to_nat n) l.

(** [TimeClip]: a [Date] holds a time value of at most 8.64e15 ms in
    absolute value, and is an Invalid Date ([None]) otherwise. *)
Definition timeClip (t : Z) : option Z :=
  if Z.abs t <=? 8640000000000000 then Some t else None.

(** [a >= b] on two [Date]s: false as soon as one is invalid (NaN). *)
Definition dateGe (a b : option Z) : bool :=
  match a, b with
  | Some x, Some y => y <=? x
  | _, _ => false
  end.

End JS.

(** ** Feed fetcher: the date filter (bots/lib/rss-fetcher.js) *)

(** A raw item as the feed parser hands it over; only the fields
    [filterItemsByDate] reads. *)
Record RawItem := mkRawItem {
  raw_title : option string;
  raw_pubDate : option string;
  raw_published : option string;
  raw_isoDate : option string
}.

Section DateFilter.

(** [new Date(s).getTime()] for a date string: [None] is NaN. *)
Variable parseDate : string -> option Z.

(** The date an item is judged by: [item.pubDate || item.published ||
    item.isoDate]. *)
Definition itemPubDate (item : RawItem) : option string :=
  JS.or (JS.or (raw_pubDate item) (raw_published item)) (raw_isoDate item).

(** The callback of [items.filter] in [filterItemsByDate]. *)
Definition keepByDate (cutoffTime : option Z) (item : RawItem) : bool :=
  let pubDate := itemPubDate item in
  if negb (JS.truthy pubDate) then false
  else
    match pubDate with
    | None => false
    | Some s =>
        let itemDate := parseDate s in
        match itemDate with
        | None => false
        | Some _ => JS.dateGe itemDate cutoffTime
        end
    end.

(** [filterItemsByDate(items, minutesAgo)], [now] being the reading of
    [Date.now()] the function takes. *)
Definition filterItemsByDate (now : Z) (items : list RawItem)
    (minutesAgo : option Z) : list RawItem :=
  let minutesAgo := default 60 minutesAgo in
  let cutoffTime := JS.timeClip (now - minutesAgo * 60 * 1000) in
  List.filter (keepByDate cutoffTime) items.

End DateFilter.

(** ** Data model *)

(** A bot identity (bots/config/bot-feeds.js). *)
Record BotConfig := mkBotConfig {
  cfg_id : string;
  cfg_name : string;
  cfg_username : string;
  cfg_email : string;
  cfg_user_id : string;
  cfg_avatar_url : string;
  cfg_feeds : list string;
  cfg_schedule : string;
  cfg_summaryPrompt : option string
}.

(** A normalized feed item, with the three fields [runBot] attaches to it
    ([feedTitle], [aiSummary], [originalContent]; absent is [None]). *)
Module Item.
Record t := mk {
  guid : string;
  link : string;
  title : string;
  content : string;
  pubDate : option string;
  author : option string;
  categories : list string;
  feedUrl : string;
  feedTitle : option string;
  aiSummary : option string;
  originalContent : option string
}.
End Item.

(** One source, as [fetchItemsForBotSeparately] returns it. *)
Module Feed.
Record t := mk {
  feedUrl : string;
  feedTitle : option string;
  items : list Item.t
}.
End Feed.

(** A row of [processed_rss_items] (scripts/create-profiles-table.sql). *)
Module Ledger.
Record row := mk {
  rss_url : string;
  item_guid : string;
  item_link : string;
  item_title : string;
  bot_id : string;
  bot_username : string;
  created_post_id : option nat;
  processed_at : Z
}.

Definition sameGuid (botId guid : string) (r : row) : bool :=
  String.eqb (bot_id r) botId && String.eqb (item_guid r) guid.

Definition sameLink (botId link : string) (r : row) : bool :=
  String.eqb (bot_id r) botId && String.eqb (item_link r) link.

(** [UNIQUE(item_guid, bot_id)] and [UNIQUE(item_link, bot_id)]: the
    rows a new row [r] may not be inserted next to. *)
Definition conflicts (r r' : row) : bool :=
  sameGuid (bot_id r) (item_guid r) r' || sameLink (bot_id r) (item_link r) r'.

(** The two uniqueness constraints, as a property of the table. *)
Fixpoint unique (t : list row) : Prop :=
  match t with
  | [] => True
  | r :: t' => List.existsb (conflicts r) t' = false /\ unique t'
  end.

Definition countGuid (botId guid : string) (t : list row) : nat :=
  List.length (List.filter (sameGuid botId guid) t).

Definition countLink (botId link : string) (t : list row) : nat :=
  List.length (List.filter (sameLink botId link) t).
End Ledger.

(** A row of [posts]: what [createPost] inserts, and the row the store
    returns (the id being the rank of creation). *)
Module Post.
Record data := mkData {
  content : string;
  content_type : string;
  rss_original_content : option string;
  rss_ai_summary : option string;
  rss_source_url : option string;
  rss_source_name : option string;
  user_id : string;
  user_name : string;
  user_email : string;
  user_avatar : string;
  image_urls : list string;
  created_at : Z;
  updated_at : Z
}.

Record row := mk { id : nat; fields : data }.
End Post.

(** A row of [profiles], as [verifyBotProfile] selects it. *)
Record Profile := mkProfile {
  profile_user_id : string;
  profile_username : string;
  profile_full_name : string
}.

(** ** The external world *)

(** The requests the pipeline sends to the store. *)
Inductive Request :=
| SelectByGuid (botId guid : string)
| SelectByLink (botId link : string)
| InsertProcessed (r : Ledger.row)
| InsertPost (d : Post.data)
| SelectProfile (userId : string).

(** What may go wrong with one request, whatever the tables hold: the
    client answers with an error object, or the promise rejects. A request
    that fails this way leaves the tables as they are. *)
Inductive Fault :=
| NoFault
| ErrorReply (code : string)
| Rejects (message : string).

(** The answer [{ data, error }] of the store client. *)
Inductive Reply (A : Type) :=
| Data (d : A)
| Error (code : string).
Arguments Data {A} d.
Arguments Error {A} code.

(** The outcome of an awaited call or of a block of statements. *)
Inductive result (A : Type) :=
| Ret (a : A)
| Throw (message : string).
Arguments Ret {A} a.
Arguments Throw {A} message.

(** The store, the clock and the feeds. [env n req] is the fault met by
    the [n]-th request when it is [req]; [latency n] the time it takes. *)
Record World := mkWorld {
  ledger : list Ledger.row;
  posts : list Post.row;
  profiles : list Profile;
  env : nat -> Request -> Fault;
  calls : nat;
  trace : list Request;
  clock : Z;
  latency : nat -> Z;
  rssSeparately : BotConfig -> Z -> result (list Feed.t);
  rssCombined : BotConfig -> Z -> result (list Item.t)
}.

Definition setLedger (t : list Ledger.row) (w : World) : World :=
  mkWorld t (posts w) (profiles w) (env w) (calls w) (trace w) (clock w)
          (latency w) (rssSeparately w) (rssCombined w).

Definition setPosts (p : list Post.row) (w : World) : World :=
  mkWorld (ledger w) p (profiles w) (env w) (calls w) (trace w) (clock w)
          (latency w) (rssSeparately w) (rssCombined w).

Definition setClock (t : Z) (w : World) : World :=
  mkWorld (ledger w) (posts w) (profiles w) (env w) (calls w) (trace w) t
          (latency w) (rssSeparately w) (rssCombined w).

(** The world after request [req] went out and its answer came back. *)
Definition sent (req : Request) (w : World) : World :=
  mkWorld (ledger w) (posts w) (profiles w) (env w) (S (calls w))
          (trace w ++ [req]) (clock w + latency w (calls w))
          (latency w) (rssSeparately w) (rssCombined w).

(** ** Awaited computations *)

Definition M (S A : Type) : Type := S -> result A * S.

Definition ret {S A} (a : A) : M S A := fun s => (Ret a, s).

Definition throw {S A} (message : string) : M S A := fun s => (Throw message, s).

Definition bind {S A B} (m : M S A) (k : A -> M S B) : M S B :=
  fun s =>
    match m s with
    | (Ret a, s') => k a s'
    | (Throw e, s') => (Throw e, s')
    end.

(** [try { m } catch (error) { h error.message }]. *)
Definition tryCatch {S A} (m : M S A) (h : string -> M S A) : M S A :=
  fun s =>
    match m s with
    | (Ret a, s') => (Ret a, s')
    | (Throw e, s') => h e s'
    end.

Declare Scope js_scope.
Delimit Scope js_scope with js.
Notation "x <- m ;; k" := (bind m (fun x => k))
  (at level 100, m at next level, right associativity) : js_scope.
Notation "m ;;; k" := (bind m (fun _ => k))
  (at level 100, right associativity) : js_scope.
Local Open Scope js_scope.

(** [Date.now()]. *)
Definition Date_now : M World Z := fun w => (Ret (clock w), w).

(** [await sleep(ms)]. *)
Definition sleep (ms : Z) : M World unit :=
  fun w => (Ret tt, setClock (clock w + ms) w).

(** ** The store client *)

(** [.from('processed_rss_items').select('id').eq(..).eq(..).limit(1)
    .maybeSingle()]: the first row that matches, if any. *)
Definition selectProcessed (req : Request) (p : Ledger.row -> bool)
  : M World (Reply (option Ledger.row)) :=
  fun w =>
    match env w (calls w) req with
    | NoFault => (Ret (Data (List.find p (ledger w))), sent req w)
    | ErrorReply c => (Ret (Error c), sent req w)
    | Rejects e => (Throw e, sent req w)
    end.

(** [.from('processed_rss_items').insert(row)]: the table refuses a row
    that breaks one of its two uniqueness constraints (code 23505). *)
Definition insertProcessed (r : Ledger.row) : M World (Reply unit) :=
  fun w =>
    match env w (calls w) (InsertProcessed r) with
    | NoFault =>
        if List.existsb (Ledger.conflicts r) (ledger w)
        then (Ret (Error "23505"%string), sent (InsertProcessed r) w)
        else (Ret (Data tt), setLedger (ledger w ++ [r]) (sent (InsertProcessed r) w))
    | ErrorReply c => (Ret (Error c), sent (InsertProcessed r) w)
    | Rejects e => (Throw e, sent (InsertProcessed r) w)
    end.

(** [.from('posts').insert(postData).select().single()]. *)
Definition insertPost (d : Post.data) : M World (Reply Post.row) :=
  fun w =>
    match env w (calls w) (InsertPost d) with
    | NoFault =>
        let p := Post.mk (List.length (posts w)) d in
        (Ret (Data p), setPosts (posts w ++ [p]) (sent (InsertPost d) w))
    | ErrorReply c => (Ret (Error c), sent (InsertPost d) w)
    | Rejects e => (Throw e, sent (InsertPost d) w)
    end.

(** [.from('profiles').select(..).eq('user_id', userId).single()]: an
    error unless exactly one row matches. *)
Definition selectProfile (userId : string) : M World (Reply Profile) :=
  fun w =>
    match env w (calls w) (SelectProfile userId) with
    | NoFault =>
        match List.filter (fun p => String.eqb (profile_user_id p) userId) (profiles w) with
        | [p] => (Ret (Data p), sent (SelectProfile userId) w)
        | _ => (Ret (Error "PGRST116"%string), sent (SelectProfile userId) w)
        end
    | ErrorReply c => (Ret (Error c), sent (SelectProfile userId) w)
    | Rejects e => (Throw e, sent (SelectProfile userId) w)
    end.

(** ** Deduplication service (bots/lib/deduplicator.js) *)

(** The [data] of a reply, [null] when the reply is an error. *)
Definition matchOf {A} (r : Reply (option A)) : option A :=
  match r with
  | Data d => d
  | Error _ => None
  end.

Definition isItemProcessed (botId : string) (item : Item.t) : M World bool :=
  tryCatch
    (guidReply <- selectProcessed (SelectByGuid botId (Item.guid item))
                                  (Ledger.sameGuid botId (Item.guid item)) ;;
     match matchOf guidReply with
     | Some _ => ret true
     | None =>
         linkReply <- selectProcessed (SelectByLink botId (Item.link item))
                                      (Ledger.sameLink botId (Item.link item)) ;;
         match matchOf linkReply with
         | Some _ => ret true
         | None => ret false
         end
     end)
    (fun _ => ret false).

Definition markItemAsProcessed (botId botUsername : string) (item : Item.t)
    (postId : option nat) : M World bool :=
  tryCatch
    (now <- Date_now ;;
     reply <- insertProcessed
                (Ledger.mk (Item.feedUrl item) (Item.guid item) (Item.link item)
                           (Item.title item) botId botUsername postId now) ;;
     match reply with
     | Error code =>
         if String.eqb code "23505" then ret true else ret false
     | Data _ => ret true
     end)
    (fun _ => ret false).

(** The loop of [filterUnprocessedItems]. *)
Fixpoint filterLoop (botId : string) (items : list Item.t) : M World (list Item.t) :=
  match items with
  | [] => ret []
  | item :: rest =>
      processed <- isItemProcessed botId item ;;
      unprocessed <- filterLoop botId rest ;;
      ret (if processed then unprocessed else item :: unprocessed)
  end.

(** [items] is [None] when the caller passes [null] or [undefined]. *)
Definition filterUnprocessedItems (botId : string) (items : option (list Item.t))
  : M World (list Item.t) :=
  match items with
  | None => ret []
  | Some [] => ret []
  | Some l => filterLoop botId l
  end.

(** ** Summarizer (bots/lib/summarizer.js) *)

Definition newline : string := String (ascii_of_nat 10) EmptyString.

(** The argument of [openai.chat.completions.create]. *)
Record ChatRequest := mkChatRequest {
  chat_model : string;
  chat_system : string;
  chat_user : string;
  chat_max_tokens : Z;
  chat_temperature_tenths : Z
}.

(** The text generation service, as [generateSummary] sees it: the call
    rejects (or the completion has no [choices]) with a message, or it
    yields [choices[0]?.message?.content], which may be undefined. *)
Definition OpenAI : Type := ChatRequest -> result (option string).

Definition defaultSystemPrompt : string :=
  "You are a news bot. Summarize this article in a concise, engaging way (200-280 characters). Include relevant hashtags. Be informative and capture the key points.".

Definition articleContent (item : Item.t) : string :=
  JS.trim
    (newline ++ "Title: " ++ Item.title item ++ newline ++ newline
     ++ "Content: " ++ JS.substring0 2000 (Item.content item) ++ " "
     ++ (if (2000 <? String.length (Item.content item))%nat then "..." else "")
     ++ newline ++ newline ++ "Link: " ++ Item.link item ++ newline ++ "    ")%string.

(** The string built in the [catch] block of [generateSummary]. *)
Definition fallbackSummary (item : Item.t) : string :=
  JS.substring0 280 (Item.title item ++ " - " ++ Item.link item)%string.

Definition generateSummary (openai : OpenAI) (item : Item.t)
    (customPrompt : option string) (model : option string) : M unit string :=
  let model := default "gpt-4o-mini"%string model in
  tryCatch
    (let articleContent := articleContent item in
     let systemPrompt := JS.orS customPrompt defaultSystemPrompt in
     completion <- (fun s => (openai (mkChatRequest model systemPrompt articleContent 150 7), s)) ;;
     let summary := option_map JS.trim completion in
     if negb (JS.truthy summary)
     then throw "Empty response from OpenAI"
     else ret (default EmptyString summary))
    (fun _ => ret (fallbackSummary item)).

(** ** Post creator (bots/lib/post-creator.js) *)

Section PostCreator.

(** [new URL(u).hostname]: [None] when the constructor throws. *)
Variable hostnameOf : string -> option string.

(** [s.replace(needle, replacement)] for a string [needle]: the first
    occurrence only. *)
Fixpoint replaceFirst (needle replacement s : string) : string :=
  if String.prefix needle s
  then (replacement
        ++ String.substring (String.length needle)
                            (String.length s - String.length needle) s)%string
  else match s with
       | String c r => String c (replaceFirst needle replacement r)
       | EmptyString => EmptyString
       end.

(** [toUpperCase] on the letters a host name is made of. *)
Definition upperAscii (c : ascii) : ascii :=
  let n := nat_of_ascii c in
  if (Nat.leb 97 n && Nat.leb n 122)%bool then ascii_of_nat (n - 32) else c.

Definition capitalize (s : string) : string :=
  match s with
  | String c r => String (upperAscii c) r
  | EmptyString => EmptyString
  end.

Definition extractDomainName (feedUrl : string) : string :=
  match hostnameOf feedUrl with
  | Some hostname => capitalize (replaceFirst "www." "" hostname)
  | None => "Unknown Source"%string
  end.

(** The content under its source label; the emoji of the label is
    written in the bytes of its UTF-8 form. *)
Definition sourceLabel (sourceName content : string) : string :=
  ("📰 " ++ sourceName ++ newline ++ newline ++ content)%string.

Definition createPost (botConfig : BotConfig) (content : string)
    (sourceUrl sourceName originalContent aiSummary : option string)
  : M World (option Post.row) :=
  tryCatch
    (let formattedContent :=
       match sourceName with
       | Some name => if JS.truthy sourceName then sourceLabel name content else content
       | None => content
       end in
     created_at <- Date_now ;;
     updated_at <- Date_now ;;
     let postData :=
       Post.mkData formattedContent "rss_bot" originalContent aiSummary
                   sourceUrl sourceName
                   (cfg_user_id botConfig) (cfg_name botConfig)
                   (cfg_email botConfig) (cfg_avatar_url botConfig)
                   [] created_at updated_at in
     reply <- insertPost postData ;;
     match reply with
     | Error _ => ret None
     | Data data => ret (Some data)
     end)
    (fun _ => ret None).

(** [item.aiSummary || item.originalContent || item.content || item.title] *)
Definition displayContentOf (item : Item.t) : string :=
  JS.orS (JS.or (JS.or (Item.aiSummary item) (Item.originalContent item))
                (Some (Item.content item)))
         (Item.title item).

(** [item.originalContent || item.content || item.title] *)
Definition originalContentOf (item : Item.t) : string :=
  JS.orS (JS.or (Item.originalContent item) (Some (Item.content item)))
         (Item.title item).

(** [item.feedTitle || extractDomainName(item.feedUrl)] *)
Definition sourceNameOf (item : Item.t) : string :=
  JS.orS (Item.feedTitle item) (extractDomainName (Item.feedUrl item)).

(** The [for] loop of [createPostsBatch]; [remaining] is the part of
    [itemsToPost] from index [i] on. *)
Fixpoint postLoop (botConfig : BotConfig) (remaining : list Item.t)
  : M World (list (Post.row * Item.t)) :=
  match remaining with
  | [] => ret []
  | item :: rest =>
      created <-
        tryCatch
          (let displayContent := displayContentOf item in
           let sourceName := sourceNameOf item in
           post <- createPost botConfig displayContent (Some (Item.link item))
                              (Some sourceName) (Some (originalContentOf item))
                              (Item.aiSummary item) ;;
           (match rest with
            | [] => ret tt
            | _ :: _ => sleep 500
            end) ;;;
           ret (match post with
                | Some p => [(p, item)]
                | None => []
                end))
          (fun _ => ret []) ;;
      more <- postLoop botConfig rest ;;
      ret (created ++ more)
  end.

Definition createPostsBatch (botConfig : BotConfig) (items : list Item.t)
    (maxPosts : option Z) (dryRun : option bool)
  : M World (list (Post.row * Item.t)) :=
  let maxPosts := default 5 maxPosts in
  let dryRun := default false dryRun in
  match items with
  | [] => ret []
  | _ :: _ =>
      let itemsToPost := JS.slice0 maxPosts items in
      if dryRun then ret []
      else postLoop botConfig itemsToPost
  end.

Definition verifyBotProfile (userId : string) : M World bool :=
  tryCatch
    (reply <- selectProfile userId ;;
     match reply with
     | Error _ => ret false
     | Data _ => ret true
     end)
    (fun _ => ret false).

End PostCreator.

(** ** Bot runner (bots/lib/bot-runner.js)

    The revision with the two fetch modes ([processFeedsSeparately]); in
    it the summarizer step is switched off. The fetcher it imports
    exports [fetchItemsForBotSeparately], which the available revision of
    rss-fetcher.js does not define: both entry points of the fetcher are
    taken from the world. *)

(** The [options] argument of [runBot]; an absent key is [None]. *)
Record RunOptions := mkRunOptions {
  fetchWindowMinutes : option Z;
  maxPostsPerRun : option Z;
  maxPostsPerFeed : option Z;
  processFeedsSeparately : option bool;
  openaiDelayMs : option Z;
  openaiModel : option string;
  dryRun : option bool
}.

(** The [results] object of a run. *)
Record RunResults := mkRunResults {
  botId : string;
  botName : string;
  success : bool;
  itemsFetched : nat;
  itemsNew : nat;
  itemsSummarized : nat;
  postsCreated : nat;
  feedsProcessed : nat;
  errors : list string;
  duration : Z
}.

Definition setSuccess (b : bool) (r : RunResults) : RunResults :=
  mkRunResults (botId r) (botName r) b (itemsFetched r) (itemsNew r)
    (itemsSummarized r) (postsCreated r) (feedsProcessed r) (errors r) (duration r).

Definition setItemsFetched (n : nat) (r : RunResults) : RunResults :=
  mkRunResults (botId r) (botName r) (success r) n (itemsNew r)
    (itemsSummarized r) (postsCreated r) (feedsProcessed r) (errors r) (duration r).

Definition setItemsNew (n : nat) (r : RunResults) : RunResults :=
  mkRunResults (botId r) (botName r) (success r) (itemsFetched r) n
    (itemsSummarized r) (postsCreated r) (feedsProcessed r) (errors r) (duration r).

Definition setItemsSummarized (n : nat) (r : RunResults) : RunResults :=
  mkRunResults (botId r) (botName r) (success r) (itemsFetched r) (itemsNew r)
    n (postsCreated r) (feedsProcessed r) (errors r) (duration r).

Definition setPostsCreated (n : nat) (r : RunResults) : RunResults :=
  mkRunResults (botId r) (botName r) (success r) (itemsFetched r) (itemsNew r)
    (itemsSummarized r) n (feedsProcessed r) (errors r) (duration r).

Definition setFeedsProcessed (n : nat) (r : RunResults) : RunResults :=
  mkRunResults (botId r) (botName r) (success r) (itemsFetched r) (itemsNew r)
    (itemsSummarized r) (postsCreated r) n (errors r) (duration r).

Definition pushError (message : string) (r : RunResults) : RunResults :=
  mkRunResults (botId r) (botName r) (success r) (itemsFetched r) (itemsNew r)
    (itemsSummarized r) (postsCreated r) (feedsProcessed r)
    (errors r ++ [message]) (duration r).

Definition setDuration (d : Z) (r : RunResults) : RunResults :=
  mkRunResults (botId r) (botName r) (success r) (itemsFetched r) (itemsNew r)
    (itemsSummarized r) (postsCreated r) (feedsProcessed r) (errors r) d.

(** A run works on the world and on its [results] object. *)
Definition Run (A : Type) : Type := M (World * RunResults) A.

Definition inWorld {A} (m : M World A) : Run A :=
  fun s =>
    match m (fst s) with
    | (x, w') => (x, (w', snd s))
    end.

Definition update (f : RunResults -> RunResults) : Run unit :=
  fun s => (Ret tt, (fst s, f (snd s))).

Definition getResults : Run RunResults :=
  fun s => (Ret (snd s), s).

Section BotRunner.

Variable hostnameOf : string -> option string.

(** The two entry points of the fetcher the runner imports. *)
Definition fetchItemsForBotSeparately (botConfig : BotConfig) (minutesAgo : Z)
  : M World (list Feed.t) :=
  fun w => (rssSeparately w botConfig minutesAgo, w).

Definition fetchItemsForBot (botConfig : BotConfig) (minutesAgo : Z)
  : M World (list Item.t) :=
  fun w => (rssCombined w botConfig minutesAgo, w).

(** [{ ...item, feedTitle: .., aiSummary: null, originalContent: .. }] *)
Definition withSource (feed : Feed.t) (item : Item.t) : Item.t :=
  Item.mk (Item.guid item) (Item.link item) (Item.title item) (Item.content item)
          (Item.pubDate item) (Item.author item) (Item.categories item)
          (Item.feedUrl item)
          (Some (JS.orS (Feed.feedTitle feed)
                        (extractDomainName hostnameOf (Feed.feedUrl feed))))
          None
          (Some (JS.orS (Some (Item.content item)) (Item.title item))).

(** [{ ...item, aiSummary: null, originalContent: .. }] *)
Definition withOriginal (item : Item.t) : Item.t :=
  Item.mk (Item.guid item) (Item.link item) (Item.title item) (Item.content item)
          (Item.pubDate item) (Item.author item) (Item.categories item)
          (Item.feedUrl item) (Item.feedTitle item)
          None
          (Some (JS.orS (Some (Item.content item)) (Item.title item))).

(** The loop over [separatedFeeds]; the value is what the loop pushes
    to [itemsToProcess]. *)
Fixpoint feedLoop (botConfig : BotConfig) (feeds : list Feed.t)
  : Run (list Item.t) :=
  match feeds with
  | [] => ret []
  | feed :: rest =>
      update (fun r => setItemsFetched
                         (itemsFetched r + List.length (Feed.items feed)) r) ;;;
      match Feed.items feed with
      | [] => feedLoop botConfig rest
      | _ :: _ =>
          newItems <- inWorld (filterUnprocessedItems (cfg_id botConfig)
                                                      (Some (Feed.items feed))) ;;
          update (fun r => setItemsNew (itemsNew r + List.length newItems) r) ;;;
          match newItems with
          | [] => feedLoop botConfig rest
          | _ :: _ =>
              let itemsWithSource := List.map (withSource feed) newItems in
              more <- feedLoop botConfig rest ;;
              ret (itemsWithSource ++ more)
          end
      end
  end.

(** Step 6: the loop over [createdPosts]. *)
Fixpoint markLoop (botConfig : BotConfig) (createdPosts : list (Post.row * Item.t))
  : M World unit :=
  match createdPosts with
  | [] => ret tt
  | (post, item) :: rest =>
      markItemAsProcessed (cfg_id botConfig) (cfg_username botConfig)
                          item (Some (Post.id post)) ;;;
      markLoop botConfig rest
  end.

(** Steps 4 to 6, which both modes share. *)
Definition publishAndRecord (botConfig : BotConfig) (itemsToProcess : list Item.t)
    (maxPostsPerRun : Z) (dryRun : bool) : Run unit :=
  let itemsWithSummaries := itemsToProcess in
  update (setItemsSummarized 0) ;;;
  createdPosts <- inWorld (createPostsBatch hostnameOf botConfig itemsWithSummaries
                                            (Some maxPostsPerRun) (Some dryRun)) ;;
  update (setPostsCreated (List.length createdPosts)) ;;;
  (if dryRun then ret tt else inWorld (markLoop botConfig createdPosts)) ;;;
  update (setSuccess true).

Definition profileNotFound (userId : string) : string :=
  ("Bot profile not found: " ++ userId
   ++ ". Run scripts/create-bot-profiles.sql first.")%string.

(** The [try] block of [runBot]; an early [return results] ends it. *)
Definition runBotBody (botConfig : BotConfig) (options : RunOptions) : Run unit :=
  let fetchWindowMinutes := default 60 (fetchWindowMinutes options) in
  let maxPostsPerRun := default 5 (maxPostsPerRun options) in
  let maxPostsPerFeed := default 2 (maxPostsPerFeed options) in
  let processFeedsSeparately := default true (processFeedsSeparately options) in
  let dryRun := default false (dryRun options) in
  profileExists <- inWorld (verifyBotProfile (cfg_user_id botConfig)) ;;
  if negb profileExists
  then throw (profileNotFound (cfg_user_id botConfig))
  else
    if processFeedsSeparately
    then
      separatedFeeds <- inWorld (fetchItemsForBotSeparately botConfig fetchWindowMinutes) ;;
      match separatedFeeds with
      | [] => update (setSuccess true)
      | _ :: _ =>
          update (setFeedsProcessed (List.length separatedFeeds)) ;;;
          itemsToProcess <- feedLoop botConfig separatedFeeds ;;
          match itemsToProcess with
          | [] => update (setSuccess true)
          | _ :: _ => publishAndRecord botConfig itemsToProcess maxPostsPerRun dryRun
          end
      end
    else
      items <- inWorld (fetchItemsForBot botConfig fetchWindowMinutes) ;;
      update (setItemsFetched (List.length items)) ;;;
      match items with
      | [] => update (setSuccess true)
      | _ :: _ =>
          newItems <- inWorld (filterUnprocessedItems (cfg_id botConfig) (Some items)) ;;
          update (setItemsNew (List.length newItems)) ;;;
          match newItems with
          | [] => update (setSuccess true)
          | _ :: _ =>
              let itemsToProcess := List.map withOriginal newItems in
              publishAndRecord botConfig itemsToProcess maxPostsPerRun dryRun
          end
      end.

Definition initialResults (botConfig : BotConfig) : RunResults :=
  mkRunResults (cfg_id botConfig) (cfg_name botConfig) false 0 0 0 0 0 [] 0.

(** [try { .. } catch (error) { .. } finally { .. }] and
    [return results]. *)
Definition runBot (botConfig : BotConfig) (options : RunOptions) : M World RunResults :=
  fun w =>
    let startTime := clock w in
    let results := initialResults botConfig in
    match tryCatch (runBotBody botConfig options)
                   (fun message => update (pushError message) ;;;
                                   update (setSuccess false))
                   (w, results) with
    | (Ret _, (w', results')) =>
        (Ret (setDuration (clock w' - startTime) results'), w')
    | (Throw e, (w', _)) => (Throw e, w')
    end.

(** An element of the array [runMultipleBots] returns: the results of a
    run, or the shorter object its [catch] block builds. *)
Inductive BotEntry :=
| Completed (results : RunResults)
| Fatal (botId botName : string) (errors : list string).

Fixpoint runMultipleBots (botConfigs : list BotConfig) (options : RunOptions)
  : M World (list BotEntry) :=
  match botConfigs with
  | [] => ret []
  | botConfig :: rest =>
      entry <-
        tryCatch
          (result <- runBot botConfig options ;;
           sleep 2000 ;;;
           ret (Completed result))
          (fun message =>
             ret (Fatal (cfg_id botConfig) (cfg_name botConfig) [message])) ;;
      allResults <- runMultipleBots rest options ;;
      ret (entry :: allResults)
  end.

End BotRunner.

(** ** Entry point (bots/index.js) *)

(** The environment variables [RUN_OPTIONS] reads, the numeric ones after
    [parseInt] ([None] is NaN, for an unset or non-numeric variable). *)
Record ProcessEnv := mkProcessEnv {
  FETCH_WINDOW_MINUTES : option Z;
  MAX_POSTS_PER_RUN : option Z;
  MAX_POSTS_PER_FEED : option Z;
  PROCESS_FEEDS_SEPARATELY : option string;
  OPENAI_DELAY_MS : option Z;
  OPENAI_MODEL : option string;
  DRY_RUN : option string
}.

(** [parseInt(v) || d] *)
Definition intOr (v : option Z) (d : Z) : Z :=
  match v with
  | Some n => if n =? 0 then d else n
  | None => d
  end.

Definition RUN_OPTIONS (e : ProcessEnv) : RunOptions :=
  mkRunOptions
    (Some (intOr (FETCH_WINDOW_MINUTES e) 60))
    (Some (intOr (MAX_POSTS_PER_RUN e) 999999))
    (Some (intOr (MAX_POSTS_PER_FEED e) 999999))
    (Some (negb (match PROCESS_FEEDS_SEPARATELY e with
                 | Some s => String.eqb s "false"
                 | None => false
                 end)))
    (Some (intOr (OPENAI_DELAY_MS e) 1000))
    (Some (JS.orS (OPENAI_MODEL e) "gpt-4o-mini"))
    (Some (match DRY_RUN e with
           | Some s => String.eqb s "true"
           | None => false
           end)).


(** ** Reasoning about awaited computations *)

(** [m], started in [s], returns a value and leaves a state that satisfy
    [Q]; in particular it does not throw. *)
Definition returns {S A} (m : M S A) (s : S) (Q : A -> S -> Prop) : Prop :=
  match m s with
  | (Ret a, s') => Q a s'
  | (Throw _, _) => False
  end.

(** The requests that write to a table. *)
Definition isWrite (req : Request) : bool :=
  match req with
  | InsertProcessed _ | InsertPost _ => true
  | _ => false
  end.

(** [w'] is [w] after some requests [sent] went out: the clock may have
    moved, the tables are for the caller to compare. *)
Definition laterThan (w w' : World) (sentNow : list Request) : Prop :=
  trace w' = trace w ++ sentNow
  /\ calls w' = (calls w + List.length sentNow)%nat
  /\ env w' = env w
  /\ latency w' = latency w
  /\ profiles w' = profiles w
  /\ rssSeparately w' = rssSeparately w
  /\ rssCombined w' = rssCombined w.

(** A row of the ledger stands for [item] under bot [botId]: same GUID or
    same link. *)
Definition recorded (botId : string) (item : Item.t) (t : list Ledger.row) : bool :=
  List.existsb (Ledger.sameGuid botId (Item.guid item)) t
  || List.existsb (Ledger.sameLink botId (Item.link item)) t.

(** No lookup of the world meets a fault (its writes may). *)
Definition lookupsOk (w : World) : Prop :=
  forall n req, isWrite req = false -> env w n req = NoFault.

(** The summarization call fails: it rejects, or its answer holds no
    text. *)
Definition summarizationFails (o : result (option string)) : Prop :=
  match o with
  | Throw _ => True
  | Ret None => True
  | Ret (Some s) => JS.trim s = EmptyString
  end.

(** ** Notions the properties are stated with *)

(** The row a call of [markItemAsProcessed] sends. *)
Definition rowFor (botId botUsername : string) (item : Item.t)
    (postId : option nat) (w : World) : Ledger.row :=
  Ledger.mk (Item.feedUrl item) (Item.guid item) (Item.link item)
            (Item.title item) botId botUsername postId (clock w).

(** Nothing was written between [w] and [w']. *)
Definition quiet (w w' : World) : Prop :=
  ledger w' = ledger w /\ posts w' = posts w
  /\ exists d, laterThan w w' d /\ List.forallb (fun q => negb (isWrite q)) d = true.

(** The item is new for the bot: no row of the table stands for it. *)
Definition newFor (botId : string) (t : list Ledger.row) (item : Item.t) : bool :=
  negb (recorded botId item t).

(** [l'] is [l] without some items, none of which satisfies [P]. *)
Inductive kept (P : Item.t -> bool) : list Item.t -> list Item.t -> Prop :=
| kept_nil : kept P [] []
| kept_keep x l l' : kept P l l' -> kept P (x :: l) (x :: l')
| kept_drop x l l' : P x = false -> kept P l l' -> kept P (x :: l) l'.

(** The row [createPost] sends at time [t]. *)
Definition postDataFor (botConfig : BotConfig) (content : string)
    (sourceUrl sourceName originalContent aiSummary : option string) (t : Z)
  : Post.data :=
  Post.mkData
    (match sourceName with
     | Some name => if JS.truthy sourceName then sourceLabel name content else content
     | None => content
     end)
    "rss_bot" originalContent aiSummary sourceUrl sourceName
    (cfg_user_id botConfig) (cfg_name botConfig)
    (cfg_email botConfig) (cfg_avatar_url botConfig) [] t t.

(** The row [createPostsBatch] has [createPost] send for [item]. *)
Definition postDataOf (hostnameOf : string -> option string)
    (botConfig : BotConfig) (item : Item.t) (t : Z) : Post.data :=
  postDataFor botConfig (displayContentOf item) (Some (Item.link item))
    (Some (sourceNameOf hostnameOf item)) (Some (originalContentOf item))
    (Item.aiSummary item) t.

(** The write of [item]'s post, as a request of the trace. *)
Definition writesPostOf (hostnameOf : string -> option string)
    (botConfig : BotConfig) (q : Request) (item : Item.t) : Prop :=
  exists t, q = InsertPost (postDataOf hostnameOf botConfig item t).

(** The requests that write a post. *)
Definition isPostWrite (q : Request) : bool :=
  match q with
  | InsertPost _ => true
  | _ => false
  end.

(** The fields of [results] that only the end of a run touches. *)
Definition steady (r r' : RunResults) : Prop :=
  botId r' = botId r /\ botName r' = botName r /\ success r' = success r
  /\ itemsSummarized r' = itemsSummarized r /\ postsCreated r' = postsCreated r
  /\ errors r' = errors r /\ duration r' = duration r.

(** [options] with another per-source cap. *)
Definition withMaxPostsPerFeed (cap : option Z) (options : RunOptions) : RunOptions :=
  mkRunOptions (fetchWindowMinutes options) (maxPostsPerRun options) cap
               (processFeedsSeparately options) (openaiDelayMs options)
               (openaiModel options) (dryRun options).

Section Candidates.

Variable hostnameOf : string -> option string.

(** The items of the sources, each with its source attached, in the order
    [runBot] goes through them. *)
Definition allOf (feeds : list Feed.t) : list Item.t :=
  List.concat (List.map (fun feed => List.map (withSource hostnameOf feed) (Feed.items feed))
                        feeds).

(** The items a run has to choose from: what the fetcher returns, as the
    runner prepares it, or the fetcher's exception. *)
Definition candidates (botConfig : BotConfig) (options : RunOptions) (w : World)
  : result (list Item.t) :=
  if default true (processFeedsSeparately options)
  then match rssSeparately w botConfig (default 60 (fetchWindowMinutes options)) with
       | Ret feeds => Ret (allOf feeds)
       | Throw e => Throw e
       end
  else match rssCombined w botConfig (default 60 (fetchWindowMinutes options)) with
       | Ret items => Ret (List.map withOriginal items)
       | Throw e => Throw e
       end.

End Candidates.

(** The bots of a list are run one after the other from [w] on: each
    entry carries what [runBot] returns for its bot, started in the world
    the run before left, two seconds later. *)
Inductive ranInTurn (hostnameOf : string -> option string) (options : RunOptions)
  : list BotConfig -> World -> list BotEntry -> World -> Prop :=
| ranInTurn_nil (w : World) : ranInTurn hostnameOf options [] w [] w
| ranInTurn_cons (botConfig : BotConfig) (rest : list BotConfig) (w w1 w' : World)
    (results : RunResults) (entries : list BotEntry) :
    runBot hostnameOf botConfig options w = (Ret results, w1) ->
    ranInTurn hostnameOf options rest (setClock (clock w1 + 2000) w1) entries w' ->
    ranInTurn hostnameOf options (botConfig :: rest) w (Completed results :: entries) w'.

(** ** Date strings

    Modelled from ECMAScript's Date Time String Format, for the one shape
    [Date.prototype.toISOString] produces, [YYYY-MM-DDTHH:mm:ss.sssZ]; the
    examples read their dates with it. *)
Module IsoDate.

Definition digitOf (c : ascii) : option Z :=
  let n := Z.of_nat (nat_of_ascii c) in
  if (48 <=? n) && (n <=? 57) then Some (n - 48) else None.

Fixpoint number (cs : list ascii) (acc : Z) : option Z :=
  match cs with
  | [] => Some acc
  | c :: r =>
      match digitOf c with
      | Some d => number r (acc * 10 + d)
      | None => None
      end
  end.

Definition field (s : string) (from len : nat) : option Z :=
  number (list_ascii_of_string (String.substring from len s)) 0.

Definition charAt (s : string) (i : nat) (c : ascii) : bool :=
  match String.get i s with
  | Some c' => Ascii.eqb c c'
  | None => false
  end.

Definition isLeap (y : Z) : bool :=
  (y mod 4 =? 0) && (negb (y mod 100 =? 0) || (y mod 400 =? 0)).

Definition daysInMonth (y m : Z) : Z :=
  if m =? 2 then (if isLeap y then 29 else 28)
  else if (m =? 4) || (m =? 6) || (m =? 9) || (m =? 11) then 30 else 31.

(** Days from 1970-01-01 to the given day of the Gregorian calendar. *)
Definition daysFromCivil (y m d : Z) : Z :=
  let y' := if m <=? 2 then y - 1 else y in
  let era := y' / 400 in
  let yoe := y' - era * 400 in
  let mp := if 2 <? m then m - 3 else m + 9 in
  let doy := (153 * mp + 2) / 5 + d - 1 in
  let doe := yoe * 365 + yoe / 4 - yoe / 100 + doy in
  era * 146097 + doe - 719468.

Definition parse (s : string) : option Z :=
  if (String.length s =? 24)%nat
     && charAt s 4 "-" && charAt s 7 "-" && charAt s 10 "T"
     && charAt s 13 ":" && charAt s 16 ":" && charAt s 19 "." && charAt s 23 "Z"
  then
    match field s 0 4, field s 5 2, field s 8 2, field s 11 2,
          field s 14 2, field s 17 2, field s 20 3 with
    | Some y, Some mo, Some d, Some h, Some mi, Some sec, Some ms =>
        if (1 <=? mo) && (mo <=? 12) && (1 <=? d) && (d <=? daysInMonth y mo)
           && (h <=? 23) && (mi <=? 59) && (sec <=? 59)
        then JS.timeClip (daysFromCivil y mo d * 86400000 + h * 3600000
                          + mi * 60000 + sec * 1000 + ms)
        else None
    | _, _, _, _, _, _, _ => None
    end
  else None.

End IsoDate.

(** [new URL(u).hostname] for the plain [scheme://host/path] addresses of
    the examples. *)
Fixpoint afterSlashes (s : string) : option string :=
  match s with
  | String a r =>
      if String.prefix "://" s
      then Some (String.substring 3 (String.length s - 3) s)
      else afterSlashes r
  | EmptyString => None
  end.

Fixpoint untilSlash (s : string) : string :=
  match s with
  | String c r => if Ascii.eqb c "/" then EmptyString else String c (untilSlash r)
  | EmptyString => EmptyString
  end.

Definition plainHostname (u : string) : option string :=
  match afterSlashes u with
  | Some rest =>
      match untilSlash rest with
      | EmptyString => None
      | h => Some h
      end
  | None => None
  end.

(** ** Examples: a bot, its three sources and a store *)

Module Fixture.

Local Open Scope string_scope.

(** 2024-01-01T01:00:00.000Z *)
Definition now : Z := 1704070800000.

Definition rawAt (title date : string) : RawItem :=
  mkRawItem (Some title) (Some date) None None.

(** Aged exactly 60 minutes at [now]. *)
Definition aged60m00s : RawItem := rawAt "sixty" "2024-01-01T00:00:00.000Z".
(** Aged 59 minutes 59 seconds at [now]. *)
Definition aged59m59s : RawItem := rawAt "fifty-nine" "2024-01-01T00:00:01.000Z".
(** Aged 60 minutes and one millisecond at [now]. *)
Definition aged60m00s001 : RawItem := rawAt "older" "2023-12-31T23:59:59.999Z".
(** Dated one hour after [now]. *)
Definition postdated : RawItem := rawAt "postdated" "2024-01-01T02:00:00.000Z".
Definition undated : RawItem := mkRawItem (Some "undated") None None None.
Definition misdated : RawItem := rawAt "misdated" "yesterday".

Definition bot : BotConfig :=
  mkBotConfig "us-politics-bot" "US Politics Bot" "uspolitics"
    "uspolitics@bato.bot" "bot_uspolitics"
    "https://api.dicebear.com/7.x/icons/svg?seed=uspolitics"
    ["https://a.example/rss"; "https://b.example/rss"; "https://c.example/rss"]
    "*/15 * * * *" None.

Definition otherBot : BotConfig :=
  mkBotConfig "tech-news-bot" "Tech News Bot" "technews"
    "technews@bato.bot" "bot_technews"
    "https://api.dicebear.com/7.x/icons/svg?seed=technews"
    ["https://a.example/rss"] "*/10 * * * *" None.

Definition item (feedUrl name : string) : Item.t :=
  Item.mk ("guid-" ++ name) ("https://" ++ name ++ ".example/story")
          ("Story " ++ name) ("Text of " ++ name)
          (Some "2024-01-01T00:30:00.000Z") None [] feedUrl None None None.

Definition feedA : Feed.t :=
  Feed.mk "https://a.example/rss" (Some "Source A")
    (List.map (item "https://a.example/rss") ["a1"; "a2"; "a3"; "a4"; "a5"]).

Definition feedB : Feed.t :=
  Feed.mk "https://b.example/rss" (Some "Source B")
    (List.map (item "https://b.example/rss") ["b1"; "b2"; "b3"; "b4"; "b5"]).

Definition feedC : Feed.t :=
  Feed.mk "https://c.example/rss" (Some "Source C")
    (List.map (item "https://c.example/rss") ["c1"]).

Definition noFault : nat -> Request -> Fault := fun _ _ => NoFault.

(** A store that knows the bot, holds no post and no ledger row, and a
    fetcher that returns the three sources. *)
Definition world (e : nat -> Request -> Fault) (t : list Ledger.row) : World :=
  mkWorld t []
    [mkProfile "bot_uspolitics" "uspolitics" "US Politics Bot"]
    e 0 [] now (fun _ => 20)
    (fun _ _ => Ret [feedA; feedB; feedC])
    (fun _ _ => Ret (Feed.items feedA ++ Feed.items feedB ++ Feed.items feedC)%list).

(** Options with a per-source cap of 2 and an overall cap of 5. *)
Definition capped : RunOptions :=
  mkRunOptions (Some 60) (Some 5) (Some 2) (Some true) None None None.

(** The first item of the first source, and the row that records it. *)
Definition a1 : Item.t := item "https://a.example/rss" "a1".
Definition a2 : Item.t := item "https://a.example/rss" "a2".

Definition rowOf (b : BotConfig) (it : Item.t) : Ledger.row :=
  Ledger.mk (Item.feedUrl it) (Item.guid it) (Item.link it) (Item.title it)
            (cfg_id b) (cfg_username b) (Some 0%nat) now.

(** [a1] again, under another link; and under another GUID. *)
Definition relinked : Item.t :=
  Item.mk "guid-a1" "https://a1.example/story?utm_source=rss" "Story a1" "Text of a1"
          (Some "2024-01-01T00:30:00.000Z") None [] "https://a.example/rss" None None None.

Definition reguided : Item.t :=
  Item.mk "guid-a1-v2" "https://a1.example/story" "Story a1" "Text of a1"
          (Some "2024-01-01T00:30:00.000Z") None [] "https://a.example/rss" None None None.

(** A ledger with a row for each of the eleven items. *)
Definition fullLedger : list Ledger.row :=
  List.map (rowOf bot)
    (Feed.items feedA ++ Feed.items feedB ++ Feed.items feedC)%list.

(** Every GUID lookup is answered by an error object. *)
Definition guidLookupsFail : nat -> Request -> Fault :=
  fun _ q =>
    match q with
    | SelectByGuid _ _ => ErrorReply "503"
    | _ => NoFault
    end.

(** Every request is answered by an error object. *)
Definition storeDown : nat -> Request -> Fault := fun _ _ => ErrorReply "503".

(** The writes of the posts for [link] fail, nothing else does. *)
Definition writesFailFor (link : string) : nat -> Request -> Fault :=
  fun _ q =>
    match q with
    | InsertPost d =>
        match Post.rss_source_url d with
        | Some u => if String.eqb u link then ErrorReply "500" else NoFault
        | None => NoFault
        end
    | _ => NoFault
    end.

Fixpoint repeatChar (c : ascii) (n : nat) : string :=
  match n with
  | O => EmptyString
  | S k => String c (repeatChar c k)
  end.

(** An item whose title alone has 280 characters. *)
Definition longItem : Item.t :=
  Item.mk "guid-long" "https://long.example/story" (repeatChar "a" 280) "Text"
          (Some "2024-01-01T00:30:00.000Z") None [] "https://a.example/rss" None None None.

(** A summarization service that is down. *)
Definition downOpenAI : OpenAI := fun _ => Throw "503 Service Unavailable".

End Fixture.


(** ** Feed fetcher: fetching and normalizing (bots/lib/rss-fetcher.js) *)

(** An item as the feed parser hands it over, with the fields
    [normalizeItem] reads. The feeds considered are those whose items all
    carry a link, as the item of the runner does. *)
Module Entry.
Record t := mk {
  title : option string;
  pubDate : option string;
  published : option string;
  isoDate : option string;
  guid : option string;
  id : option string;
  link : string;
  contentSnippet : option string;
  content : option string;
  description : option string;
  summary : option string;
  creator : option string;
  author : option string;
  categories : option (list string)
}.

(** The fields the date filter reads. *)
Definition raw (e : t) : RawItem :=
  mkRawItem (title e) (pubDate e) (published e) (isoDate e).
End Entry.

(** What [parser.parseURL] resolves to. *)
Record ParsedFeed := mkParsedFeed {
  feed_title : option string;
  feed_items : option (list Entry.t)
}.

(** What [fetchFeed] returns. *)
Record FeedResult := mkFeedResult {
  fr_success : bool;
  fr_feedUrl : string;
  fr_title : option string;
  fr_items : list Entry.t;
  fr_error : option string
}.

Module RssFetcher.

Section Fetcher.

(** [new Date(s).getTime()] for a date string: [None] is NaN. *)
Variable parseDate : string -> option Z.

(** [parser.parseURL]: the parsed feed, or the rejection's message. *)
Variable parseURL : string -> result ParsedFeed.

Definition fetchFeed (feedUrl : string) : FeedResult :=
  match parseURL feedUrl with
  | Ret feed =>
      mkFeedResult true feedUrl (feed_title feed) (default [] (feed_items feed)) None
  | Throw message => mkFeedResult false feedUrl None [] (Some message)
  end.

(** [filterItemsByDate] on the parser's items: the callback is the one of
    the date filter, which reads the four fields of [Entry.raw]. *)
Definition filterEntriesByDate (now : Z) (items : list Entry.t)
    (minutesAgo : option Z) : list Entry.t :=
  let minutesAgo := default 60 minutesAgo in
  let cutoffTime := JS.timeClip (now - minutesAgo * 60 * 1000) in
  List.filter (fun e => keepByDate parseDate cutoffTime (Entry.raw e)) items.

Definition normalizeItem (item : Entry.t) (feedUrl : string) : Item.t :=
  let content :=
    JS.orS (JS.or (JS.or (JS.or (Entry.contentSnippet item) (Entry.content item))
                         (Entry.description item))
                  (Entry.summary item))
           EmptyString in
  let pubDate := JS.or (JS.or (Entry.pubDate item) (Entry.published item))
                       (Entry.isoDate item) in
  let guid := JS.orS (JS.or (Entry.guid item) (Entry.id item)) (Entry.link item) in
  Item.mk guid (Entry.link item) (JS.orS (Entry.title item) "Untitled")
          (JS.trim content) pubDate
          (if JS.truthy (JS.or (Entry.creator item) (Entry.author item))
           then JS.or (Entry.creator item) (Entry.author item) else None)
          (default [] (Entry.categories item))
          feedUrl None None None.

(** [item.pubDateObject], the [Date] made of [item.pubDate]. *)
Definition pubDateObject (item : Item.t) : option Z :=
  match Item.pubDate item with
  | Some s => parseDate s
  | None => None
  end.

(** The comparator [(a, b) => b.pubDateObject - a.pubDateObject] is
    positive: [b] goes before [a]. A NaN is no such answer. *)
Definition goesBefore (b a : Item.t) : bool :=
  match pubDateObject b, pubDateObject a with
  | Some tb, Some ta => ta <? tb
  | _, _ => false
  end.

(** [allItems.sort(comparator)]: the sort is stable, and an answer that
    is NaN counts as 0. *)
Fixpoint insertByDate (x : Item.t) (sorted : list Item.t) : list Item.t :=
  match sorted with
  | [] => [x]
  | y :: rest => if goesBefore y x then y :: insertByDate x rest else x :: sorted
  end.

Definition sortByDate (items : list Item.t) : list Item.t :=
  List.fold_right insertByDate [] items.

(** The loop over [feedResults]: what it pushes to [allItems]. *)
Fixpoint collectRecent (now : Z) (feedResults : list FeedResult)
    (minutesAgo : option Z) : list Item.t :=
  match feedResults with
  | [] => []
  | result :: rest =>
      if negb (fr_success result) then collectRecent now rest minutesAgo
      else
        let recentItems := filterEntriesByDate now (fr_items result) minutesAgo in
        let normalizedItems :=
          List.map (fun item => normalizeItem item (fr_feedUrl result)) recentItems in
        normalizedItems ++ collectRecent now rest minutesAgo
  end.

(** [now] is the reading of [Date.now()] the date filter takes: the loop
    over the results does not await, and the clock is read as standing
    still during it. *)
Definition fetchMultipleFeeds (now : Z) (feedUrls : list string)
    (minutesAgo : option Z) : list Item.t :=
  let feedResults := List.map fetchFeed feedUrls in
  sortByDate (collectRecent now feedResults minutesAgo).

Definition fetchItemsForBot (now : Z) (botConfig : BotConfig)
    (minutesAgo : option Z) : list Item.t :=
  match cfg_feeds botConfig with
  | [] => []
  | _ :: _ => fetchMultipleFeeds now (cfg_feeds botConfig) minutesAgo
  end.

End Fetcher.

End RssFetcher.

(** ** Deduplication service: cleanup and statistics
       (bots/lib/deduplicator.js)

    The two functions send requests of their own, a delete and two
    counts, which are not among the requests the world counts and
    answers: the fault each of them meets is an argument, and the clock
    is read as standing still. *)

Section Cleanup.

(** [d.setDate(d.getDate() - days)] on a [Date] that holds [t]: the time
    the [Date] holds then, [None] when it is an Invalid Date. *)
Variable setDateBack : Z -> Z -> option Z.

(** [.from('processed_rss_items').delete().lt('processed_at', cutoff)
    .select('id')]: the rows it deleted. *)
Definition deleteProcessedBefore (answer : Fault) (cutoff : Z)
  : M World (Reply (list Ledger.row)) :=
  fun w =>
    match answer with
    | NoFault =>
        (Ret (Data (List.filter (fun r => Ledger.processed_at r <? cutoff) (ledger w))),
         setLedger (List.filter (fun r => negb (Ledger.processed_at r <? cutoff)) (ledger w)) w)
    | ErrorReply c => (Ret (Error c), w)
    | Rejects e => (Throw e, w)
    end.

Definition cleanupOldItems (answer : Fault) (daysOld : option Z) : M World nat :=
  let daysOld := default 30 daysOld in
  tryCatch
    (now <- Date_now ;;
     match setDateBack now daysOld with
     | None => throw "Invalid time value"
     | Some cutoffDate =>
         reply <- deleteProcessedBefore answer cutoffDate ;;
         match reply with
         | Error _ => ret 0%nat
         | Data data => ret (List.length data)
         end
     end)
    (fun _ => ret 0%nat).

End Cleanup.

(** What [getBotStats] returns. *)
Record BotStats := mkBotStats {
  stats_total : nat;
  stats_last24Hours : nat
}.

(** [.select('id', { count: 'exact', head: true })] with its filters:
    the number of rows that match. *)
Definition countProcessed (answer : Fault) (p : Ledger.row -> bool)
  : M World (Reply nat) :=
  fun w =>
    match answer with
    | NoFault => (Ret (Data (List.length (List.filter p (ledger w)))), w)
    | ErrorReply c => (Ret (Error c), w)
    | Rejects e => (Throw e, w)
    end.

(** [count || 0], the count being [null] under an error. *)
Definition countOf (r : Reply nat) : nat :=
  match r with
  | Data n => n
  | Error _ => 0%nat
  end.

Definition getBotStats (totalAnswer recentAnswer : Fault) (botId : string)
  : M World BotStats :=
  tryCatch
    (totalReply <- countProcessed totalAnswer
                     (fun r => String.eqb (Ledger.bot_id r) botId) ;;
     now <- Date_now ;;
     match JS.timeClip (now - 24 * 60 * 60 * 1000) with
     | None => throw "Invalid time value"
     | Some yesterday =>
         recentReply <- countProcessed recentAnswer
                          (fun r => String.eqb (Ledger.bot_id r) botId
                                    && (yesterday <=? Ledger.processed_at r)) ;;
         ret (mkBotStats (countOf totalReply) (countOf recentReply))
     end)
    (fun _ => ret (mkBotStats 0 0)).

(** ** Summarizer: the batch and the retry wrapper (bots/lib/summarizer.js) *)

(** The summarizer's [sleep]: the state is the time slept so far. *)
Definition sleepFor (ms : Z) : M Z unit := fun slept => (Ret tt, slept + ms).

(** A call of [generateSummary] from the batch. *)
Definition summarize (openai : OpenAI) (item : Item.t)
    (customPrompt model : option string) : M Z string :=
  fun slept => (fst (generateSummary openai item customPrompt model tt), slept).

(** The loop of [generateSummariesBatch]; an element of the result is
    [{ ...item, summary }]. *)
Fixpoint summariesLoop (openai : OpenAI) (remaining : list Item.t)
    (customPrompt : option string) (delayMs : Z) (model : option string)
  : M Z (list (Item.t * string)) :=
  match remaining with
  | [] => ret []
  | item :: rest =>
      pushed <-
        tryCatch
          (summary <- summarize openai item customPrompt model ;;
           (match rest with
            | [] => ret tt
            | _ :: _ => if 0 <? delayMs then sleepFor delayMs else ret tt
            end) ;;;
           ret [(item, summary)])
          (fun _ => ret []) ;;
      more <- summariesLoop openai rest customPrompt delayMs model ;;
      ret (pushed ++ more)
  end.

Definition generateSummariesBatch (openai : OpenAI) (items : list Item.t)
    (customPrompt : option string) (delayMs : option Z) (model : option string)
  : M Z (list (Item.t * string)) :=
  summariesLoop openai items customPrompt (default 1000 delayMs)
                (Some (default "gpt-4o-mini"%string model)).

(** An error as [retryWithBackoff] looks at it. *)
Record ApiError := mkApiError {
  err_status : option Z;
  err_message : string
}.

(** What one call of [fn] does. *)
Inductive Attempt (A : Type) :=
| Resolves (a : A)
| RejectsWith (e : ApiError).
Arguments Resolves {A} a.
Arguments RejectsWith {A} e.

(** What [retryWithBackoff] does in the end; [Throws None] is
    [throw undefined]. *)
Inductive RetryOutcome (A : Type) :=
| Returns (a : A)
| Throws (e : option ApiError).
Arguments Returns {A} a.
Arguments Throws {A} e.

(** The wrapper's account: the calls of [fn] made and the time slept. *)
Record RetryState := mkRetryState {
  retry_calls : nat;
  retry_slept : Z
}.

Definition isAuthError (e : ApiError) : bool :=
  match err_status e with
  | Some s => (s =? 401) || (s =? 403)
  | None => false
  end.

(** The [for] loop of [retryWithBackoff] from [attempt] on, [remaining]
    being the number of attempts left; [fn n] is what the [n]-th call of
    [fn] does. *)
Fixpoint retryFrom {A} (fn : nat -> Attempt A) (maxRetries delayMs : Z)
    (remaining : nat) (attempt : Z) (lastError : option ApiError)
    (st : RetryState) : RetryOutcome A * RetryState :=
  match remaining with
  | O => (Throws lastError, st)
  | S remaining' =>
      let called := mkRetryState (S (retry_calls st)) (retry_slept st) in
      match fn (retry_calls st) with
      | Resolves a => (Returns a, called)
      | RejectsWith error =>
          if isAuthError error then (Throws (Some error), called)
          else
            let waited :=
              if attempt <? maxRetries
              then mkRetryState (retry_calls called)
                                (retry_slept called + delayMs * attempt)
              else called in
            retryFrom fn maxRetries delayMs remaining' (attempt + 1) (Some error) waited
      end
  end.

Definition retryWithBackoff {A} (fn : nat -> Attempt A)
    (maxRetries delayMs : option Z) : RetryOutcome A * RetryState :=
  let maxRetries := default 3 maxRetries in
  let delayMs := default 1000 delayMs in
  retryFrom fn maxRetries delayMs (Z.to_nat maxRetries) 1 None (mkRetryState 0 0).

(** [() => generateSummary(openai, item, customPrompt, model)] *)
Definition summaryThunk (openai : OpenAI) (item : Item.t)
    (customPrompt model : option string) : nat -> Attempt string :=
  fun _ =>
    match fst (generateSummary openai item customPrompt model tt) with
    | Ret summary => Resolves summary
    | Throw message => RejectsWith (mkApiError None message)
    end.

Definition generateSummaryWithRetry (openai : OpenAI) (item : Item.t)
    (customPrompt model : option string) (maxRetries : option Z)
  : RetryOutcome string * RetryState :=
  retryWithBackoff
    (summaryThunk openai item customPrompt (Some (default "gpt-4o-mini"%string model)))
    (Some (default 3 maxRetries)) None.

(** [validateSummary(summary, minLength, maxLength)] *)
Definition validateSummary (summary : option string) (minLength maxLength : option Z)
  : bool :=
  let minLength := default 50 minLength in
  let maxLength := default 280 maxLength in
  match summary with
  | None => false
  | Some s =>
      if String.eqb s EmptyString then false
      else
        let length := Z.of_nat (String.length (JS.trim s)) in
        (minLength <=? length) && (length <=? maxLength)
  end.

(** ** Notions the properties of the fetcher, the retry wrapper and the
       runner are stated with *)

(** [a] carries a date that is not older than the date [b] carries. *)
Definition notOlder (parseDate : string -> option Z) (a b : Item.t) : Prop :=
  exists ta tb,
    RssFetcher.pubDateObject parseDate a = Some ta
    /\ RssFetcher.pubDateObject parseDate b = Some tb
    /\ tb <= ta.

(** [a] carries a date that parses. *)
Definition dated (parseDate : string -> option Z) (a : Item.t) : Prop :=
  exists t, RssFetcher.pubDateObject parseDate a = Some t.

(** The feed at this address can be fetched. *)
Definition reachable (parseURL : string -> result ParsedFeed) (feedUrl : string) : bool :=
  match parseURL feedUrl with
  | Ret _ => true
  | Throw _ => false
  end.

(** The time slept before the [k]-th retry: [delayMs * (1 + ... + k)]. *)
Definition backoff (delayMs : Z) (k : nat) : Z :=
  delayMs * (Z.of_nat k * (Z.of_nat k + 1) / 2).

(** The ledger row that records the created post [c]. *)
Definition recordsPost (botConfig : BotConfig) (r : Ledger.row)
    (c : Post.row * Item.t) : Prop :=
  exists t,
    r = Ledger.mk (Item.feedUrl (snd c)) (Item.guid (snd c)) (Item.link (snd c))
                  (Item.title (snd c)) (cfg_id botConfig) (cfg_username botConfig)
                  (Some (Post.id (fst c))) t.

(** ** Sample feeds, errors and options *)
Module Sample.

Local Open Scope string_scope.

Definition entry (name date : string) : Entry.t :=
  Entry.mk (Some ("Story " ++ name)) (Some date) None None
           (Some ("guid-" ++ name)) None ("https://" ++ name ++ ".example/story")
           None (Some ("Text of " ++ name)) None None None None None.

(** The first feed answers with an entry aged 30 minutes at
    [Fixture.now] and one aged two hours; the others cannot be reached. *)
Definition parseURL (feedUrl : string) : result ParsedFeed :=
  if String.eqb feedUrl "https://a.example/rss"
  then Ret (mkParsedFeed (Some "Source A")
              (Some [entry "a1" "2024-01-01T00:30:00.000Z";
                     entry "a0" "2023-12-31T23:00:00.000Z"]))
  else Throw "getaddrinfo ENOTFOUND".

(** The world of [Fixture.world] with the fetcher of rss-fetcher.js,
    read at [Fixture.now], for its combined fetch. *)
Definition world (e : nat -> Request -> Fault) (t : list Ledger.row) : World :=
  mkWorld t []
    [mkProfile "bot_uspolitics" "uspolitics" "US Politics Bot"]
    e 0 [] Fixture.now (fun _ => 20)
    (fun _ _ => Ret [])
    (fun botConfig minutesAgo =>
       Ret (RssFetcher.fetchItemsForBot IsoDate.parse parseURL Fixture.now
              botConfig (Some minutesAgo))).





(** Options of a dry run. *)
Definition dry : RunOptions :=
  mkRunOptions (Some 60) (Some 5) (Some 2) (Some true) None None (Some true).

(** An environment that asks for a run cap of 0. *)
Definition zeroCap : ProcessEnv :=
  mkProcessEnv None (Some 0) None None None None None.

(** [setDate] under a calendar without clock changes (TZ=UTC): a day is
    86400000 ms. *)
Definition setDateBackUTC (t days : Z) : option Z :=
  JS.timeClip (t - days * 86400000).

(** The row of [Fixture.a1], processed 31 days before [Fixture.now]. *)
Definition oldRow : Ledger.row :=
  Ledger.mk "https://a.example/rss" "guid-a1" "https://a1.example/story" "Story a1"
            "us-politics-bot" "uspolitics" (Some 0%nat)
            (Fixture.now - 31 * 86400000).

Definition rateLimited : ApiError := mkApiError (Some 429) "Rate limit reached".
Definition unauthorized : ApiError := mkApiError (Some 401) "Incorrect API key".

(** A call that fails twice under the rate limit and then answers. *)
Definition thirdTimeLucky (n : nat) : Attempt string :=
  if (n <? 2)%nat then RejectsWith rateLimited else Resolves "A summary".

(** A call that fails under the rate limit every time. *)
Definition alwaysLimited (n : nat) : Attempt string := RejectsWith rateLimited.

End Sample.

(** * Properties *)

(** ** Strings *)

Lemma substring0_length (n : nat) (s : string) :
  (String.length (JS.substring0 n s) <= n)%nat.
Proof.
  unfold JS.substring0. revert s.
  induction n as [|n IH]; intros [|c s]; simpl; try lia.
  specialize (IH s). lia.
Qed.

Lemma substring0_short (n : nat) (s : string) :
  (String.length s <= n)%nat -> JS.substring0 n s = s.
Proof.
  unfold JS.substring0. revert n.
  induction s as [|c s IH]; intros [|n] H; simpl in *; try reflexivity; try lia.
  f_equal. apply IH. lia.
Qed.

Lemma string_length_app (a b : string) :
  String.length (a ++ b) = (String.length a + String.length b)%nat.
Proof. induction a as [|c a IH]; simpl; [reflexivity | now rewrite IH]. Qed.

Lemma substring_skip (a s : string) (n : nat) :
  String.substring (String.length a) n (a ++ s) = String.substring 0 n s.
Proof. induction a as [|c a IH]; simpl; [reflexivity | exact IH]. Qed.

Lemma substring_head (b c : string) :
  String.substring 0 (String.length b) (b ++ c) = b.
Proof.
  induction b as [|x b IH]; simpl.
  - destruct c; reflexivity.
  - now rewrite IH.
Qed.

(** A string includes each of the pieces it is made of. *)
Lemma includes_middle (a b c : string) :
  JS.includes (a ++ b ++ c) b = true.
Proof.
  unfold JS.includes.
  destruct (String.index 0 b (a ++ b ++ c)) eqn:E; [reflexivity | exfalso].
  destruct b as [|x b].
  - apply String.index_correct4 in E. lia.
  - apply (String.index_correct3 0 (String.length a)) in E; [| discriminate | lia].
    apply E. rewrite substring_skip. apply substring_head.
Qed.

Lemma includes_prefix (a c : string) : JS.includes (a ++ c) a = true.
Proof. exact (includes_middle EmptyString a c). Qed.

Lemma includes_suffix (a b : string) : JS.includes (a ++ b) b = true.
Proof.
  assert (H := includes_middle a b EmptyString).
  replace (b ++ "")%string with b in H; [exact H |].
  clear. induction b as [|x b IH]; simpl; [reflexivity | now rewrite <- IH].
Qed.

(** ** The date filter *)

Lemma truthy_Some (v : option string) :
  JS.truthy v = true <-> exists s, v = Some s /\ s <> EmptyString.
Proof.
  destruct v as [s|]; simpl.
  - destruct (String.eqb_spec s EmptyString) as [->|Hne]; simpl; split.
    + discriminate.
    + intros (s & [= <-] & H). now destruct H.
    + intros _. now exists s.
    + reflexivity.
  - split; [discriminate | intros (s & [=] & _)].
Qed.

Lemma keepByDate_iff parseDate cutoffTime item :
  keepByDate parseDate cutoffTime item = true <->
  exists s t cutoff,
    itemPubDate item = Some s /\ s <> EmptyString /\
    parseDate s = Some t /\ cutoffTime = Some cutoff /\ cutoff <= t.
Proof.
  unfold keepByDate.
  destruct (JS.truthy (itemPubDate item)) eqn:Ht; simpl.
  - apply truthy_Some in Ht. destruct Ht as (s & Hs & Hne). rewrite Hs.
    destruct (parseDate s) as [t|] eqn:Hp; simpl.
    + destruct cutoffTime as [c|]; simpl.
      * split.
        -- intros H. apply Z.leb_le in H. exists s, t, c. auto.
        -- intros (s' & t' & c' & [= <-] & _ & Hp' & [= <-] & Hle).
           rewrite Hp in Hp'. injection Hp' as <-. now apply Z.leb_le.
      * split; [discriminate | intros (? & ? & ? & _ & _ & _ & [=] & _)].
    + split; [discriminate |].
      intros (s' & t' & c' & [= <-] & _ & Hp' & _). congruence.
  - split; [discriminate |].
    intros (s & t & c & Hs & Hne & _).
    assert (JS.truthy (itemPubDate item) = true) by (apply truthy_Some; eauto).
    congruence.
Qed.

(** C2 (amended): [filterItemsByDate] retains an item exactly when the
    first non-empty of its [pubDate], [published] and [isoDate] exists and
    parses, and the item's age at the moment of the call is at most the
    window (the start of the window being a time a [Date] can hold): the
    bound is inclusive, so an item aged exactly the window (60m00s for a
    window of 60 minutes) is retained, as is a younger one (59m59s), while
    an undated item, one whose date does not parse and an older one are
    left out. *)
Theorem filterItemsByDate_window parseDate (now : Z) (items : list RawItem)
    (minutesAgo : option Z) (item : RawItem) :
  In item (filterItemsByDate parseDate now items minutesAgo) <->
  In item items /\
  exists s t,
    itemPubDate item = Some s /\ s <> EmptyString /\
    parseDate s = Some t /\
    Z.abs (now - default 60 minutesAgo * 60 * 1000) <= 8640000000000000 /\
    now - t <= default 60 minutesAgo * 60 * 1000.
Proof.
  unfold filterItemsByDate. rewrite List.filter_In, keepByDate_iff.
  unfold JS.timeClip.
  split; intros [Hin H]; split; try exact Hin.
  - destruct H as (s & t & c & Hs & Hne & Hp & Hc & Hle). exists s, t.
    destruct (Z.leb_spec (Z.abs (now - default 60 minutesAgo * 60 * 1000))
                8640000000000000); [| discriminate].
    injection Hc as <-. repeat split; auto; lia.
  - destruct H as (s & t & Hs & Hne & Hp & Hc & Hle).
    exists s, t, (now - default 60 minutesAgo * 60 * 1000).
    apply Z.leb_le in Hc. rewrite Hc. repeat split; auto; lia.
Qed.

(** C2, as stated, fails: with a window of 60 minutes the item aged
    exactly 60m00s is retained, not excluded. *)
Lemma boundary_item_retained :
  exists t,
    IsoDate.parse "2024-01-01T00:00:00.000Z" = Some t
    /\ Fixture.now - t = 60 * 60 * 1000
    /\ filterItemsByDate IsoDate.parse Fixture.now [Fixture.aged60m00s] (Some 60)
       = [Fixture.aged60m00s].
Proof. exists 1704067200000. repeat split. Qed.

Example filterItemsByDate_fixture :
  filterItemsByDate IsoDate.parse Fixture.now
    [Fixture.aged60m00s001; Fixture.aged60m00s; Fixture.undated;
     Fixture.aged59m59s; Fixture.misdated; Fixture.postdated] (Some 60)
  = [Fixture.aged60m00s; Fixture.aged59m59s; Fixture.postdated].
Proof. reflexivity. Qed.

(** The window is 60 minutes when the caller names none. *)
Example filterItemsByDate_default_window :
  filterItemsByDate IsoDate.parse Fixture.now
    [Fixture.aged60m00s001; Fixture.aged59m59s] None
  = [Fixture.aged59m59s].
Proof. reflexivity. Qed.

(** ** The summarizer's fallback *)

Lemma generateSummary_fallback (openai : OpenAI) (item : Item.t)
    (customPrompt model : option string) :
  summarizationFails
    (openai (mkChatRequest (default "gpt-4o-mini"%string model)
                           (JS.orS customPrompt defaultSystemPrompt)
                           (articleContent item) 150 7)) ->
  generateSummary openai item customPrompt model tt
  = (Ret (fallbackSummary item), tt).
Proof.
  unfold generateSummary, tryCatch, bind, summarizationFails.
  destruct (openai _) as [[s|]|e]; simpl; try reflexivity.
  intros ->. reflexivity.
Qed.

(** C6 (amended): when the summarization call fails (it rejects, or its
    answer holds no text), [generateSummary] returns the first 280
    characters of "<title> - <link>"; that string has at most 280
    characters, and it contains the title and the link whenever the whole
    of "<title> - <link>" fits in 280 characters. *)
Theorem generateSummary_fallback_on_error (openai : OpenAI) (item : Item.t)
    (customPrompt model : option string) :
  summarizationFails
    (openai (mkChatRequest (default "gpt-4o-mini"%string model)
                           (JS.orS customPrompt defaultSystemPrompt)
                           (articleContent item) 150 7)) ->
  exists fallback,
    generateSummary openai item customPrompt model tt = (Ret fallback, tt)
    /\ fallback = JS.substring0 280 (Item.title item ++ " - " ++ Item.link item)%string
    /\ (String.length fallback <= 280)%nat
    /\ ((String.length (Item.title item) + 3 + String.length (Item.link item) <= 280)%nat ->
        fallback = (Item.title item ++ " - " ++ Item.link item)%string
        /\ JS.includes fallback (Item.title item) = true
        /\ JS.includes fallback (Item.link item) = true).
Proof.
  intros Hfail. exists (fallbackSummary item).
  split; [now apply generateSummary_fallback |].
  split; [reflexivity |].
  split; [apply substring0_length |].
  intros Hfit. unfold fallbackSummary.
  rewrite substring0_short
    by (rewrite !string_length_app; simpl; lia).
  split; [reflexivity |]. split.
  - apply includes_prefix.
  -
    replace (Item.title item ++ " - " ++ Item.link item)%string
      with ((Item.title item ++ " - ") ++ Item.link item)%string.
    + apply includes_suffix.
    + clear. induction (Item.title item) as [|c t IH]; simpl; [reflexivity | now rewrite IH].
Qed.

(** ** Awaited computations *)

Lemma returns_ret {S A} (a : A) (s : S) (Q : A -> S -> Prop) :
  Q a s -> returns (ret a) s Q.
Proof. exact (fun H => H). Qed.

Lemma returns_bind {S A B} (m : M S A) (k : A -> M S B) (s : S) (Q : B -> S -> Prop) :
  returns m s (fun a s' => returns (k a) s' Q) -> returns (bind m k) s Q.
Proof.
  unfold returns, bind. destruct (m s) as [[a|e] s']; [exact (fun H => H) | intros []].
Qed.

Lemma returns_mono {S A} (m : M S A) (s : S) (P Q : A -> S -> Prop) :
  returns m s P -> (forall a s', P a s' -> Q a s') -> returns m s Q.
Proof.
  unfold returns. destruct (m s) as [[a|e] s']; [auto | intros []].
Qed.

Lemma returns_eq {S A} (m : M S A) (s : S) (Q : A -> S -> Prop) :
  returns m s Q -> exists a s', m s = (Ret a, s') /\ Q a s'.
Proof.
  unfold returns. destruct (m s) as [[a|e] s']; [eauto | intros []].
Qed.

Lemma eq_returns {S A} (m : M S A) (s s' : S) (a : A) (Q : A -> S -> Prop) :
  m s = (Ret a, s') -> Q a s' -> returns m s Q.
Proof. unfold returns. now intros ->. Qed.

(** ** The world between two moments *)

Lemma laterThan_refl (w : World) : laterThan w w [].
Proof.
  unfold laterThan. rewrite List.app_nil_r. simpl.
  repeat split; auto.
Qed.

Lemma laterThan_trans (w1 w2 w3 : World) (d1 d2 : list Request) :
  laterThan w1 w2 d1 -> laterThan w2 w3 d2 -> laterThan w1 w3 (d1 ++ d2).
Proof.
  unfold laterThan.
  intros (Ht1 & Hc1 & He1 & Hl1 & Hp1 & Hs1 & Hr1)
         (Ht2 & Hc2 & He2 & Hl2 & Hp2 & Hs2 & Hr2).
  rewrite Ht2, Ht1, Hc2, Hc1, He2, He1, Hl2, Hl1, Hp2, Hp1, Hs2, Hs1, Hr2, Hr1.
  rewrite List.length_app, <- List.app_assoc. repeat split; auto. lia.
Qed.

Lemma laterThan_sent (req : Request) (w : World) : laterThan w (sent req w) [req].
Proof. unfold laterThan. simpl. repeat split; auto. lia. Qed.

Lemma laterThan_setLedger (t : list Ledger.row) (w w' : World) (d : list Request) :
  laterThan w w' d -> laterThan w (setLedger t w') d.
Proof. exact (fun H => H). Qed.

Lemma laterThan_setPosts (p : list Post.row) (w w' : World) (d : list Request) :
  laterThan w w' d -> laterThan w (setPosts p w') d.
Proof. exact (fun H => H). Qed.

Lemma laterThan_setClock (t : Z) (w w' : World) (d : list Request) :
  laterThan w w' d -> laterThan w (setClock t w') d.
Proof. exact (fun H => H). Qed.

Lemma lookupsOk_later (w w' : World) (d : list Request) :
  laterThan w w' d -> lookupsOk w -> lookupsOk w'.
Proof. intros (_ & _ & He & _) H n req. rewrite He. apply H. Qed.

(** ** The ledger table *)

Lemma find_existsb {A} (p : A -> bool) (l : list A) :
  match List.find p l with Some _ => true | None => false end = List.existsb p l.
Proof.
  induction l as [|x l IH]; simpl; [reflexivity |].
  destruct (p x); [reflexivity | exact IH].
Qed.

Lemma conflicts_sym (r r' : Ledger.row) :
  Ledger.conflicts r r' = Ledger.conflicts r' r.
Proof.
  unfold Ledger.conflicts, Ledger.sameGuid, Ledger.sameLink.
  rewrite (String.eqb_sym (Ledger.bot_id r')), (String.eqb_sym (Ledger.item_guid r')),
          (String.eqb_sym (Ledger.item_link r')).
  reflexivity.
Qed.

Lemma existsb_snoc {A} (p : A -> bool) (l : list A) (x : A) :
  List.existsb p (l ++ [x]) = List.existsb p l || p x.
Proof. rewrite List.existsb_app. simpl. now rewrite orb_false_r. Qed.

Lemma unique_snoc (t : list Ledger.row) (r : Ledger.row) :
  Ledger.unique t -> List.existsb (Ledger.conflicts r) t = false ->
  Ledger.unique (t ++ [r]).
Proof.
  induction t as [|x t IH]; simpl; [auto |].
  intros [Hx Ht] Hr. apply orb_false_elim in Hr as [Hrx Hrt].
  split; [| now apply IH].
  rewrite existsb_snoc, Hx, conflicts_sym, Hrx. reflexivity.
Qed.

Lemma unique_countGuid (botId guid : string) (t : list Ledger.row) :
  Ledger.unique t -> (Ledger.countGuid botId guid t <= 1)%nat.
Proof.
  unfold Ledger.countGuid.
  induction t as [|r t IH]; simpl; [lia |].
  intros [Hr Ht]. specialize (IH Ht).
  destruct (Ledger.sameGuid botId guid r) eqn:E; [| exact IH].
  simpl. enough (List.filter (Ledger.sameGuid botId guid) t = []) as -> by (simpl; lia).
  apply andb_prop in E as [Eb Eg].
  apply String.eqb_eq in Eb, Eg. subst.
  clear IH Ht. induction t as [|x t IH]; simpl in *; [reflexivity |].
  apply orb_false_elim in Hr as [Hx Hr].
  unfold Ledger.conflicts in Hx. apply orb_false_elim in Hx as [Hx _].
  rewrite Hx. now apply IH.
Qed.

Lemma unique_countLink (botId link : string) (t : list Ledger.row) :
  Ledger.unique t -> (Ledger.countLink botId link t <= 1)%nat.
Proof.
  unfold Ledger.countLink.
  induction t as [|r t IH]; simpl; [lia |].
  intros [Hr Ht]. specialize (IH Ht).
  destruct (Ledger.sameLink botId link r) eqn:E; [| exact IH].
  simpl. enough (List.filter (Ledger.sameLink botId link) t = []) as -> by (simpl; lia).
  apply andb_prop in E as [Eb Eg].
  apply String.eqb_eq in Eb, Eg. subst.
  clear IH Ht. induction t as [|x t IH]; simpl in *; [reflexivity |].
  apply orb_false_elim in Hr as [Hx Hr].
  unfold Ledger.conflicts in Hx. apply orb_false_elim in Hx as [_ Hx].
  rewrite Hx. now apply IH.
Qed.

(** ** [markItemAsProcessed] *)


(** What one call does, by the fault it meets and by what the table
    holds. *)
Lemma markItemAsProcessed_cases (botId botUsername : string) (item : Item.t)
    (postId : option nat) (w : World) :
  let r := rowFor botId botUsername item postId w in
  markItemAsProcessed botId botUsername item postId w =
  match env w (calls w) (InsertProcessed r) with
  | NoFault =>
      if List.existsb (Ledger.conflicts r) (ledger w)
      then (Ret true, sent (InsertProcessed r) w)
      else (Ret true, setLedger (ledger w ++ [r]) (sent (InsertProcessed r) w))
  | ErrorReply c => (Ret (String.eqb c "23505"), sent (InsertProcessed r) w)
  | Rejects _ => (Ret false, sent (InsertProcessed r) w)
  end.
Proof.
  unfold markItemAsProcessed, tryCatch, bind, Date_now, insertProcessed, rowFor.
  simpl.
  destruct (env w (calls w) _) as [|c|e]; simpl; try reflexivity.
  - destruct (List.existsb _ (ledger w)); reflexivity.
  - destruct (String.eqb c "23505"); reflexivity.
Qed.

Lemma markItemAsProcessed_returns (botId botUsername : string) (item : Item.t)
    (postId : option nat) (w : World) :
  returns (markItemAsProcessed botId botUsername item postId) w
    (fun _ w' =>
       laterThan w w' [InsertProcessed (rowFor botId botUsername item postId w)]
       /\ posts w' = posts w
       /\ (ledger w' = ledger w
           \/ ledger w' = ledger w ++ [rowFor botId botUsername item postId w]
              /\ List.existsb (Ledger.conflicts (rowFor botId botUsername item postId w))
                              (ledger w) = false)).
Proof.
  unfold returns. rewrite markItemAsProcessed_cases.
  destruct (env w (calls w) _) as [|c|e];
    [destruct (List.existsb _ (ledger w)) eqn:E | |];
    (split; [first [apply laterThan_setLedger, laterThan_sent | apply laterThan_sent] |]);
    (split; [reflexivity |]); simpl; auto.
Qed.

(** C4: [markItemAsProcessed] never raises, whatever the store answers;
    two calls for the same bot and item leave at most one ledger row for
    the (bot, GUID) pair, and for the (bot, link) pair; and once a row for
    the item is in the ledger a further call, which the table refuses for
    its uniqueness constraint (code 23505), reports success and adds
    nothing. *)
Theorem markItemAsProcessed_idempotent (botId botUsername : string)
    (item : Item.t) (postId1 postId2 : option nat) (w : World) :
  Ledger.unique (ledger w) ->
  exists b1 w1 b2 w2,
    markItemAsProcessed botId botUsername item postId1 w = (Ret b1, w1)
    /\ markItemAsProcessed botId botUsername item postId2 w1 = (Ret b2, w2)
    /\ Ledger.unique (ledger w2)
    /\ (Ledger.countGuid botId (Item.guid item) (ledger w2) <= 1)%nat
    /\ (Ledger.countLink botId (Item.link item) (ledger w2) <= 1)%nat
    /\ (List.existsb (Ledger.sameGuid botId (Item.guid item)) (ledger w1) = true ->
        env w1 (calls w1)
            (InsertProcessed (rowFor botId botUsername item postId2 w1)) = NoFault
        \/ env w1 (calls w1)
               (InsertProcessed (rowFor botId botUsername item postId2 w1))
           = ErrorReply "23505" ->
        b2 = true /\ ledger w2 = ledger w1).
Proof.
  intros Hu.
  assert (Hstep : forall p v,
            Ledger.unique (ledger v) ->
            exists b v', markItemAsProcessed botId botUsername item p v = (Ret b, v')
                         /\ Ledger.unique (ledger v')).
  { intros p v Hv.
    destruct (returns_eq _ _ _ (markItemAsProcessed_returns botId botUsername item p v))
      as (b & v' & E & _ & _ & [Hl | [Hl Hc]]).
    - exists b, v'. rewrite Hl. auto.
    - exists b, v'. rewrite Hl. split; [exact E | now apply unique_snoc]. }
  destruct (Hstep postId1 w Hu) as (b1 & w1 & E1 & Hu1).
  destruct (Hstep postId2 w1 Hu1) as (b2 & w2 & E2 & Hu2).
  exists b1, w1, b2, w2.
  split; [exact E1 |]. split; [exact E2 |]. split; [exact Hu2 |].
  split; [now apply unique_countGuid |]. split; [now apply unique_countLink |].
  intros Hrow Hok.
  rewrite markItemAsProcessed_cases in E2. cbv zeta in E2.
  destruct Hok as [Hok | Hok]; rewrite Hok in E2;
    [| injection E2 as <- <-; split; reflexivity].
  assert (Hc : List.existsb
                 (Ledger.conflicts (rowFor botId botUsername item postId2 w1))
                 (ledger w1) = true).
  { apply List.existsb_exists in Hrow as (r & Hin & Hr).
    apply List.existsb_exists. exists r. split; [exact Hin |].
    unfold Ledger.conflicts, rowFor. simpl. now rewrite Hr. }
  rewrite Hc in E2. injection E2 as <- <-. split; reflexivity.
Qed.

(** ** [isItemProcessed] *)

(** What one call does, by the faults its two lookups meet and by what
    the table holds. *)
Lemma isItemProcessed_cases (botId : string) (item : Item.t) (w : World) :
  let byGuid := SelectByGuid botId (Item.guid item) in
  let byLink := SelectByLink botId (Item.link item) in
  let second :=
    match env w (S (calls w)) byLink with
    | NoFault =>
        (Ret (List.existsb (Ledger.sameLink botId (Item.link item)) (ledger w)),
         sent byLink (sent byGuid w))
    | _ => (Ret false, sent byLink (sent byGuid w))
    end in
  isItemProcessed botId item w =
  match env w (calls w) byGuid with
  | NoFault =>
      if List.existsb (Ledger.sameGuid botId (Item.guid item)) (ledger w)
      then (Ret true, sent byGuid w)
      else second
  | ErrorReply _ => second
  | Rejects _ => (Ret false, sent byGuid w)
  end.
Proof.
  cbv zeta.
  unfold isItemProcessed, tryCatch, bind, selectProcessed.
  destruct (env w (calls w) _) as [|c|e]; simpl; [| | reflexivity].
  - rewrite <- (find_existsb (Ledger.sameGuid _ _)).
    destruct (List.find (Ledger.sameGuid _ _) (ledger w)); simpl; [reflexivity |].
    destruct (env w (S (calls w)) _) as [|c|e]; simpl; try reflexivity.
    rewrite <- (find_existsb (Ledger.sameLink _ _)).
    destruct (List.find (Ledger.sameLink _ _) (ledger w)); reflexivity.
  - destruct (env w (S (calls w)) _) as [|c'|e]; simpl; try reflexivity.
    rewrite <- (find_existsb (Ledger.sameLink _ _)).
    destruct (List.find (Ledger.sameLink _ _) (ledger w)); reflexivity.
Qed.

(** A call returns, writes nothing, and says "processed" only when a row
    stands for the item. *)
Lemma isItemProcessed_returns (botId : string) (item : Item.t) (w : World) :
  returns (isItemProcessed botId item) w
    (fun processed w' =>
       ledger w' = ledger w /\ posts w' = posts w
       /\ (exists d, laterThan w w' d /\ List.forallb (fun q => negb (isWrite q)) d = true)
       /\ (processed = true -> recorded botId item (ledger w) = true)
       /\ (lookupsOk w -> processed = recorded botId item (ledger w))
       /\ ((forall n req, env w n req <> NoFault) -> processed = false)).
Proof.
  unfold returns. rewrite isItemProcessed_cases. cbv zeta. unfold recorded.
  set (q1 := SelectByGuid botId (Item.guid item)).
  set (q2 := SelectByLink botId (Item.link item)).
  assert (L1 : exists d, laterThan w (sent q1 w) d
                         /\ List.forallb (fun q => negb (isWrite q)) d = true).
  { exists [q1]. split; [apply laterThan_sent | reflexivity]. }
  assert (L2 : exists d, laterThan w (sent q2 (sent q1 w)) d
                         /\ List.forallb (fun q => negb (isWrite q)) d = true).
  { exists ([q1] ++ [q2]). split; [| reflexivity].
    eapply laterThan_trans; apply laterThan_sent. }
  destruct (env w (calls w) q1) as [|c|e] eqn:E1;
    [destruct (List.existsb (Ledger.sameGuid _ _) (ledger w)) eqn:G | |];
    try destruct (env w (S (calls w)) q2) as [|c'|e'] eqn:E2;
    simpl; repeat split; auto;
    try discriminate;
    try (intros F; specialize (F (calls w) q1 eq_refl); congruence);
    try (intros F; specialize (F (S (calls w)) q2 eq_refl); congruence);
    try (intros F; specialize (F (calls w) q1); congruence);
    try (intros F; specialize (F (S (calls w)) q2); congruence).
  all: try (intros F; rewrite ?G; destruct (List.existsb (Ledger.sameLink _ _) (ledger w));
            reflexivity || (exfalso; (apply (F (calls w) q1); assumption)
                                    || (apply (F (S (calls w)) q2); assumption))).
  intros ->. apply orb_true_r.
Qed.


Lemma quiet_refl (w : World) : quiet w w.
Proof.
  repeat split. exists []. split; [apply laterThan_refl | reflexivity].
Qed.

Lemma quiet_trans (w1 w2 w3 : World) : quiet w1 w2 -> quiet w2 w3 -> quiet w1 w3.
Proof.
  intros (Hl1 & Hp1 & d1 & L1 & W1) (Hl2 & Hp2 & d2 & L2 & W2).
  split; [congruence |]. split; [congruence |].
  exists (d1 ++ d2). split; [eapply laterThan_trans; eauto |].
  rewrite List.forallb_app, W1, W2. reflexivity.
Qed.

Lemma quiet_lookupsOk (w w' : World) : quiet w w' -> lookupsOk w -> lookupsOk w'.
Proof. intros (_ & _ & d & L & _). now apply lookupsOk_later with d. Qed.

Lemma quiet_allFail (w w' : World) :
  quiet w w' -> (forall n req, env w n req <> NoFault) ->
  forall n req, env w' n req <> NoFault.
Proof. intros (_ & _ & d & (_ & _ & He & _) & _) H n req. rewrite He. apply H. Qed.

(** ** [filterUnprocessedItems] *)

Lemma filterLoop_returns (botId : string) (items : list Item.t) (w : World) :
  returns (filterLoop botId items) w
    (fun out w' =>
       quiet w w'
       /\ out `sublist_of` items
       /\ (forall x, In x items -> recorded botId x (ledger w) = false -> In x out)
       /\ (lookupsOk w ->
           out = List.filter (fun x => negb (recorded botId x (ledger w))) items)
       /\ ((forall n req, env w n req <> NoFault) -> out = items)).
Proof.
  revert w. induction items as [|item rest IH]; intros w.
  - simpl. apply returns_ret. split; [apply quiet_refl |].
    split; [constructor |]. split; [intros x [] |]. split; reflexivity.
  - simpl. apply returns_bind.
    eapply returns_mono; [apply isItemProcessed_returns |].
    intros processed w1 (Hl & Hp & Hd & Htrue & Hff & Hfail).
    assert (Q1 : quiet w w1) by (split; [| split]; assumption).
    apply returns_bind.
    eapply returns_mono; [apply IH |].
    intros out w2 (Q2 & Hsub & Hkeep & Hfilter & Hall).
    apply returns_ret.
    split; [eapply quiet_trans; eassumption |].
    rewrite Hl in Hkeep, Hfilter.
    split; [destruct processed; constructor; assumption |].
    split; [| split].
    + intros x [<- | Hin] Hx.
      * destruct processed; [| now left].
        specialize (Htrue eq_refl). congruence.
      * destruct processed; [| right]; now apply Hkeep.
    + intros F. rewrite (Hff F), (Hfilter (quiet_lookupsOk _ _ Q1 F)).
      destruct (recorded botId item (ledger w)); reflexivity.
    + intros F. rewrite (Hfail F), (Hall (quiet_allFail _ _ Q1 F)). reflexivity.
Qed.

Lemma filterUnprocessedItems_loop (botId : string) (items : list Item.t) (w : World) :
  returns (filterUnprocessedItems botId (Some items)) w
    (fun out w' =>
       quiet w w'
       /\ out `sublist_of` items
       /\ (forall x, In x items -> recorded botId x (ledger w) = false -> In x out)
       /\ (lookupsOk w ->
           out = List.filter (fun x => negb (recorded botId x (ledger w))) items)
       /\ ((forall n req, env w n req <> NoFault) -> out = items)).
Proof.
  destruct items as [|item rest]; [| apply (filterLoop_returns botId (item :: rest))].
  apply returns_ret. split; [apply quiet_refl |].
  split; [constructor |]. split; [intros x [] |]. split; reflexivity.
Qed.

(** C10: [filterUnprocessedItems] returns the empty list for a null and for
    an empty input, and for every bot, input list and state of the store
    it returns a list obtained from the input by removing items: every
    item of the output is an item of the input, in the input's order. *)
Theorem filterUnprocessedItems_subsequence (botId : string) (w : World) :
  filterUnprocessedItems botId None w = (Ret [], w)
  /\ filterUnprocessedItems botId (Some []) w = (Ret [], w)
  /\ forall items : list Item.t,
       exists out w',
         filterUnprocessedItems botId (Some items) w = (Ret out, w')
         /\ out `sublist_of` items
         /\ (List.length out <= List.length items)%nat
         /\ forall x, In x out -> In x items.
Proof.
  split; [reflexivity |]. split; [reflexivity |].
  intros items.
  destruct (returns_eq _ _ _ (filterUnprocessedItems_loop botId items w))
    as (out & w' & E & _ & Hsub & _).
  exists out, w'. split; [exact E |]. split; [exact Hsub |].
  split; [now apply sublist_length |].
  intros x Hx. apply list_elem_of_In. eapply elem_of_sublist; [| eassumption].
  now apply list_elem_of_In.
Qed.

Lemma existsb_sameGuid (botId guid : string) (t : list Ledger.row) :
  List.existsb (Ledger.sameGuid botId guid) t = true <->
  exists r, In r t /\ Ledger.bot_id r = botId /\ Ledger.item_guid r = guid.
Proof.
  rewrite List.existsb_exists. unfold Ledger.sameGuid.
  split; intros (r & Hin & H); exists r; (split; [exact Hin |]).
  - apply andb_prop in H as [H1 H2]. now apply String.eqb_eq in H1, H2.
  - destruct H as [-> ->]. now rewrite !String.eqb_refl.
Qed.

Lemma existsb_sameLink (botId link : string) (t : list Ledger.row) :
  List.existsb (Ledger.sameLink botId link) t = true <->
  exists r, In r t /\ Ledger.bot_id r = botId /\ Ledger.item_link r = link.
Proof.
  rewrite List.existsb_exists. unfold Ledger.sameLink.
  split; intros (r & Hin & H); exists r; (split; [exact Hin |]).
  - apply andb_prop in H as [H1 H2]. now apply String.eqb_eq in H1, H2.
  - destruct H as [-> ->]. now rewrite !String.eqb_refl.
Qed.

(** C5: when the lookups succeed, an item that shares its GUID with a
    ledger row of the same bot is reported processed after the GUID lookup
    alone, whatever its link; an item that shares only its link with a row
    of the bot is reported processed by the link lookup, which is sent
    only after the GUID lookup found nothing; an item that shares neither
    is reported new; and [filterUnprocessedItems] drops exactly the items
    reported processed. *)
Theorem dedup_guid_then_link (botId : string) (item : Item.t) (w : World) :
  lookupsOk w ->
  let byGuid := SelectByGuid botId (Item.guid item) in
  let byLink := SelectByLink botId (Item.link item) in
  let guidRow := exists r, In r (ledger w) /\ Ledger.bot_id r = botId
                           /\ Ledger.item_guid r = Item.guid item in
  let linkRow := exists r, In r (ledger w) /\ Ledger.bot_id r = botId
                           /\ Ledger.item_link r = Item.link item in
  (guidRow -> isItemProcessed botId item w = (Ret true, sent byGuid w))
  /\ (~ guidRow -> linkRow ->
      isItemProcessed botId item w = (Ret true, sent byLink (sent byGuid w)))
  /\ (~ guidRow -> ~ linkRow ->
      isItemProcessed botId item w = (Ret false, sent byLink (sent byGuid w)))
  /\ forall items : list Item.t,
       exists out w',
         filterUnprocessedItems botId (Some items) w = (Ret out, w')
         /\ (guidRow \/ linkRow -> ~ In item out)
         /\ (~ guidRow -> ~ linkRow -> In item items -> In item out).
Proof.
  intros F byGuid byLink guidRow linkRow.
  assert (Hg : List.existsb (Ledger.sameGuid botId (Item.guid item)) (ledger w) = true
               <-> guidRow) by apply existsb_sameGuid.
  assert (Hk : List.existsb (Ledger.sameLink botId (Item.link item)) (ledger w) = true
               <-> linkRow) by apply existsb_sameLink.
  assert (E := isItemProcessed_cases botId item w). cbv zeta in E.
  rewrite !F in E by reflexivity. fold byGuid byLink in E.
  split; [| split; [| split]].
  - intros G. apply Hg in G. now rewrite G in E.
  - intros G K. apply Hk in K.
    destruct (List.existsb (Ledger.sameGuid _ _) (ledger w)); [now destruct G; apply Hg |].
    now rewrite K in E.
  - intros G K.
    destruct (List.existsb (Ledger.sameGuid _ _) (ledger w)); [now destruct G; apply Hg |].
    destruct (List.existsb (Ledger.sameLink _ _) (ledger w)); [now destruct K; apply Hk |].
    exact E.
  - intros items.
    destruct (returns_eq _ _ _ (filterUnprocessedItems_loop botId items w))
      as (out & w' & Eo & _ & _ & Hkeep & Hfilter & _).
    exists out, w'. split; [exact Eo |]. split.
    + intros H. rewrite (Hfilter F), List.filter_In. intros [_ Hn].
      apply negb_true_iff in Hn. unfold recorded in Hn.
      apply orb_false_elim in Hn as [Hn1 Hn2].
      destruct H as [H | H]; [apply Hg in H | apply Hk in H]; congruence.
    + intros G K Hin. apply Hkeep; [exact Hin |]. unfold recorded.
      destruct (List.existsb (Ledger.sameGuid _ _) (ledger w)); [now destruct G; apply Hg |].
      destruct (List.existsb (Ledger.sameLink _ _) (ledger w)); [now destruct K; apply Hk |].
      reflexivity.
Qed.

(** C7 (amended): a lookup that fails is treated as a lookup that finds no
    row. [isItemProcessed] returns false when the GUID lookup raises, and
    when the link lookup fails (an error object or a raise) after a GUID
    lookup that failed or found no row; and when every lookup fails,
    [filterUnprocessedItems] retains every item. *)
Theorem lookup_failure_means_not_processed (botId : string) (item : Item.t) (w : World) :
  let byGuid := env w (calls w) (SelectByGuid botId (Item.guid item)) in
  let byLink := env w (S (calls w)) (SelectByLink botId (Item.link item)) in
  ((exists e, byGuid = Rejects e)
   \/ (byLink <> NoFault
       /\ (byGuid <> NoFault
           \/ List.existsb (Ledger.sameGuid botId (Item.guid item)) (ledger w) = false))) ->
  (exists w', isItemProcessed botId item w = (Ret false, w'))
  /\ ((forall n req, env w n req <> NoFault) ->
      forall items : list Item.t,
        exists w', filterUnprocessedItems botId (Some items) w = (Ret items, w')).
Proof.
  cbv zeta. intros H. split.
  - rewrite isItemProcessed_cases. cbv zeta.
    destruct H as [[e ->] | [H2 H1]]; [eauto |].
    destruct (env w (calls w) _) as [|c|e] eqn:E1; [| | eauto].
    + destruct H1 as [H1 | ->]; [now destruct H1 |].
      destruct (env w (S (calls w)) _); [now destruct H2 | eauto | eauto].
    + destruct (env w (S (calls w)) _); [now destruct H2 | eauto | eauto].
  - intros F items.
    destruct (returns_eq _ _ _ (filterUnprocessedItems_loop botId items w))
      as (out & w' & Eo & _ & _ & _ & _ & Hall).
    exists w'. now rewrite <- (Hall F) at 2.
Qed.

(** ** The post creator *)


Section PostCreatorFacts.

Variable hostnameOf : string -> option string.

Lemma createPost_cases (botConfig : BotConfig) (content : string)
    (sourceUrl sourceName originalContent aiSummary : option string) (w : World) :
  let d := postDataFor botConfig content sourceUrl sourceName originalContent
                       aiSummary (clock w) in
  createPost botConfig content sourceUrl sourceName originalContent aiSummary w =
  match env w (calls w) (InsertPost d) with
  | NoFault =>
      (Ret (Some (Post.mk (List.length (posts w)) d)),
       setPosts (posts w ++ [Post.mk (List.length (posts w)) d]) (sent (InsertPost d) w))
  | _ => (Ret None, sent (InsertPost d) w)
  end.
Proof.
  cbv zeta. unfold createPost, tryCatch, bind, Date_now, insertPost, postDataFor.
  simpl. destruct (env w (calls w) _); reflexivity.
Qed.

Lemma postLoop_returns (botConfig : BotConfig) (items : list Item.t) (w : World) :
  returns (postLoop hostnameOf botConfig items) w
    (fun created w' =>
       ledger w' = ledger w
       /\ (exists d, laterThan w w' d
                     /\ List.Forall2 (writesPostOf hostnameOf botConfig) d items)
       /\ posts w' = posts w ++ List.map fst created
       /\ List.map snd created `sublist_of` items
       /\ (forall x, In x (List.map snd created) ->
             exists n t, env w n (InsertPost (postDataOf hostnameOf botConfig x t)) = NoFault)
       /\ (forall x, In x items ->
             (forall n t, env w n (InsertPost (postDataOf hostnameOf botConfig x t)) = NoFault) ->
             In x (List.map snd created))
       /\ List.Forall
            (fun c => exists t, Post.fields (fst c) = postDataOf hostnameOf botConfig (snd c) t)
            created).
Proof.
  revert w. induction items as [|item rest IH]; intros w.
  - simpl. apply returns_ret. split; [reflexivity |].
    split; [exists []; split; [apply laterThan_refl | constructor] |].
    split; [now rewrite List.app_nil_r |].
    split; [constructor |]. split; [intros x [] |]. split; [intros x [] | constructor].
  - cbn [postLoop]. apply returns_bind.
    set (d := postDataOf hostnameOf botConfig item (clock w)).
    (* the body of the loop, for [item] *)
    assert (Hstep :
      returns
        (tryCatch
           (post <- createPost botConfig (displayContentOf item) (Some (Item.link item))
                               (Some (sourceNameOf hostnameOf item))
                               (Some (originalContentOf item)) (Item.aiSummary item) ;;
            (match rest with [] => ret tt | _ :: _ => sleep 500 end) ;;;
            ret (match post with Some p => [(p, item)] | None => [] end))
           (fun _ => ret [])) w
        (fun created w1 =>
           ledger w1 = ledger w
           /\ laterThan w w1 [InsertPost d]
           /\ posts w1 = posts w ++ List.map fst created
           /\ (created = [] \/ exists p, created = [(p, item)]
                                         /\ env w (calls w) (InsertPost d) = NoFault
                                         /\ Post.fields p = d)
           /\ (env w (calls w) (InsertPost d) = NoFault -> exists p, created = [(p, item)]))).
    { unfold returns, tryCatch, bind. rewrite createPost_cases. cbv zeta.
      fold (postDataOf hostnameOf botConfig item (clock w)). fold d.
      destruct (env w (calls w) (InsertPost d)) eqn:E; destruct rest; simpl;
        (split; [reflexivity |]);
        (split; [first [apply laterThan_sent
                       | apply laterThan_setPosts, laterThan_sent
                       | apply laterThan_setClock, laterThan_sent
                       | apply laterThan_setClock, laterThan_setPosts, laterThan_sent] |]);
        (split; [first [reflexivity | now rewrite List.app_nil_r] |]);
        (split; [eauto |]); eauto; discriminate. }
    eapply returns_mono; [exact Hstep |]. clear Hstep.
    intros created w1 (Hl1 & L1 & Hp1 & Hc1 & Hok1).
    apply returns_bind. eapply returns_mono; [apply IH |].
    intros more w2 (Hl2 & (d2 & L2 & F2) & Hp2 & Hsub & Hsome & Hall & Hdata).
    apply returns_ret.
    assert (He : env w1 = env w) by (destruct L1 as (_ & _ & He & _); exact He).
    rewrite He in Hsome, Hall.
    split; [congruence |].
    split.
    { exists ([InsertPost d] ++ d2). split; [eapply laterThan_trans; eassumption |].
      constructor; [now exists (clock w) | exact F2]. }
    split; [rewrite Hp2, Hp1, List.map_app, List.app_assoc; reflexivity |].
    rewrite List.map_app.
    split.
    { destruct Hc1 as [-> | (p & -> & _)]; simpl; constructor; assumption. }
    split; [| split].
    + intros x Hx. apply List.in_app_or in Hx as [Hx | Hx]; [| now apply Hsome].
      destruct Hc1 as [-> | (p & -> & E & _)]; [destruct Hx |].
      destruct Hx as [<- | []]. now exists (calls w), (clock w).
    + intros x [<- | Hin] Hx; apply List.in_or_app.
      * left. destruct (Hok1 (Hx _ _)) as (p & ->). now left.
      * right. now apply Hall.
    + apply List.Forall_app. split; [| exact Hdata].
      destruct Hc1 as [-> | (p & -> & _ & Hf)]; constructor; [| constructor].
      now exists (clock w).
Qed.

Lemma slice0_firstn {A} (n : Z) (l : list A) :
  exists k, JS.slice0 n l = firstn k l /\ (0 <= n -> k = Z.to_nat n).
Proof.
  unfold JS.slice0. destruct (Z.ltb_spec n 0).
  - eexists. split; [reflexivity | lia].
  - eexists. split; [reflexivity | reflexivity].
Qed.

(** What [createPostsBatch] does when it is not a dry run: it writes, in
    order, the posts of the first [maxPosts] items, one request each. *)
Lemma createPostsBatch_returns (botConfig : BotConfig) (items : list Item.t)
    (maxPosts : Z) (w : World) :
  returns (createPostsBatch hostnameOf botConfig items (Some maxPosts) (Some false)) w
    (fun created w' =>
       ledger w' = ledger w
       /\ (exists d, laterThan w w' d
                     /\ List.Forall2 (writesPostOf hostnameOf botConfig) d
                                     (JS.slice0 maxPosts items))
       /\ posts w' = posts w ++ List.map fst created
       /\ List.map snd created `sublist_of` JS.slice0 maxPosts items
       /\ (forall x, In x (List.map snd created) ->
             exists n t, env w n (InsertPost (postDataOf hostnameOf botConfig x t)) = NoFault)
       /\ (forall x, In x (JS.slice0 maxPosts items) ->
             (forall n t, env w n (InsertPost (postDataOf hostnameOf botConfig x t)) = NoFault) ->
             In x (List.map snd created))
       /\ List.Forall
            (fun c => exists t, Post.fields (fst c) = postDataOf hostnameOf botConfig (snd c) t)
            created).
Proof.
  unfold createPostsBatch. simpl.
  destruct items as [|item rest]; [| apply postLoop_returns].
  apply returns_ret.
  assert (E : JS.slice0 maxPosts (@nil Item.t) = []).
  { destruct (slice0_firstn maxPosts (@nil Item.t)) as (k & -> & _). now destruct k. }
  rewrite E. split; [reflexivity |].
  split; [exists []; split; [apply laterThan_refl | constructor] |].
  split; [now rewrite List.app_nil_r |].
  split; [constructor |]. split; [intros x [] |]. split; [intros x [] | constructor].
Qed.

Lemma createPostsBatch_dryRun (botConfig : BotConfig) (items : list Item.t)
    (maxPosts : Z) (w : World) :
  createPostsBatch hostnameOf botConfig items (Some maxPosts) (Some true) w = (Ret [], w).
Proof. unfold createPostsBatch. simpl. now destruct items. Qed.

Lemma verifyBotProfile_returns (userId : string) (w : World) :
  returns (verifyBotProfile userId) w (fun _ w' => quiet w w').
Proof.
  unfold returns, verifyBotProfile, tryCatch, bind, selectProfile.
  assert (Q : quiet w (sent (SelectProfile userId) w)).
  { repeat split. exists [SelectProfile userId]. split; [apply laterThan_sent | reflexivity]. }
  destruct (env w (calls w) _); simpl; try exact Q.
  destruct (List.filter _ (profiles w)) as [|p [|p' l]]; exact Q.
Qed.

End PostCreatorFacts.

(** ** Selection of the new items *)


Lemma kept_refl (P : Item.t -> bool) (l : list Item.t) : kept P l l.
Proof. induction l; constructor; assumption. Qed.

Lemma kept_app (P : Item.t -> bool) (l1 l1' l2 l2' : list Item.t) :
  kept P l1 l1' -> kept P l2 l2' -> kept P (l1 ++ l2) (l1' ++ l2').
Proof. induction 1; simpl; intros; try constructor; auto. Qed.

Lemma kept_map (P Q : Item.t -> bool) (f : Item.t -> Item.t) (l l' : list Item.t) :
  (forall x, Q (f x) = P x) -> kept P l l' -> kept Q (List.map f l) (List.map f l').
Proof.
  intros H. induction 1; simpl; try constructor; auto. now rewrite H.
Qed.


Lemma kept_none (P : Item.t -> bool) (l : list Item.t) :
  kept P l [] -> forall x, In x l -> P x = false.
Proof.
  intros H. remember [] as e eqn:He. induction H; intros y Hy; try discriminate.
  - destruct Hy.
  - destruct Hy as [<- | Hy]; auto.
Qed.

Lemma kept_In (P : Item.t -> bool) (l l' : list Item.t) :
  kept P l l' -> forall x, In x l' -> In x l.
Proof. induction 1; simpl; intros y Hy; [auto | destruct Hy; auto | auto]. Qed.

Lemma kept_length (P : Item.t -> bool) (l l' : list Item.t) :
  kept P l l' -> (List.length l' <= List.length l)%nat.
Proof. induction 1; simpl; lia. Qed.


Lemma filterLoop_kept (botId : string) (items : list Item.t) (w : World) :
  returns (filterLoop botId items) w
    (fun out w' => kept (newFor botId (ledger w)) items out).
Proof.
  revert w. induction items as [|item rest IH]; intros w; simpl.
  - apply returns_ret. constructor.
  - apply returns_bind. eapply returns_mono; [apply isItemProcessed_returns |].
    intros processed w1 (Hl & _ & _ & Htrue & _).
    apply returns_bind. eapply returns_mono; [apply IH |].
    intros out w2 K. apply returns_ret. rewrite Hl in K.
    destruct processed; constructor; auto.
    unfold newFor. now rewrite Htrue.
Qed.

Lemma returns_and {S A} (m : M S A) (s : S) (P Q : A -> S -> Prop) :
  returns m s P -> returns m s Q -> returns m s (fun a s' => P a s' /\ Q a s').
Proof. unfold returns. destruct (m s) as [[a|e] s']; [auto | intros []]. Qed.

Lemma filterUnprocessedItems_returns (botId : string) (items : list Item.t) (w : World) :
  returns (filterUnprocessedItems botId (Some items)) w
    (fun out w' =>
       quiet w w'
       /\ kept (newFor botId (ledger w)) items out
       /\ (lookupsOk w -> out = List.filter (newFor botId (ledger w)) items)).
Proof.
  assert (K : returns (filterUnprocessedItems botId (Some items)) w
                (fun out w' => kept (newFor botId (ledger w)) items out)).
  { destruct items as [|item rest]; [apply returns_ret; constructor |].
    apply (filterLoop_kept botId (item :: rest)). }
  eapply returns_mono;
    [exact (returns_and _ _ _ _ (filterUnprocessedItems_loop botId items w) K) |].
  intros out w' ((Q & _ & _ & F & _) & K'). auto.
Qed.

(** ** The bot runner *)


Lemma steady_refl (r : RunResults) : steady r r.
Proof. repeat split. Qed.

Lemma steady_trans (r1 r2 r3 : RunResults) : steady r1 r2 -> steady r2 r3 -> steady r1 r3.
Proof. unfold steady. intuition congruence. Qed.

Lemma returns_inWorld {A} (m : M World A) (w : World) (r : RunResults)
    (Q : A -> World -> Prop) :
  returns m w Q -> returns (inWorld m) (w, r) (fun a s' => Q a (fst s') /\ snd s' = r).
Proof.
  unfold returns, inWorld. simpl. destruct (m w) as [[a|e] w']; simpl; auto.
Qed.

Lemma returns_update (f : RunResults -> RunResults) (s : World * RunResults)
    (Q : unit -> World * RunResults -> Prop) :
  Q tt (fst s, f (snd s)) -> returns (update f) s Q.
Proof. exact (fun H => H). Qed.

Section BotRunnerFacts.

Variable hostnameOf : string -> option string.


Lemma markLoop_returns (botConfig : BotConfig) (createdPosts : list (Post.row * Item.t))
    (w : World) :
  returns (markLoop botConfig createdPosts) w
    (fun _ w' =>
       posts w' = posts w
       /\ (exists d, laterThan w w' d
                     /\ List.Forall (fun q => exists r, q = InsertProcessed r) d)
       /\ (Ledger.unique (ledger w) -> Ledger.unique (ledger w'))
       /\ exists added,
            ledger w' = ledger w ++ added
            /\ List.Forall
                 (fun r => Ledger.bot_id r = cfg_id botConfig
                           /\ exists y, In y (List.map snd createdPosts)
                                        /\ Ledger.item_guid r = Item.guid y
                                        /\ Ledger.item_link r = Item.link y)
                 added).
Proof.
  revert w. induction createdPosts as [|[post item] rest IH]; intros w.
  - simpl. apply returns_ret. split; [reflexivity |].
    split; [exists []; split; [apply laterThan_refl | constructor] |]. split; [auto |].
    exists []. split; [now rewrite List.app_nil_r | constructor].
  - cbn [markLoop]. apply returns_bind.
    eapply returns_mono; [apply markItemAsProcessed_returns |].
    intros b w1 (L1 & Hp1 & Hl1).
    eapply returns_mono; [apply IH |].
    intros [] w2 (Hp2 & (d2 & L2 & D2) & Hu2 & added & Hl2 & Hadd).
    split; [congruence |].
    split.
    { eexists. split; [eapply laterThan_trans; eassumption |].
      constructor; [eexists; reflexivity | exact D2]. }
    split.
    { intros Hu. apply Hu2. destruct Hl1 as [-> | [-> Hc]]; [exact Hu |].
      now apply unique_snoc. }
    assert (Hmore : List.Forall
              (fun r => Ledger.bot_id r = cfg_id botConfig
                        /\ exists y, In y (List.map snd ((post, item) :: rest))
                                     /\ Ledger.item_guid r = Item.guid y
                                     /\ Ledger.item_link r = Item.link y) added).
    { eapply List.Forall_impl; [| exact Hadd].
      intros r (Hb & y & Hy & Hg). split; [exact Hb |]. exists y. split; [now right | exact Hg]. }
    destruct Hl1 as [E | [E _]]; rewrite Hl2, E.
    + exists added. split; [reflexivity | exact Hmore].
    + eexists (_ :: added). rewrite <- List.app_assoc. split; [reflexivity |].
      constructor; [| exact Hmore].
      split; [reflexivity |]. exists item. split; [now left | split; reflexivity].
Qed.

Lemma recorded_withSource (botId : string) (feed : Feed.t) (item : Item.t)
    (t : list Ledger.row) :
  recorded botId (withSource hostnameOf feed item) t = recorded botId item t.
Proof. reflexivity. Qed.


Lemma filter_map_newFor (botId : string) (t : list Ledger.row)
    (f : Item.t -> Item.t) (l : list Item.t) :
  (forall x, recorded botId (f x) t = recorded botId x t) ->
  List.map f (List.filter (newFor botId t) l)
  = List.filter (newFor botId t) (List.map f l).
Proof.
  intros H. induction l as [|x l IH]; simpl; [reflexivity |].
  assert (E : newFor botId t (f x) = newFor botId t x) by (unfold newFor; now rewrite H).
  rewrite E. destruct (newFor botId t x); simpl; now rewrite IH.
Qed.

Lemma feedLoop_returns (botConfig : BotConfig) (feeds : list Feed.t)
    (w : World) (r : RunResults) :
  returns (feedLoop hostnameOf botConfig feeds) (w, r)
    (fun sel s' =>
       quiet w (fst s')
       /\ kept (newFor (cfg_id botConfig) (ledger w)) (allOf hostnameOf feeds) sel
       /\ (lookupsOk w ->
           sel = List.filter (newFor (cfg_id botConfig) (ledger w)) (allOf hostnameOf feeds))
       /\ itemsNew (snd s') = (itemsNew r + List.length sel)%nat
       /\ steady r (snd s')).
Proof.
  revert w r. induction feeds as [|feed rest IH]; intros w r.
  - simpl. apply returns_ret. simpl.
    split; [apply quiet_refl |]. split; [constructor |]. split; [reflexivity |].
    split; [lia | apply steady_refl].
  - cbn [feedLoop]. apply returns_bind. apply returns_update. cbn [fst snd].
    unfold allOf. cbn [List.map List.concat]. fold (allOf hostnameOf rest).
    destruct (Feed.items feed) as [|item items] eqn:Ei.
    + eapply returns_mono; [apply IH |].
      intros sel [w' r'] (Q & K & F & Hn & Hs). cbn [fst snd] in *.
      split; [exact Q |]. split; [exact K |]. split; [exact F |].
      split; [exact Hn | exact Hs].
    + apply returns_bind.
      eapply returns_mono;
        [apply returns_inWorld, filterUnprocessedItems_returns |].
      intros newItems [w1 r1] ((Q1 & K1 & F1) & Hr1). cbn [fst snd] in *. subst r1.
      apply returns_bind. apply returns_update. cbn [fst snd].
      assert (El : ledger w1 = ledger w) by apply Q1.
      assert (Hshape :
        returns (more <- feedLoop hostnameOf botConfig rest ;;
                 ret (List.map (withSource hostnameOf feed) newItems ++ more))
          (w1, setItemsNew
                 (itemsNew (setItemsFetched (itemsFetched r + List.length (item :: items)) r)
                  + List.length newItems)
                 (setItemsFetched (itemsFetched r + List.length (item :: items)) r))
          (fun sel s' =>
             quiet w (fst s')
             /\ kept (newFor (cfg_id botConfig) (ledger w))
                     (List.map (withSource hostnameOf feed) (item :: items) ++ allOf hostnameOf rest) sel
             /\ (lookupsOk w ->
                 sel = List.filter (newFor (cfg_id botConfig) (ledger w))
                         (List.map (withSource hostnameOf feed) (item :: items) ++ allOf hostnameOf rest))
             /\ itemsNew (snd s') = (itemsNew r + List.length sel)%nat
             /\ steady r (snd s'))).
      { apply returns_bind. eapply returns_mono; [apply IH |].
        intros more [w2 r2] (Q2 & K2 & F2 & Hn2 & Hs2). cbn [fst snd] in *.
        apply returns_ret. cbn [fst snd]. rewrite El in K2, F2.
        split; [eapply quiet_trans; eassumption |].
        split.
        { apply kept_app; [| exact K2].
          eapply kept_map; [| exact K1]. reflexivity. }
        split.
        { intros F. rewrite List.filter_app, <- filter_map_newFor by reflexivity.
          rewrite <- (F1 F), <- (F2 (quiet_lookupsOk _ _ Q1 F)). reflexivity. }
        split.
        { rewrite Hn2, List.length_app, List.length_map. simpl. lia. }
        destruct Hs2 as (H1 & H2 & H3 & H4 & H5 & H6 & H7). repeat split; assumption. }
      destruct newItems as [|n1 newItems]; [| exact Hshape].
      unfold returns in Hshape |- *. unfold bind in Hshape. simpl in Hshape.
      destruct (feedLoop hostnameOf botConfig rest _) as [[more|e] s']; exact Hshape.
Qed.

Lemma publishAndRecord_eq (botConfig : BotConfig) (sel : list Item.t)
    (maxPosts : Z) (dry : bool) (w : World) (r : RunResults) :
  exists created w1 w2,
    createPostsBatch hostnameOf botConfig sel (Some maxPosts) (Some dry) w = (Ret created, w1)
    /\ (if dry then created = [] /\ w1 = w /\ w2 = w
        else markLoop botConfig created w1 = (Ret tt, w2))
    /\ publishAndRecord hostnameOf botConfig sel maxPosts dry (w, r)
       = (Ret tt, (w2, setSuccess true
                         (setPostsCreated (List.length created) (setItemsSummarized 0 r)))).
Proof.
  unfold publishAndRecord, bind, update, inWorld. cbn [fst snd].
  destruct dry.
  - rewrite createPostsBatch_dryRun. exists [], w, w. auto.
  - destruct (returns_eq _ _ _ (createPostsBatch_returns hostnameOf botConfig sel maxPosts w))
      as (created & w1 & E1 & _).
    destruct (returns_eq _ _ _ (markLoop_returns botConfig created w1))
      as ([] & w2 & E2 & _).
    exists created, w1, w2. rewrite E1. cbn [fst snd]. rewrite E2. auto.
Qed.

End BotRunnerFacts.

Section RunFacts.

Variable hostnameOf : string -> option string.

(** The course of the [try] block of [runBot]: the profile check, the
    fetch, the selection of the new items and, when there are any, the
    publication. *)
Lemma runBotBody_course (botConfig : BotConfig) (options : RunOptions) (w : World) :
  let r0 := initialResults botConfig in
  let maxPosts := default 5 (maxPostsPerRun options) in
  let dry := default false (dryRun options) in
  let body := runBotBody hostnameOf botConfig options (w, r0) in
  exists ok w1,
    verifyBotProfile (cfg_user_id botConfig) w = (Ret ok, w1)
    /\ quiet w w1
    /\ if ok
       then match candidates hostnameOf botConfig options w with
            | Throw e => body = (Throw e, (w1, r0))
            | Ret all =>
                exists sel w2 r2,
                  quiet w1 w2
                  /\ kept (newFor (cfg_id botConfig) (ledger w)) all sel
                  /\ (lookupsOk w ->
                      sel = List.filter (newFor (cfg_id botConfig) (ledger w)) all)
                  /\ itemsNew r2 = List.length sel
                  /\ steady r0 r2
                  /\ body = match sel with
                            | [] => (Ret tt, (w2, setSuccess true r2))
                            | _ :: _ =>
                                publishAndRecord hostnameOf botConfig sel maxPosts dry (w2, r2)
                            end
            end
       else body = (Throw (profileNotFound (cfg_user_id botConfig)), (w1, r0)).
Proof.
  cbv zeta.
  destruct (returns_eq _ _ _ (verifyBotProfile_returns (cfg_user_id botConfig) w))
    as (ok & w1 & Ev & Q1).
  exists ok, w1. split; [exact Ev |]. split; [exact Q1 |].
  assert (El : ledger w1 = ledger w) by apply Q1.
  assert (Hs : rssSeparately w1 = rssSeparately w)
    by (destruct Q1 as (_ & _ & d & (_ & _ & _ & _ & _ & H & _) & _); exact H).
  assert (Hc : rssCombined w1 = rssCombined w)
    by (destruct Q1 as (_ & _ & d & (_ & _ & _ & _ & _ & _ & H) & _); exact H).
  unfold runBotBody, bind, inWorld, update, fetchItemsForBotSeparately, fetchItemsForBot.
  cbn [fst snd]. rewrite Ev.
  destruct ok; cbn [negb]; [| reflexivity].
  unfold candidates.
  destruct (default true (processFeedsSeparately options)).
  - cbn [fst snd]. rewrite Hs.
    destruct (rssSeparately w botConfig _) as [feeds|e];
      [| reflexivity].
    destruct feeds as [|feed feeds].
    + exists [], w1, (initialResults botConfig).
      split; [apply quiet_refl |]. split; [constructor |]. split; [reflexivity |].
      split; [reflexivity |]. split; [apply steady_refl | reflexivity].
    + destruct (returns_eq _ _ _
                  (feedLoop_returns hostnameOf botConfig (feed :: feeds) w1
                     (setFeedsProcessed (List.length (feed :: feeds))
                                        (initialResults botConfig))))
        as (sel & [w2 r2] & Ef & Q2 & K & F & Hn & Hst).
      cbn [fst snd] in *. rewrite El in K, F.
      exists sel, w2, r2.
      split; [exact Q2 |]. split; [exact K |].
      split; [intros L; apply F; eapply quiet_lookupsOk; eassumption |].
      split; [exact Hn |]. split; [exact Hst |].
      cbn [fst snd]. rewrite Ef. now destruct sel.
  - cbn [fst snd]. rewrite Hc.
    destruct (rssCombined w botConfig _) as [items|e];
      [| reflexivity].
    destruct items as [|item items].
    + exists [], w1, (setItemsFetched 0 (initialResults botConfig)).
      split; [apply quiet_refl |]. split; [constructor |]. split; [reflexivity |].
      split; [reflexivity |]. split; [repeat split | reflexivity].
    + destruct (returns_eq _ _ _
                  (filterUnprocessedItems_returns (cfg_id botConfig) (item :: items) w1))
        as (newItems & w2 & Ef & Q2 & K & F).
      rewrite El in K, F.
      exists (List.map withOriginal newItems), w2,
             (setItemsNew (List.length newItems)
                (setItemsFetched (List.length (item :: items)) (initialResults botConfig))).
      split; [exact Q2 |].
      split; [eapply kept_map; [| exact K]; reflexivity |].
      split.
      { intros L. rewrite (F (quiet_lookupsOk _ _ Q1 L)).
        apply filter_map_newFor. reflexivity. }
      split; [now rewrite List.length_map |]. split; [repeat split |].
      cbn [fst snd]. rewrite Ef. cbn [fst snd]. now destruct newItems.
Qed.

End RunFacts.

Section RunTheorems.

Variable hostnameOf : string -> option string.

(** The course of a whole run, and what its [results] say. *)
Lemma runBot_course (botConfig : BotConfig) (options : RunOptions) (w : World) :
  exists ok w1 results w',
    verifyBotProfile (cfg_user_id botConfig) w = (Ret ok, w1)
    /\ quiet w w1
    /\ runBot hostnameOf botConfig options w = (Ret results, w')
    /\ botId results = cfg_id botConfig
    /\ botName results = cfg_name botConfig
    /\ duration results = clock w' - clock w
    /\ if ok
       then match candidates hostnameOf botConfig options w with
            | Throw e =>
                w' = w1 /\ success results = false /\ errors results = [e]
                /\ postsCreated results = 0%nat /\ itemsNew results = 0%nat
            | Ret all =>
                exists sel w2 created w3,
                  quiet w1 w2
                  /\ kept (newFor (cfg_id botConfig) (ledger w)) all sel
                  /\ (lookupsOk w ->
                      sel = List.filter (newFor (cfg_id botConfig) (ledger w)) all)
                  /\ createPostsBatch hostnameOf botConfig sel
                       (Some (default 5 (maxPostsPerRun options)))
                       (Some (default false (dryRun options))) w2 = (Ret created, w3)
                  /\ (if default false (dryRun options) then w' = w3
                      else markLoop botConfig created w3 = (Ret tt, w'))
                  /\ success results = true /\ errors results = []
                  /\ itemsNew results = List.length sel
                  /\ postsCreated results = List.length created
            end
       else w' = w1 /\ success results = false
            /\ errors results = [profileNotFound (cfg_user_id botConfig)]
            /\ postsCreated results = 0%nat /\ itemsNew results = 0%nat.
Proof.
  destruct (runBotBody_course hostnameOf botConfig options w)
    as (ok & w1 & Ev & Q1 & H). cbv zeta in H.
  exists ok, w1. unfold runBot, tryCatch.
  destruct ok.
  - destruct (candidates hostnameOf botConfig options w) as [all|e].
    + destruct H as (sel & w2 & r2 & Q2 & K & F & Hn & Hst & Eb). rewrite Eb.
      destruct Hst as (Hid & Hname & _ & Hsum & Hpc & Herr & _).
      destruct sel as [|x sel].
      * eexists _, _. split; [exact Ev |]. split; [exact Q1 |].
        split; [reflexivity |]. cbn. split; [exact Hid |]. split; [exact Hname |].
        split; [reflexivity |].
        exists [], w2, [], w2. split; [exact Q2 |]. split; [exact K |].
        split; [exact F |]. split; [reflexivity |].
        split; [destruct (default false (dryRun options)); reflexivity |].
        split; [reflexivity |]. split; [exact Herr |]. split; [exact Hn | exact Hpc].
      * destruct (publishAndRecord_eq hostnameOf botConfig (x :: sel)
                    (default 5 (maxPostsPerRun options))
                    (default false (dryRun options)) w2 r2)
          as (created & w3 & w4 & Ec & Hm & Ep).
        rewrite Ep.
        eexists _, _. split; [exact Ev |]. split; [exact Q1 |].
        split; [reflexivity |]. cbn. split; [exact Hid |]. split; [exact Hname |].
        split; [reflexivity |].
        exists (x :: sel), w2, created, w3. split; [exact Q2 |]. split; [exact K |].
        split; [exact F |]. split; [exact Ec |].
        split.
        { destruct (default false (dryRun options)); [| exact Hm].
          destruct Hm as (_ & -> & ->). reflexivity. }
        split; [reflexivity |]. split; [exact Herr |]. split; [exact Hn | reflexivity].
    + rewrite H.
      eexists _, _. split; [exact Ev |]. split; [exact Q1 |].
      split; [reflexivity |]. cbn. repeat split.
  - rewrite H.
    eexists _, _. split; [exact Ev |]. split; [exact Q1 |].
    split; [reflexivity |]. cbn. repeat split.
Qed.

End RunTheorems.

Section RunTheorems2.

Variable hostnameOf : string -> option string.

Lemma runBot_returns (botConfig : BotConfig) (options : RunOptions) (w : World) :
  returns (runBot hostnameOf botConfig options) w
    (fun results _ => botId results = cfg_id botConfig
                      /\ botName results = cfg_name botConfig).
Proof.
  destruct (runBot_course hostnameOf botConfig options w)
    as (ok & w1 & results & w' & _ & _ & E & Hid & Hname & _).
  eapply eq_returns; [exact E | auto].
Qed.

Lemma runMultipleBots_returns (botConfigs : list BotConfig) (options : RunOptions)
    (w : World) :
  returns (runMultipleBots hostnameOf botConfigs options) w
    (fun entries _ =>
       List.Forall2
         (fun botConfig entry =>
            exists results, entry = Completed results
                            /\ botId results = cfg_id botConfig
                            /\ botName results = cfg_name botConfig)
         botConfigs entries).
Proof.
  revert w. induction botConfigs as [|botConfig rest IH]; intros w.
  - apply returns_ret. constructor.
  - cbn [runMultipleBots]. apply returns_bind.
    assert (H : returns
                  (tryCatch
                     (result <- runBot hostnameOf botConfig options ;;
                      sleep 2000 ;;; ret (Completed result))
                     (fun message =>
                        ret (Fatal (cfg_id botConfig) (cfg_name botConfig) [message]))) w
                  (fun entry _ =>
                     exists results, entry = Completed results
                                     /\ botId results = cfg_id botConfig
                                     /\ botName results = cfg_name botConfig)).
    { destruct (returns_eq _ _ _ (runBot_returns botConfig options w))
        as (results & w' & E & Hid & Hname).
      unfold returns, tryCatch, bind. rewrite E. simpl. eauto. }
    eapply returns_mono; [exact H |]. intros entry w1 He.
    apply returns_bind. eapply returns_mono; [apply IH |].
    intros entries w2 Hes. apply returns_ret. now constructor.
Qed.

Lemma runMultipleBots_inTurn (botConfigs : list BotConfig) (options : RunOptions)
    (w : World) :
  returns (runMultipleBots hostnameOf botConfigs options) w
    (fun entries w' => ranInTurn hostnameOf options botConfigs w entries w').
Proof.
  revert w. induction botConfigs as [|botConfig rest IH]; intros w.
  - apply returns_ret. constructor.
  - destruct (returns_eq _ _ _ (runBot_returns botConfig options w))
      as (results & w1 & E & _).
    specialize (IH (setClock (clock w1 + 2000) w1)).
    unfold returns in IH |- *. cbn [runMultipleBots].
    unfold bind at 1. unfold tryCatch, bind at 1. rewrite E.
    unfold sleep, ret, bind. unfold ret, bind in IH.
    destruct (runMultipleBots hostnameOf rest options (setClock (clock w1 + 2000) w1))
      as [[entries|e] w']; [| destruct IH].
    econstructor; eassumption.
Qed.

(** C9: [runBot] never throws. For every bot, options and state of the
    world it returns a results object that carries the bot's id and name
    and the duration of the run; an exception raised inside the run (the
    missing profile, a fetcher that throws) is caught, its message is the
    run's error list and the run is marked failed, and a run in which
    nothing is thrown is marked successful with no error; and
    [runMultipleBots] goes on to the next bot whichever of the runs
    failed: it runs the bots in turn, each with [runBot] in the world the
    run before left (two seconds later), and returns the results object
    of each of these runs, in order. *)
Theorem runBot_never_throws (botConfig : BotConfig) (options : RunOptions)
    (botConfigs : list BotConfig) (w : World) :
  (exists ok w1 results w',
      verifyBotProfile (cfg_user_id botConfig) w = (Ret ok, w1)
      /\ runBot hostnameOf botConfig options w = (Ret results, w')
      /\ botId results = cfg_id botConfig
      /\ botName results = cfg_name botConfig
      /\ duration results = clock w' - clock w
      /\ match ok, candidates hostnameOf botConfig options w with
         | false, _ =>
             success results = false
             /\ errors results = [profileNotFound (cfg_user_id botConfig)]
         | true, Throw e => success results = false /\ errors results = [e]
         | true, Ret _ => success results = true /\ errors results = []
         end)
  /\ (forall e s,
        runBotBody hostnameOf botConfig options (w, initialResults botConfig) = (Throw e, s) ->
        runBot hostnameOf botConfig options w
        = (Ret (setDuration (clock (fst s) - clock w)
                            (setSuccess false (pushError e (snd s)))), fst s))
  /\ exists entries w',
       runMultipleBots hostnameOf botConfigs options w = (Ret entries, w')
       /\ ranInTurn hostnameOf options botConfigs w entries w'
       /\ List.Forall2
            (fun botConfig entry =>
               exists results, entry = Completed results
                               /\ botId results = cfg_id botConfig
                               /\ botName results = cfg_name botConfig)
            botConfigs entries.
Proof.
  split; [| split].
  - destruct (runBot_course hostnameOf botConfig options w)
      as (ok & w1 & results & w' & Ev & _ & E & Hid & Hname & Hd & H).
    exists ok, w1, results, w'.
    split; [exact Ev |]. split; [exact E |]. split; [exact Hid |].
    split; [exact Hname |]. split; [exact Hd |].
    destruct ok.
    + destruct (candidates hostnameOf botConfig options w) as [all|e].
      * destruct H as (sel & w2 & created & w3 & _ & _ & _ & _ & _ & Hs & He & _). auto.
      * destruct H as (_ & Hs & He & _). auto.
    + destruct H as (_ & Hs & He & _). auto.
  - intros e [w1 r1] Eb. unfold runBot, tryCatch. rewrite Eb. reflexivity.
  - destruct (returns_eq _ _ _
                (returns_and _ _ _ _ (runMultipleBots_inTurn botConfigs options w)
                   (runMultipleBots_returns botConfigs options w)))
      as (entries & w' & E & T & H).
    exists entries, w'. auto.
Qed.

(** C8: a run that gets past the profile check and the fetch, and in which
    the dedup filtering leaves no new item ([itemsNew] is 0), is reported
    successful with [postsCreated = 0] and no error, and writes nothing:
    the ledger and the posts are what they were, and no insert was sent. *)
Theorem zero_new_items_no_side_effects (botConfig : BotConfig) (options : RunOptions)
    (w : World) (all : list Item.t) :
  fst (verifyBotProfile (cfg_user_id botConfig) w) = Ret true ->
  candidates hostnameOf botConfig options w = Ret all ->
  exists results w',
    runBot hostnameOf botConfig options w = (Ret results, w')
    /\ (itemsNew results = 0%nat ->
        success results = true
        /\ postsCreated results = 0%nat
        /\ errors results = []
        /\ ledger w' = ledger w
        /\ posts w' = posts w
        /\ exists sentNow,
             trace w' = trace w ++ sentNow
             /\ List.forallb (fun q => negb (isWrite q)) sentNow = true).
Proof.
  intros Hv Hc.
  destruct (runBot_course hostnameOf botConfig options w)
    as (ok & w1 & results & w' & Ev & Q1 & E & _ & _ & _ & H).
  rewrite Ev in Hv. injection Hv as ->. rewrite Hc in H.
  destruct H as (sel & w2 & created & w3 & Q2 & _ & _ & Ec & Hm & Hs & He & Hn & Hp).
  exists results, w'. split; [exact E |]. intros Hz.
  rewrite Hz in Hn. destruct sel; [| discriminate].
  cbn in Ec. injection Ec as <- <-.
  assert (Ew : w' = w2).
  { destruct (default false (dryRun options)); [exact Hm |].
    cbn in Hm. now injection Hm. }
  subst w'.
  destruct (quiet_trans _ _ _ Q1 Q2) as (Hl & Hpo & d & (Ht & _) & Hd).
  split; [exact Hs |]. split; [exact Hp |]. split; [exact He |].
  split; [exact Hl |]. split; [exact Hpo |]. exists d. auto.
Qed.

End RunTheorems2.

(** ** A failed publication *)


Lemma recorded_app (botId : string) (item : Item.t) (t t' : list Ledger.row) :
  recorded botId item (t ++ t') = recorded botId item t || recorded botId item t'.
Proof.
  unfold recorded. rewrite !List.existsb_app.
  destruct (List.existsb (Ledger.sameGuid _ _) t),
           (List.existsb (Ledger.sameGuid _ _) t'),
           (List.existsb (Ledger.sameLink _ _) t); reflexivity.
Qed.

Lemma recorded_same (botId : string) (x y : Item.t) (t : list Ledger.row) :
  Item.guid y = Item.guid x -> Item.link y = Item.link x ->
  recorded botId y t = recorded botId x t.
Proof. unfold recorded. now intros -> ->. Qed.


Lemma Forall2_In_r {A B} (R : A -> B -> Prop) (l : list A) (l' : list B) (y : B) :
  List.Forall2 R l l' -> In y l' -> exists x, In x l /\ R x y.
Proof.
  induction 1 as [|a b l l' Hab _ IH]; intros Hy; [destruct Hy |].
  destruct Hy as [<- | Hy].
  - exists a. split; [now left | exact Hab].
  - destruct (IH Hy) as (x & Hx & Hr). exists x. split; [now right | exact Hr].
Qed.

Lemma Forall2_In_l {A B} (R : A -> B -> Prop) (l : list A) (l' : list B) (x : A) :
  List.Forall2 R l l' -> In x l -> exists y, In y l' /\ R x y.
Proof.
  induction 1 as [|a b l l' Hab _ IH]; intros Hx; [destruct Hx |].
  destruct Hx as [<- | Hx].
  - exists b. split; [now left | exact Hab].
  - destruct (IH Hx) as (y & Hy & Hr). exists y. split; [now right | exact Hr].
Qed.

Lemma quiet_no_post_write (d : list Request) :
  List.forallb (fun q => negb (isWrite q)) d = true ->
  List.filter isPostWrite d = [] /\ forall p, ~ In (InsertPost p) d.
Proof.
  induction d as [|q d IH]; simpl; [auto |].
  intros H. apply andb_prop in H as [Hq Hd]. destruct (IH Hd) as [E N].
  assert (Hn : isPostWrite q = false) by (destruct q; try reflexivity; discriminate).
  rewrite Hn. split; [exact E |].
  intros p Hp. destruct Hp as [Hp | Hp]; [| now apply (N p)].
  subst q. discriminate.
Qed.

Lemma marks_no_post_write (d : list Request) :
  List.Forall (fun q => exists r, q = InsertProcessed r) d ->
  List.filter isPostWrite d = [] /\ forall p, ~ In (InsertPost p) d.
Proof.
  induction 1 as [|q d (r & ->) _ [E N]]; simpl; [auto |].
  split; [exact E |]. intros p [Hp | Hp]; [discriminate | now apply (N p)].
Qed.

Lemma posts_all_post_writes (hostnameOf : string -> option string)
    (botConfig : BotConfig) (d : list Request) (items : list Item.t) :
  List.Forall2 (writesPostOf hostnameOf botConfig) d items ->
  List.filter isPostWrite d = d.
Proof.
  induction 1 as [|q x d items (t & ->) _ IH]; simpl; [reflexivity | now rewrite IH].
Qed.

Lemma slice0_nonneg {A} (n : Z) (l : list A) :
  0 <= n -> JS.slice0 n l = firstn (Z.to_nat n) l.
Proof. intros H. unfold JS.slice0. destruct (Z.ltb_spec n 0); [lia | reflexivity]. Qed.

Lemma In_slice0 {A} (n : Z) (l : list A) (x : A) : In x (JS.slice0 n l) -> In x l.
Proof.
  destruct (slice0_firstn n l) as (k & -> & _). revert l.
  induction k as [|k IH]; intros l; destruct l as [|a l]; simpl; try tauto.
  intros H. destruct H as [H | H]; [now left | right; now apply IH].
Qed.

Lemma retained_when_unrecorded (botId : string) (x : Item.t) (items : list Item.t)
    (v : World) :
  recorded botId x (ledger v) = false -> In x items ->
  exists out v', filterUnprocessedItems botId (Some items) v = (Ret out, v') /\ In x out.
Proof.
  intros Hx Hin.
  destruct (returns_eq _ _ _ (filterUnprocessedItems_loop botId items v))
    as (out & v' & E & _ & _ & Hkeep & _).
  exists out, v'. split; [exact E | now apply Hkeep].
Qed.

Section PublishFailure.

Variable hostnameOf : string -> option string.

(** The marks of [markLoop]: one request for each created post, in
    order, with the row that records the post. *)
Lemma markLoop_sends (botConfig : BotConfig) (createdPosts : list (Post.row * Item.t))
    (w : World) :
  returns (markLoop botConfig createdPosts) w
    (fun _ w' =>
       exists d, laterThan w w' d
                 /\ List.Forall2
                      (fun q c => exists r, q = InsertProcessed r
                                            /\ recordsPost botConfig r c)
                      d createdPosts).
Proof.
  revert w. induction createdPosts as [|[post item] rest IH]; intros w.
  - apply returns_ret. exists []. split; [apply laterThan_refl | constructor].
  - cbn [markLoop]. apply returns_bind.
    eapply returns_mono; [apply markItemAsProcessed_returns |].
    intros b w1 (L1 & _ & _).
    eapply returns_mono; [apply IH |].
    intros [] w2 (d2 & L2 & F2).
    eexists. split; [eapply laterThan_trans; eassumption |].
    constructor; [| exact F2].
    eexists. split; [reflexivity |]. exists (clock w). reflexivity.
Qed.

(** A run that publishes: what it sends, what it adds to the two tables. *)
Lemma run_details (botConfig : BotConfig) (options : RunOptions) (w : World)
    (all : list Item.t) :
  default false (dryRun options) = false ->
  candidates hostnameOf botConfig options w = Ret all ->
  fst (verifyBotProfile (cfg_user_id botConfig) w) = Ret true ->
  exists results w' sel created lookups writes marks added,
    runBot hostnameOf botConfig options w = (Ret results, w')
    /\ trace w' = trace w ++ lookups ++ writes ++ marks
    /\ List.forallb (fun q => negb (isWrite q)) lookups = true
    /\ List.Forall2 (writesPostOf hostnameOf botConfig) writes
                    (JS.slice0 (default 5 (maxPostsPerRun options)) sel)
    /\ List.Forall (fun q => exists r, q = InsertProcessed r) marks
    /\ kept (newFor (cfg_id botConfig) (ledger w)) all sel
    /\ (lookupsOk w -> sel = List.filter (newFor (cfg_id botConfig) (ledger w)) all)
    /\ itemsNew results = List.length sel
    /\ posts w' = posts w ++ List.map fst created
    /\ List.Forall
         (fun c => exists t, Post.fields (fst c) = postDataOf hostnameOf botConfig (snd c) t)
         created
    /\ (forall y, In y (List.map snd created) ->
          In y all
          /\ exists n t, env w n (InsertPost (postDataOf hostnameOf botConfig y t)) = NoFault)
    /\ ledger w' = ledger w ++ added
    /\ List.Forall
         (fun r => exists y, In y (List.map snd created)
                             /\ Ledger.item_guid r = Item.guid y
                             /\ Ledger.item_link r = Item.link y)
         added
    /\ success results = true
    /\ errors results = []
    /\ (forall y, In y (JS.slice0 (default 5 (maxPostsPerRun options)) sel) ->
          (forall n t, env w n (InsertPost (postDataOf hostnameOf botConfig y t)) = NoFault) ->
          In y (List.map snd created))
    /\ List.Forall2
         (fun q c => exists r, q = InsertProcessed r /\ recordsPost botConfig r c)
         marks created.
Proof.
  intros Hdry Hc Hv.
  destruct (runBot_course hostnameOf botConfig options w)
    as (ok & w1 & results & w' & Ev & Q1 & E & _ & _ & _ & H).
  rewrite Ev in Hv. injection Hv as ->. rewrite Hc, Hdry in H.
  destruct H as (sel & w2 & created & w3 & Q2 & K & F & Ec & Em & Hsucc & Herr & Hn & _).
  destruct (quiet_trans _ _ _ Q1 Q2) as (Hl2 & Hp2 & d0 & L0 & D0).
  assert (R1 := createPostsBatch_returns hostnameOf botConfig sel
                  (default 5 (maxPostsPerRun options)) w2).
  unfold returns in R1. rewrite Ec in R1.
  destruct R1 as (Hl3 & (dp & Lp & Fp) & Hp3 & Hsub & Hsome & Hevery & Hdata).
  assert (R2 := markLoop_returns botConfig created w3).
  unfold returns in R2. rewrite Em in R2.
  destruct R2 as (Hp4 & (dm & Lm & Dm) & _ & added & Hl4 & Hadd).
  assert (R3 := markLoop_sends botConfig created w3).
  unfold returns in R3. rewrite Em in R3.
  destruct R3 as (dm' & Lm' & Fm).
  assert (dm' = dm) as ->.
  { destruct Lm as (Ht & _), Lm' as (Ht' & _). rewrite Ht in Ht'.
    now apply List.app_inv_head in Ht'. }
  exists results, w', sel, created, d0, dp, dm, added.
  split; [exact E |].
  split.
  { destruct (laterThan_trans _ _ _ _ _ (laterThan_trans _ _ _ _ _ L0 Lp) Lm) as (Ht & _).
    rewrite Ht, <- List.app_assoc. reflexivity. }
  split; [exact D0 |]. split; [exact Fp |]. split; [exact Dm |].
  split; [exact K |]. split; [exact F |]. split; [exact Hn |].
  split; [congruence |]. split; [exact Hdata |].
  split.
  { intros y Hy. split.
    - eapply kept_In; [exact K |]. eapply In_slice0.
      apply list_elem_of_In. eapply elem_of_sublist; [| exact Hsub].
      now apply list_elem_of_In.
    - destruct (Hsome y Hy) as (n & t & Hnt). exists n, t.
      destruct L0 as (_ & _ & He & _). now rewrite <- He. }
  split; [congruence |].
  split; [eapply List.Forall_impl; [| exact Hadd]; intros r (_ & y & Hy & Hg); eauto |].
  split; [exact Hsucc |]. split; [exact Herr |].
  split; [| exact Fm].
  intros y Hy Hfree. apply Hevery; [exact Hy |].
  intros n t. destruct L0 as (_ & _ & He & _). rewrite He. apply Hfree.
Qed.

End PublishFailure.

Section PublishFailureTheorem.

Variable hostnameOf : string -> option string.

Lemma run_without_candidates (botConfig : BotConfig) (options : RunOptions) (w : World) :
  fst (verifyBotProfile (cfg_user_id botConfig) w) = Ret false
  \/ (exists e, candidates hostnameOf botConfig options w = Throw e) ->
  exists results w',
    runBot hostnameOf botConfig options w = (Ret results, w')
    /\ quiet w w' /\ itemsNew results = 0%nat /\ postsCreated results = 0%nat
    /\ success results = false.
Proof.
  intros H.
  destruct (runBot_course hostnameOf botConfig options w)
    as (ok & w1 & results & w' & Ev & Q1 & E & _ & _ & _ & C).
  exists results, w'. split; [exact E |].
  rewrite Ev in H. destruct ok.
  - destruct H as [H | (e & He)]; [discriminate |]. rewrite He in C.
    destruct C as (-> & Hs & _ & Hp & Hn). auto.
  - destruct C as (-> & Hs & _ & Hp & Hn). auto.
Qed.


End PublishFailureTheorem.

(** ** The properties on the examples *)

Local Open Scope string_scope.

(** C6, as stated, fails: the title of [longItem] fills the 280
    characters, and the fallback does not contain the link. *)
Lemma fallback_may_lose_the_link :
  exists fallback,
    generateSummary Fixture.downOpenAI Fixture.longItem None None tt = (Ret fallback, tt)
    /\ String.length fallback = 280%nat
    /\ JS.includes fallback (Item.link Fixture.longItem) = false.
Proof. eexists. split; [reflexivity |]. split; reflexivity. Qed.

Lemma generateSummary_fallback_witness :
  exists fallback,
    generateSummary Fixture.downOpenAI Fixture.a1 None None tt = (Ret fallback, tt)
    /\ fallback = "Story a1 - https://a1.example/story"
    /\ JS.includes fallback (Item.title Fixture.a1) = true
    /\ JS.includes fallback (Item.link Fixture.a1) = true.
Proof.
  destruct (generateSummary_fallback_on_error Fixture.downOpenAI Fixture.a1 None None I)
    as (fallback & E & Ef & _ & H).
  exists fallback. split; [exact E |].
  destruct H as (_ & Ht & Hl); [simpl; lia |].
  split; [exact Ef |]. split; [exact Ht | exact Hl].
Defined.

Lemma markItemAsProcessed_idempotent_witness :
  exists b1 w1 b2 w2,
    markItemAsProcessed "us-politics-bot" "uspolitics" Fixture.a1 (Some 0%nat)
      (Fixture.world Fixture.noFault []) = (Ret b1, w1)
    /\ markItemAsProcessed "us-politics-bot" "uspolitics" Fixture.a1 (Some 1%nat) w1
       = (Ret b2, w2)
    /\ (Ledger.countGuid "us-politics-bot" (Item.guid Fixture.a1) (ledger w2) <= 1)%nat.
Proof.
  destruct (markItemAsProcessed_idempotent "us-politics-bot" "uspolitics" Fixture.a1
              (Some 0%nat) (Some 1%nat) (Fixture.world Fixture.noFault []) I)
    as (b1 & w1 & b2 & w2 & E1 & E2 & _ & Hc & _).
  exists b1, w1, b2, w2. split; [exact E1 |]. split; [exact E2 | exact Hc].
Defined.

Example markItemAsProcessed_twice :
  let w := Fixture.world Fixture.noFault [] in
  let first := markItemAsProcessed "us-politics-bot" "uspolitics" Fixture.a1 (Some 0%nat) w in
  let second := markItemAsProcessed "us-politics-bot" "uspolitics" Fixture.a1 (Some 1%nat)
                                    (snd first) in
  fst first = Ret true /\ fst second = Ret true
  /\ List.length (ledger (snd first)) = 1%nat
  /\ ledger (snd second) = ledger (snd first).
Proof. repeat split. Qed.

Lemma dedup_guid_then_link_witness :
  let w := Fixture.world Fixture.noFault [Fixture.rowOf Fixture.bot Fixture.a1] in
  isItemProcessed "us-politics-bot" Fixture.relinked w
  = (Ret true, sent (SelectByGuid "us-politics-bot" "guid-a1") w)
  /\ isItemProcessed "us-politics-bot" Fixture.reguided w
     = (Ret true, sent (SelectByLink "us-politics-bot" "https://a1.example/story")
                    (sent (SelectByGuid "us-politics-bot" "guid-a1-v2") w)).
Proof.
  cbv zeta.
  assert (Hok : lookupsOk (Fixture.world Fixture.noFault [Fixture.rowOf Fixture.bot Fixture.a1]))
    by (intros n req _; reflexivity).
  split.
  - apply (dedup_guid_then_link "us-politics-bot" Fixture.relinked _ Hok).
    exists (Fixture.rowOf Fixture.bot Fixture.a1). simpl. auto.
  - apply (dedup_guid_then_link "us-politics-bot" Fixture.reguided _ Hok).
    + intros (r & [<- | []] & _ & Hg). discriminate Hg.
    + exists (Fixture.rowOf Fixture.bot Fixture.a1). simpl. auto.
Defined.

(** A row of another bot does not count. *)
Example dedup_is_per_bot :
  let w := Fixture.world Fixture.noFault [Fixture.rowOf Fixture.otherBot Fixture.a1] in
  fst (isItemProcessed "us-politics-bot" Fixture.a1 w) = Ret false
  /\ fst (isItemProcessed "tech-news-bot" Fixture.a1 w) = Ret true.
Proof. split; reflexivity. Qed.

(** C7, as stated, fails: the GUID lookup errors, the link lookup finds
    the row of [a1], and [isItemProcessed] returns true; the filter drops
    the item. *)
Lemma errored_guid_lookup_still_processed :
  let w := Fixture.world Fixture.guidLookupsFail [Fixture.rowOf Fixture.bot Fixture.a1] in
  env w (calls w) (SelectByGuid "us-politics-bot" (Item.guid Fixture.a1)) = ErrorReply "503"
  /\ fst (isItemProcessed "us-politics-bot" Fixture.a1 w) = Ret true
  /\ fst (filterUnprocessedItems "us-politics-bot" (Some [Fixture.a1]) w) = Ret [].
Proof. repeat split. Qed.

Lemma lookup_failure_witness :
  let w := Fixture.world Fixture.storeDown Fixture.fullLedger in
  (exists w', isItemProcessed "us-politics-bot" Fixture.a1 w = (Ret false, w'))
  /\ exists w', filterUnprocessedItems "us-politics-bot" (Some (Feed.items Fixture.feedA)) w
                = (Ret (Feed.items Fixture.feedA), w').
Proof.
  cbv zeta.
  destruct (lookup_failure_means_not_processed "us-politics-bot" Fixture.a1
              (Fixture.world Fixture.storeDown Fixture.fullLedger)) as [H1 H2].
  - right. split; [discriminate | left; discriminate].
  - split; [exact H1 |]. apply H2. intros n req. discriminate.
Defined.

(** C1: the per-source cap is read from the options and never applied.
    Whatever the cap, the run is the same; and on three sources with 5, 5
    and 1 new items, a per-source cap of 2 and an overall cap of 5, the
    run finds 11 new items and publishes 5 posts, all of the first
    source. *)
Theorem per_source_cap_is_not_applied :
  (forall hostnameOf botConfig options cap w,
      runBot hostnameOf botConfig (withMaxPostsPerFeed cap options) w
      = runBot hostnameOf botConfig options w)
  /\ exists results w',
       runBot plainHostname Fixture.bot Fixture.capped (Fixture.world Fixture.noFault [])
       = (Ret results, w')
       /\ maxPostsPerFeed Fixture.capped = Some 2
       /\ maxPostsPerRun Fixture.capped = Some 5
       /\ itemsNew results = 11%nat
       /\ postsCreated results = 5%nat
       /\ List.map (fun p => Post.rss_source_name (Post.fields p)) (posts w')
          = [Some "Source A"; Some "Source A"; Some "Source A"; Some "Source A";
             Some "Source A"]
       /\ List.map (fun p => Post.rss_source_url (Post.fields p)) (posts w')
          = [Some "https://a1.example/story"; Some "https://a2.example/story";
             Some "https://a3.example/story"; Some "https://a4.example/story";
             Some "https://a5.example/story"]
       /\ List.map Ledger.item_guid (ledger w')
          = ["guid-a1"; "guid-a2"; "guid-a3"; "guid-a4"; "guid-a5"].
Proof.
  split; [reflexivity |].
  eexists _, _. split; [vm_compute; reflexivity |]. repeat split.
Qed.

Lemma zero_new_items_witness :
  let w := Fixture.world Fixture.noFault Fixture.fullLedger in
  exists results w',
    runBot plainHostname Fixture.bot Fixture.capped w = (Ret results, w')
    /\ itemsNew results = 0%nat /\ itemsFetched results = 11%nat
    /\ success results = true /\ postsCreated results = 0%nat
    /\ ledger w' = ledger w /\ posts w' = posts w.
Proof.
  cbv zeta.
  destruct (zero_new_items_no_side_effects plainHostname Fixture.bot Fixture.capped
              (Fixture.world Fixture.noFault Fixture.fullLedger)
              (allOf plainHostname [Fixture.feedA; Fixture.feedB; Fixture.feedC])
              eq_refl eq_refl)
    as (results & w' & E & H).
  exists results, w'. split; [exact E |].
  assert (Hr : itemsNew results = 0%nat /\ itemsFetched results = 11%nat).
  { vm_compute in E. injection E as <- _. split; reflexivity. }
  destruct Hr as [Hz Hf]. destruct (H Hz) as (Hs & Hp & _ & Hl & Hpo & _).
  repeat split; assumption.
Defined.



Example publish_failure_run :
  let w := Fixture.world (Fixture.writesFailFor (Item.link Fixture.a2)) [] in
  let run := runBot plainHostname Fixture.bot Fixture.capped w in
  fst run = Ret (mkRunResults "us-politics-bot" "US Politics Bot" true 11 11 0 4 3 [] 2640)
  /\ List.map Ledger.item_guid (ledger (snd run))
     = ["guid-a1"; "guid-a3"; "guid-a4"; "guid-a5"]
  /\ List.length (List.filter isPostWrite (trace (snd run))) = 5%nat.
Proof. vm_compute. repeat split. Qed.

(** Two bots, the first of which has no profile: its run fails, the
    second bot runs and publishes. *)
Example runMultipleBots_goes_on :
  let w := Fixture.world Fixture.noFault [] in
  let run := runMultipleBots plainHostname [Fixture.otherBot; Fixture.bot] Fixture.capped w in
  exists failed completed,
    fst run = Ret [Completed failed; Completed completed]
    /\ success failed = false
    /\ errors failed
       = ["Bot profile not found: bot_technews. Run scripts/create-bot-profiles.sql first."]
    /\ success completed = true /\ postsCreated completed = 5%nat.
Proof. vm_compute. eexists _, _. repeat split. Qed.

(** * Further properties: the fetcher, the cleanup, the summarizer's
      batch and retry, and the accounts of a run *)

Local Close Scope string_scope.

(** ** The fetcher *)

Section FetcherFacts.

Variable parseDate : string -> option Z.
Variable parseURL : string -> result ParsedFeed.

Lemma insertByDate_perm (x : Item.t) (l : list Item.t) :
  Permutation (RssFetcher.insertByDate parseDate x l) (x :: l).
Proof.
  induction l as [|y l IH]; simpl; [reflexivity |].
  destruct (RssFetcher.goesBefore parseDate y x); [| reflexivity].
  rewrite IH. apply perm_swap.
Qed.

Lemma sortByDate_perm (l : list Item.t) :
  Permutation (RssFetcher.sortByDate parseDate l) l.
Proof.
  induction l as [|x l IH]; simpl; [reflexivity |].
  unfold RssFetcher.sortByDate in *. simpl.
  rewrite insertByDate_perm. now constructor.
Qed.

Lemma insertByDate_sorted (x : Item.t) (l : list Item.t) :
  (dated parseDate) x -> List.Forall (dated parseDate) l ->
  StronglySorted (notOlder parseDate) l ->
  StronglySorted (notOlder parseDate) (RssFetcher.insertByDate parseDate x l).
Proof.
  intros (tx & Hx) Hd Hs. induction Hs as [|y l Hs IH Hy]; simpl.
  - repeat constructor.
  - apply List.Forall_cons_iff in Hd as [(ty & Hty) Hd].
    unfold RssFetcher.goesBefore. rewrite Hty, Hx.
    destruct (Z.ltb_spec tx ty) as [Hlt | Hge].
    + constructor; [now apply IH |].
      eapply Permutation_Forall; [symmetry; apply insertByDate_perm |].
      constructor; [| exact Hy]. exists ty, tx. repeat split; auto; lia.
    + constructor; [now constructor |].
      constructor; [exists tx, ty; repeat split; auto |].
      eapply List.Forall_impl; [| exact Hy].
      intros z (ty' & tz & Hy' & Hz & Hle). rewrite Hty in Hy'. injection Hy' as <-.
      exists tx, tz. repeat split; auto; lia.
Qed.

Lemma sortByDate_sorted (l : list Item.t) :
  List.Forall (dated parseDate) l ->
  StronglySorted (notOlder parseDate) (RssFetcher.sortByDate parseDate l).
Proof.
  induction 1 as [|x l Hx Hl IH]; [constructor |].
  unfold RssFetcher.sortByDate in *. simpl.
  apply insertByDate_sorted; [exact Hx | | exact IH].
  eapply Permutation_Forall; [symmetry; apply sortByDate_perm | exact Hl].
Qed.

(** An item of the pool the fetcher collects: where it comes from. *)
Lemma collectRecent_In (now : Z) (feedUrls : list string) (minutesAgo : option Z)
    (item : Item.t) :
  In item (RssFetcher.collectRecent parseDate now
             (List.map (RssFetcher.fetchFeed parseURL) feedUrls) minutesAgo) <->
  exists feedUrl feed entry,
    In feedUrl feedUrls
    /\ parseURL feedUrl = Ret feed
    /\ In entry (default [] (feed_items feed))
    /\ keepByDate parseDate
         (JS.timeClip (now - default 60 minutesAgo * 60 * 1000)) (Entry.raw entry) = true
    /\ item = RssFetcher.normalizeItem entry feedUrl.
Proof.
  induction feedUrls as [|u urls IH]; cbn [List.map RssFetcher.collectRecent].
  - split; [intros [] | intros (? & ? & ? & [] & _)].
  - assert (Ef : RssFetcher.fetchFeed parseURL u
                 = match parseURL u with
                   | Ret feed => mkFeedResult true u (feed_title feed)
                                              (default [] (feed_items feed)) None
                   | Throw message => mkFeedResult false u None [] (Some message)
                   end) by reflexivity.
    destruct (parseURL u) as [feed|e] eqn:E; rewrite Ef;
      cbn [fr_success fr_items fr_feedUrl negb].
    + rewrite List.in_app_iff, IH, List.in_map_iff. split.
      * intros [(entry & <- & Hin) | (u' & feed' & entry & Hu & Hrest)].
        -- unfold RssFetcher.filterEntriesByDate in Hin.
           apply List.filter_In in Hin as [Hin Hk].
           exists u, feed, entry. split; [now left |]. split; [exact E |].
           split; [exact Hin |]. split; [exact Hk | reflexivity].
        -- exists u', feed', entry. split; [now right | exact Hrest].
      * intros (u' & feed' & entry & [<- | Hu] & Hp & Hin & Hk & ->).
        -- left. rewrite E in Hp. injection Hp as <-.
           exists entry. split; [reflexivity |].
           unfold RssFetcher.filterEntriesByDate. apply List.filter_In. auto.
        -- right. exists u', feed', entry. split; [exact Hu |]. split; [exact Hp |].
           split; [exact Hin |]. split; [exact Hk | reflexivity].
    + rewrite IH. split.
      * intros (u' & feed' & entry & Hu & Hrest).
        exists u', feed', entry. split; [now right | exact Hrest].
      * intros (u' & feed' & entry & [<- | Hu] & Hp & Hrest); [congruence |].
        exists u', feed', entry. split; [exact Hu |]. split; [exact Hp | exact Hrest].
Qed.

Lemma normalizeItem_date (entry : Entry.t) (feedUrl : string) :
  RssFetcher.pubDateObject parseDate (RssFetcher.normalizeItem entry feedUrl)
  = match itemPubDate (Entry.raw entry) with
    | Some s => parseDate s
    | None => None
    end.
Proof. reflexivity. Qed.

Lemma kept_entry_dated (cutoffTime : option Z) (entry : Entry.t) (feedUrl : string) :
  keepByDate parseDate cutoffTime (Entry.raw entry) = true ->
  exists t cutoff,
    RssFetcher.pubDateObject parseDate (RssFetcher.normalizeItem entry feedUrl) = Some t
    /\ cutoffTime = Some cutoff /\ cutoff <= t.
Proof.
  intros H. apply keepByDate_iff in H as (s & t & c & Hs & _ & Hp & Hc & Hle).
  exists t, c. rewrite normalizeItem_date, Hs. auto.
Qed.

Lemma orS_nonempty (a : option string) (s : string) :
  s <> EmptyString -> JS.orS a s <> EmptyString.
Proof.
  intros Hs. destruct a as [x|]; simpl; [| exact Hs].
  destruct (String.eqb_spec x EmptyString); [exact Hs | assumption].
Qed.

(** X1: what [fetchMultipleFeeds] returns. An item is in the result
    exactly when it is the normalized form of an entry of a feed that was
    fetched successfully, and the entry passes the date filter; every
    item of the result has a title that is not empty, the address of its
    feed, and a date that parses and is not older than the window. *)
Theorem fetchMultipleFeeds_items (now : Z) (feedUrls : list string)
    (minutesAgo : option Z) (item : Item.t) :
  (In item (RssFetcher.fetchMultipleFeeds parseDate parseURL now feedUrls minutesAgo) <->
   exists feedUrl feed entry,
     In feedUrl feedUrls
     /\ parseURL feedUrl = Ret feed
     /\ In entry (default [] (feed_items feed))
     /\ In (Entry.raw entry)
           (filterItemsByDate parseDate now [Entry.raw entry] minutesAgo)
     /\ item = RssFetcher.normalizeItem entry feedUrl)
  /\ (In item (RssFetcher.fetchMultipleFeeds parseDate parseURL now feedUrls minutesAgo) ->
      Item.title item <> EmptyString
      /\ In (Item.feedUrl item) feedUrls
      /\ exists t, RssFetcher.pubDateObject parseDate item = Some t
                   /\ now - t <= default 60 minutesAgo * 60 * 1000).
Proof.
  assert (Hmem : forall i,
    In i (RssFetcher.fetchMultipleFeeds parseDate parseURL now feedUrls minutesAgo) <->
    In i (RssFetcher.collectRecent parseDate now
            (List.map (RssFetcher.fetchFeed parseURL) feedUrls) minutesAgo)).
  { intros i. unfold RssFetcher.fetchMultipleFeeds.
    split; apply Permutation_in; [| symmetry]; apply sortByDate_perm. }
  split.
  - rewrite Hmem, collectRecent_In.
    split; intros (u & feed & entry & Hu & Hp & Hin & Hk & ->);
      exists u, feed, entry; repeat split; auto.
    + unfold filterItemsByDate. simpl. rewrite Hk. now left.
    + unfold filterItemsByDate in Hk. simpl in Hk.
      destruct (keepByDate parseDate _ (Entry.raw entry)); [reflexivity | destruct Hk].
  - intros Hin. apply Hmem, collectRecent_In in Hin
      as (u & feed & entry & Hu & Hp & Hin & Hk & ->).
    split; [apply orS_nonempty; discriminate |]. split; [exact Hu |].
    destruct (kept_entry_dated _ entry u Hk) as (t & c & Ht & Hc & Hle).
    exists t. split; [exact Ht |].
    unfold JS.timeClip in Hc.
    destruct (Z.abs _ <=? _)%Z; [| discriminate]. injection Hc as <-. lia.
Qed.

(** X2: [fetchMultipleFeeds] returns the items it collected, each once,
    newest first: the result is a permutation of the pool, and no item is
    followed by one with a later date. *)
Theorem fetchMultipleFeeds_newest_first (now : Z) (feedUrls : list string)
    (minutesAgo : option Z) :
  let pool := RssFetcher.collectRecent parseDate now
                (List.map (RssFetcher.fetchFeed parseURL) feedUrls) minutesAgo in
  let out := RssFetcher.fetchMultipleFeeds parseDate parseURL now feedUrls minutesAgo in
  Permutation out pool
  /\ StronglySorted (notOlder parseDate) out.
Proof.
  cbv zeta. split; [apply sortByDate_perm |].
  apply sortByDate_sorted. apply List.Forall_forall. intros item Hin.
  apply collectRecent_In in Hin as (u & feed & entry & _ & _ & _ & Hk & ->).
  destruct (kept_entry_dated _ entry u Hk) as (t & _ & Ht & _). now exists t.
Qed.

(** X3: a feed that cannot be fetched is as good as not configured: the
    result is the one for the feeds that can be fetched, and it is empty
    when none can. *)
Theorem fetchMultipleFeeds_skips_failed_feeds (now : Z) (feedUrls : list string)
    (minutesAgo : option Z) :
  RssFetcher.fetchMultipleFeeds parseDate parseURL now feedUrls minutesAgo
  = RssFetcher.fetchMultipleFeeds parseDate parseURL now
      (List.filter (reachable parseURL) feedUrls) minutesAgo
  /\ (List.filter (reachable parseURL) feedUrls = [] ->
      RssFetcher.fetchMultipleFeeds parseDate parseURL now feedUrls minutesAgo = []).
Proof.
  assert (E : RssFetcher.collectRecent parseDate now
                (List.map (RssFetcher.fetchFeed parseURL) feedUrls) minutesAgo
              = RssFetcher.collectRecent parseDate now
                  (List.map (RssFetcher.fetchFeed parseURL)
                            (List.filter (reachable parseURL) feedUrls)) minutesAgo).
  { induction feedUrls as [|u urls IH]; [reflexivity |].
    assert (Ef : RssFetcher.fetchFeed parseURL u
                 = match parseURL u with
                   | Ret feed => mkFeedResult true u (feed_title feed)
                                              (default [] (feed_items feed)) None
                   | Throw message => mkFeedResult false u None [] (Some message)
                   end) by reflexivity.
    cbn [List.map List.filter RssFetcher.collectRecent]. unfold reachable at 1.
    destruct (parseURL u) as [feed|e] eqn:Eu.
    - cbn [List.map RssFetcher.collectRecent]. rewrite Ef.
      cbn [fr_success fr_items fr_feedUrl negb]. now rewrite IH.
    - rewrite Ef. cbn [fr_success negb]. exact IH. }
  unfold RssFetcher.fetchMultipleFeeds. rewrite E. split; [reflexivity |].
  intros ->. reflexivity.
Qed.

End FetcherFacts.

(** ** Marking, looking up, cleaning up *)

Lemma conflicts_recorded (botId botUsername : string) (item : Item.t)
    (postId : option nat) (w : World) (t : list Ledger.row) :
  List.existsb (Ledger.conflicts (rowFor botId botUsername item postId w)) t
  = recorded botId item t.
Proof.
  unfold recorded, Ledger.conflicts, rowFor. simpl.
  induction t as [|r t IH]; simpl; [reflexivity |]. rewrite IH.
  destruct (Ledger.sameGuid botId (Item.guid item) r),
           (Ledger.sameLink botId (Item.link item) r),
           (List.existsb (Ledger.sameGuid botId (Item.guid item)) t); reflexivity.
Qed.

Lemma recorded_rowFor (botId botUsername : string) (item : Item.t)
    (postId : option nat) (w : World) :
  recorded botId item [rowFor botId botUsername item postId w] = true.
Proof.
  unfold recorded, rowFor, Ledger.sameGuid. simpl. now rewrite !String.eqb_refl.
Qed.

(** X4: marking and looking up agree. When the insert of
    [markItemAsProcessed] meets no fault, the call returns true and a row
    stands for the item from then on: with lookups that succeed,
    [isItemProcessed] returns true and [filterUnprocessedItems] drops the
    item. *)
Theorem marked_item_is_processed (botId botUsername : string) (item : Item.t)
    (postId : option nat) (w : World) :
  env w (calls w) (InsertProcessed (rowFor botId botUsername item postId w)) = NoFault ->
  exists w1,
    markItemAsProcessed botId botUsername item postId w = (Ret true, w1)
    /\ recorded botId item (ledger w1) = true
    /\ forall v, ledger v = ledger w1 -> lookupsOk v ->
         (exists v', isItemProcessed botId item v = (Ret true, v'))
         /\ forall items : list Item.t,
              exists out v',
                filterUnprocessedItems botId (Some items) v = (Ret out, v')
                /\ ~ In item out.
Proof.
  intros Hok. rewrite markItemAsProcessed_cases. cbv zeta. rewrite Hok.
  rewrite conflicts_recorded.
  assert (Hafter : forall w1, recorded botId item (ledger w1) = true ->
            forall v, ledger v = ledger w1 -> lookupsOk v ->
              (exists v', isItemProcessed botId item v = (Ret true, v'))
              /\ forall items : list Item.t,
                   exists out v',
                     filterUnprocessedItems botId (Some items) v = (Ret out, v')
                     /\ ~ In item out).
  { intros w1 Hr v Hv Hl. rewrite <- Hv in Hr. split.
    - destruct (returns_eq _ _ _ (isItemProcessed_returns botId item v))
        as (b & v' & E & _ & _ & _ & _ & Hb & _).
      exists v'. now rewrite E, (Hb Hl), Hr.
    - intros items.
      destruct (returns_eq _ _ _ (filterUnprocessedItems_loop botId items v))
        as (out & v' & E & _ & _ & _ & Hf & _).
      exists out, v'. split; [exact E |]. rewrite (Hf Hl), List.filter_In.
      intros [_ Hn]. now rewrite Hr in Hn. }
  destruct (recorded botId item (ledger w)) eqn:Hr.
  - eexists. split; [reflexivity |]. split; [exact Hr |]. now apply Hafter.
  - eexists. split; [reflexivity |].
    assert (Hr' : recorded botId item
                    (ledger (setLedger (ledger w ++ [rowFor botId botUsername item postId w])
                               (sent (InsertProcessed
                                        (rowFor botId botUsername item postId w)) w))) = true).
    { simpl. rewrite recorded_app, recorded_rowFor. apply orb_true_r. }
    split; [exact Hr' |]. now apply Hafter.
Qed.

Lemma filterLoop_lookups (botId : string) (items : list Item.t) (w : World) :
  returns (filterLoop botId items) w
    (fun _ w' =>
       exists d, laterThan w w' d
                 /\ (List.length items <= List.length d <= 2 * List.length items)%nat).
Proof.
  revert w. induction items as [|item rest IH]; intros w.
  - apply returns_ret. exists []. split; [apply laterThan_refl | simpl; lia].
  - cbn [filterLoop]. apply returns_bind.
    assert (H1 : returns (isItemProcessed botId item) w
                   (fun _ w1 => exists d, laterThan w w1 d
                                          /\ (1 <= List.length d <= 2)%nat)).
    { unfold returns. rewrite isItemProcessed_cases. cbv zeta.
      set (q1 := SelectByGuid botId (Item.guid item)).
      set (q2 := SelectByLink botId (Item.link item)).
      assert (L1 : exists d, laterThan w (sent q1 w) d /\ (1 <= List.length d <= 2)%nat)
        by (exists [q1]; split; [apply laterThan_sent | simpl; lia]).
      assert (L2 : exists d, laterThan w (sent q2 (sent q1 w)) d
                             /\ (1 <= List.length d <= 2)%nat).
      { exists ([q1] ++ [q2]). split; [| simpl; lia].
        eapply laterThan_trans; apply laterThan_sent. }
      destruct (env w (calls w) q1);
        [destruct (List.existsb _ (ledger w)) | |];
        try destruct (env w (S (calls w)) q2); assumption. }
    eapply returns_mono; [exact H1 |]. intros b w1 (d1 & L1 & Hd1).
    apply returns_bind. eapply returns_mono; [apply IH |].
    intros out w2 (d2 & L2 & Hd2). apply returns_ret.
    exists (d1 ++ d2). split; [eapply laterThan_trans; eassumption |].
    rewrite List.length_app. simpl. lia.
Qed.

(** X5: the dedup filter only reads. Whatever the store answers,
    [filterUnprocessedItems] returns, leaves the ledger and the posts as
    they are, and sends lookups only: at least one and at most two for
    each item. *)
Theorem filterUnprocessedItems_only_reads (botId : string) (items : list Item.t)
    (w : World) :
  exists out w' sentNow,
    filterUnprocessedItems botId (Some items) w = (Ret out, w')
    /\ ledger w' = ledger w
    /\ posts w' = posts w
    /\ trace w' = trace w ++ sentNow
    /\ List.forallb (fun q => negb (isWrite q)) sentNow = true
    /\ (List.length items <= List.length sentNow <= 2 * List.length items)%nat.
Proof.
  destruct (returns_eq _ _ _ (filterUnprocessedItems_loop botId items w))
    as (out & w' & E & (Hl & Hp & d & L & Hd) & _).
  exists out, w', d. split; [exact E |]. split; [exact Hl |]. split; [exact Hp |].
  destruct L as (Ht & Hc & _). split; [exact Ht |]. split; [exact Hd |].
  destruct items as [|item rest].
  - cbn in E. injection E as _ <-.
    assert (d = []) as ->; [| simpl; lia].
    apply (f_equal (@List.length _)) in Ht.
    rewrite List.length_app in Ht. destruct d; [reflexivity | simpl in Ht; lia].
  - assert (R := filterLoop_lookups botId (item :: rest) w).
    unfold returns in R. change (filterUnprocessedItems botId (Some (item :: rest)))
      with (filterLoop botId (item :: rest)) in E.
    rewrite E in R. destruct R as (d' & (Ht' & _) & Hd').
    rewrite Ht in Ht'. apply List.app_inv_head in Ht'. now subst d'.
Qed.

Section CleanupFacts.

Variable setDateBack : Z -> Z -> option Z.

Lemma cleanupOldItems_ok (daysOld : option Z) (w : World) (cutoff : Z) :
  setDateBack (clock w) (default 30 daysOld) = Some cutoff ->
  cleanupOldItems setDateBack NoFault daysOld w
  = (Ret (List.length (List.filter (fun r => Ledger.processed_at r <? cutoff) (ledger w))),
     setLedger (List.filter (fun r => cutoff <=? Ledger.processed_at r) (ledger w)) w).
Proof.
  intros Hc. unfold cleanupOldItems, tryCatch, bind, Date_now, deleteProcessedBefore.
  rewrite Hc. simpl. do 2 f_equal.
  apply List.filter_ext. intros r. rewrite Z.leb_antisym. reflexivity.
Qed.

(** X6: what the cleanup removes. When the delete succeeds,
    [cleanupOldItems] removes the rows processed before the cut-off and
    no other, keeps the order of the rest, and returns the number of rows
    it removed; the posts are untouched, the uniqueness of the table is
    kept, and a second cleanup with the same cut-off removes nothing.
    When the cut-off is no valid date, or the delete fails, it returns 0
    and the table is as it was. *)
Theorem cleanupOldItems_removes_old_rows (answer : Fault) (daysOld : option Z)
    (w : World) :
  exists deleted w',
    cleanupOldItems setDateBack answer daysOld w = (Ret deleted, w')
    /\ posts w' = posts w
    /\ clock w' = clock w
    /\ (Ledger.unique (ledger w) -> Ledger.unique (ledger w'))
    /\ (List.length (ledger w') + deleted = List.length (ledger w))%nat
    /\ match answer, setDateBack (clock w) (default 30 daysOld) with
       | NoFault, Some cutoff =>
           ledger w' = List.filter (fun r => cutoff <=? Ledger.processed_at r) (ledger w)
           /\ (forall r, In r (ledger w') <->
                         In r (ledger w) /\ cutoff <= Ledger.processed_at r)
           /\ forall again,
                cleanupOldItems setDateBack again daysOld w' = (Ret 0%nat, w')
       | _, _ => deleted = 0%nat /\ w' = w
       end.
Proof.
  unfold cleanupOldItems, tryCatch, bind, Date_now, deleteProcessedBefore.
  destruct (setDateBack (clock w) (default 30 daysOld)) as [cutoff|] eqn:Ec; simpl.
  2:{ exists 0%nat, w. repeat split; auto; try lia. now destruct answer. }
  destruct answer as [|c|e]; simpl.
  2,3: exists 0%nat, w; repeat split; auto; lia.
  assert (Ef : List.filter (fun r => negb (Ledger.processed_at r <? cutoff)) (ledger w)
               = List.filter (fun r => cutoff <=? Ledger.processed_at r) (ledger w)).
  { apply List.filter_ext. intros r. rewrite Z.leb_antisym. reflexivity. }
  eexists _, _. split; [reflexivity |]. simpl. rewrite Ef.
  split; [reflexivity |]. split; [reflexivity |].
  split.
  { clear. induction (ledger w) as [|r t IH]; simpl; [auto |].
    intros [Hr Ht]. destruct (cutoff <=? Ledger.processed_at r); [| now apply IH].
    simpl. split; [| now apply IH].
    clear - Hr. induction t as [|x t IH]; simpl in *; [reflexivity |].
    apply orb_false_elim in Hr as [Hx Hr].
    destruct (cutoff <=? Ledger.processed_at x); simpl; [rewrite Hx |]; now apply IH. }
  split.
  { clear. induction (ledger w) as [|r t IH]; simpl; [reflexivity |].
    rewrite (Z.ltb_antisym cutoff (Ledger.processed_at r)) , Z.leb_antisym.
    destruct (Ledger.processed_at r <? cutoff); simpl; lia. }
  split; [reflexivity |]. split.
  { intros r. rewrite List.filter_In, Z.leb_le. reflexivity. }
  intros again. rewrite Ec. simpl.
  assert (Hnone : List.filter (fun r => Ledger.processed_at r <? cutoff)
                    (List.filter (fun r => cutoff <=? Ledger.processed_at r) (ledger w)) = []).
  { clear. induction (ledger w) as [|r t IH]; simpl; [reflexivity |].
    destruct (Z.leb_spec cutoff (Ledger.processed_at r)); simpl; [| exact IH].
    destruct (Z.ltb_spec (Ledger.processed_at r) cutoff); [lia | exact IH]. }
  assert (Hall : List.filter (fun r => negb (Ledger.processed_at r <? cutoff))
                   (List.filter (fun r => cutoff <=? Ledger.processed_at r) (ledger w))
                 = List.filter (fun r => cutoff <=? Ledger.processed_at r) (ledger w)).
  { clear. induction (ledger w) as [|r t IH]; simpl; [reflexivity |].
    destruct (Z.leb_spec cutoff (Ledger.processed_at r)); simpl; [| exact IH].
    destruct (Z.ltb_spec (Ledger.processed_at r) cutoff); [lia |]. simpl. now rewrite IH. }
  destruct again; simpl; rewrite ?Hnone, ?Hall; reflexivity.
Qed.

End CleanupFacts.

Section CleanupDedup.

Variable setDateBack : Z -> Z -> option Z.

(** X7: cleanup and dedup together. After a cleanup that succeeds, an item
    all of whose rows were processed before the cut-off is new again:
    [isItemProcessed] returns false, whatever the lookups meet, and
    [filterUnprocessedItems] retains it. *)
Theorem cleaned_item_is_new_again (daysOld : option Z) (botId : string)
    (item : Item.t) (w : World) (cutoff : Z) :
  setDateBack (clock w) (default 30 daysOld) = Some cutoff ->
  (forall r, In r (ledger w) ->
             Ledger.sameGuid botId (Item.guid item) r = true
             \/ Ledger.sameLink botId (Item.link item) r = true ->
             Ledger.processed_at r < cutoff) ->
  exists deleted w',
    cleanupOldItems setDateBack NoFault daysOld w = (Ret deleted, w')
    /\ recorded botId item (ledger w') = false
    /\ (exists v', isItemProcessed botId item w' = (Ret false, v'))
    /\ forall items : list Item.t, In item items ->
         exists out v',
           filterUnprocessedItems botId (Some items) w' = (Ret out, v')
           /\ In item out.
Proof.
  intros Hc Hold.
  rewrite (cleanupOldItems_ok setDateBack daysOld w cutoff Hc).
  eexists _, _. split; [reflexivity |].
  set (w' := setLedger _ w).
  assert (Hr : recorded botId item (ledger w') = false).
  { unfold recorded. apply orb_false_intro; apply not_true_is_false; intros Hex;
      apply List.existsb_exists in Hex as (r & Hr & Hs);
      apply List.filter_In in Hr as [Hr Hle]; apply Z.leb_le in Hle;
      [specialize (Hold r Hr (or_introl Hs)) | specialize (Hold r Hr (or_intror Hs))]; lia. }
  split; [exact Hr |]. split.
  - destruct (returns_eq _ _ _ (isItemProcessed_returns botId item w'))
      as (b & v' & Eb & _ & _ & _ & Htrue & _).
    exists v'. rewrite Eb. destruct b; [| reflexivity].
    rewrite (Htrue eq_refl) in Hr. discriminate.
  - intros items Hitem. now apply retained_when_unrecorded.
Qed.

End CleanupDedup.

(** X8: the statistics of a bot. [getBotStats] never throws and changes
    nothing. When the two counts succeed, [total] is the number of the
    bot's rows and [last24Hours] the number of those processed within the
    last 24 hours, so [last24Hours <= total], as whenever the first count
    succeeds; when the first count is answered by an error, [total] is 0
    while [last24Hours] still counts the recent rows. *)
Theorem getBotStats_counts (totalAnswer recentAnswer : Fault) (botId : string)
    (w : World) :
  exists stats,
    getBotStats totalAnswer recentAnswer botId w = (Ret stats, w)
    /\ (totalAnswer = NoFault -> (stats_last24Hours stats <= stats_total stats)%nat)
    /\ (forall yesterday,
          JS.timeClip (clock w - 24 * 60 * 60 * 1000) = Some yesterday ->
          recentAnswer = NoFault ->
          (totalAnswer = NoFault ->
           stats_total stats
           = List.length (List.filter (fun r => String.eqb (Ledger.bot_id r) botId)
                                      (ledger w)))
          /\ ((totalAnswer = NoFault \/ exists c, totalAnswer = ErrorReply c) ->
              stats_last24Hours stats
              = List.length
                  (List.filter (fun r => String.eqb (Ledger.bot_id r) botId
                                         && (yesterday <=? Ledger.processed_at r))
                               (ledger w)))
          /\ ((exists c, totalAnswer = ErrorReply c) -> stats_total stats = 0%nat)).
Proof.
  unfold getBotStats, tryCatch, bind, Date_now, countProcessed.
  assert (Hle : forall y,
            (List.length (List.filter (fun r => String.eqb (Ledger.bot_id r) botId
                                                && (y <=? Ledger.processed_at r)%Z) (ledger w))
             <= List.length (List.filter (fun r => String.eqb (Ledger.bot_id r) botId)
                                         (ledger w)))%nat).
  { intros y. induction (ledger w) as [|r t IH]; simpl; [lia |].
    destruct (String.eqb (Ledger.bot_id r) botId); simpl; [| exact IH].
    destruct (y <=? Ledger.processed_at r); simpl; lia. }
  destruct totalAnswer as [|c|e], recentAnswer as [|c'|e']; cbv beta iota;
    destruct (JS.timeClip (clock w - 24 * 60 * 60 * 1000)) as [y|] eqn:Ey;
    cbv beta iota;
    eexists; (split; [reflexivity |]); simpl;
    (split; [intros; first [apply Hle | lia | discriminate] |]);
    intros y' Hy' Hr; try discriminate;
    injection Hy' as <-;
    (split; [intros; first [reflexivity | discriminate] |]);
    (split; [intros [? | (? & ?)]; first [reflexivity | discriminate] |]);
    intros (? & ?); first [reflexivity | discriminate].
Qed.

(** ** The summarizer *)

Lemma substring0_nonempty (n : nat) (s : string) :
  (0 < n)%nat -> s <> EmptyString -> JS.substring0 n s <> EmptyString.
Proof.
  unfold JS.substring0. destruct n as [|n]; [lia |].
  destruct s as [|c s]; [congruence | discriminate].
Qed.

Lemma fallbackSummary_nonempty (item : Item.t) : fallbackSummary item <> EmptyString.
Proof.
  apply substring0_nonempty; [lia |].
  destruct (Item.title item); discriminate.
Qed.

Lemma generateSummary_total (openai : OpenAI) (item : Item.t)
    (customPrompt model : option string) :
  exists summary,
    generateSummary openai item customPrompt model tt = (Ret summary, tt)
    /\ summary <> EmptyString.
Proof.
  unfold generateSummary, tryCatch, bind.
  destruct (openai _) as [[content|]|e]; simpl;
    try (eexists; split; [reflexivity | apply fallbackSummary_nonempty]).
  destruct (String.eqb_spec (JS.trim content) EmptyString) as [E|E]; simpl;
    eexists; (split; [reflexivity |]); auto using fallbackSummary_nonempty.
Qed.

(** X9: [generateSummary] always returns a text, and never the empty one:
    the trimmed answer of the service when the service answers with some
    text, the fallback otherwise. *)
Theorem generateSummary_returns_text (openai : OpenAI) (item : Item.t)
    (customPrompt model : option string) :
  exists summary,
    generateSummary openai item customPrompt model tt = (Ret summary, tt)
    /\ summary <> EmptyString
    /\ summary
       = match openai (mkChatRequest (default "gpt-4o-mini"%string model)
                                     (JS.orS customPrompt defaultSystemPrompt)
                                     (articleContent item) 150 7) with
         | Ret (Some content) =>
             if String.eqb (JS.trim content) EmptyString
             then fallbackSummary item else JS.trim content
         | _ => fallbackSummary item
         end.
Proof.
  unfold generateSummary, tryCatch, bind.
  destruct (openai _) as [[content|]|e]; simpl.
  - destruct (String.eqb_spec (JS.trim content) EmptyString) as [E|E]; simpl;
      eexists; (split; [reflexivity |]); split; auto using fallbackSummary_nonempty.
  - eexists. split; [reflexivity |]. split; auto using fallbackSummary_nonempty.
  - eexists. split; [reflexivity |]. split; auto using fallbackSummary_nonempty.
Qed.

Lemma summariesLoop_spec (openai : OpenAI) (items : list Item.t)
    (customPrompt : option string) (delayMs : Z) (model : option string) (slept : Z) :
  exists out,
    summariesLoop openai items customPrompt delayMs model slept
    = (Ret out,
       slept + (if 0 <? delayMs then delayMs * Z.of_nat (List.length items - 1) else 0))
    /\ List.map fst out = items
    /\ List.Forall
         (fun p => generateSummary openai (fst p) customPrompt model tt = (Ret (snd p), tt)
                   /\ snd p <> EmptyString)
         out.
Proof.
  revert slept. induction items as [|item rest IH]; intros slept.
  - exists []. simpl. split; [f_equal; destruct (0 <? delayMs); lia |].
    split; [reflexivity | constructor].
  - destruct (generateSummary_total openai item customPrompt model)
      as (summary & E & Hne).
    cbn [summariesLoop]. unfold bind at 1. unfold tryCatch, bind at 1, summarize.
    rewrite E. cbn [fst].
    destruct rest as [|item' rest'].
    + simpl. exists [(item, summary)]. split; [f_equal; destruct (0 <? delayMs); lia |].
      split; [reflexivity |]. constructor; [split; assumption | constructor].
    + destruct (0 <? delayMs) eqn:Ed.
      * unfold bind at 1, sleepFor. cbn [ret].
        destruct (IH (slept + delayMs)) as (more & Em & Hm & Hf).
        unfold bind at 1. rewrite Em.
        exists ((item, summary) :: more). cbn [ret app].
        split; [f_equal; cbn [List.length] in *; lia |].
        split; [simpl; now rewrite Hm |]. constructor; [split; assumption | exact Hf].
      * unfold bind at 1. cbn [ret].
        destruct (IH slept) as (more & Em & Hm & Hf).
        unfold bind at 1. rewrite Em.
        exists ((item, summary) :: more). cbn [ret app].
        split; [f_equal; lia |].
        split; [simpl; now rewrite Hm |]. constructor; [split; assumption | exact Hf].
Qed.

(** X10: the batch keeps every item. [generateSummariesBatch] returns one
    entry for each item, in the order of the input, with the summary
    [generateSummary] returns for it, which is not empty (the batch's own
    [catch], which would drop an item, is never entered); between two
    items it sleeps [delayMs] when that is positive, [delayMs * (n - 1)]
    in all for [n] items. *)
Theorem generateSummariesBatch_keeps_every_item (openai : OpenAI)
    (items : list Item.t) (customPrompt : option string) (delayMs : option Z)
    (model : option string) (slept : Z) :
  exists out,
    generateSummariesBatch openai items customPrompt delayMs model slept
    = (Ret out,
       slept + (if 0 <? default 1000 delayMs
                then default 1000 delayMs * Z.of_nat (List.length items - 1) else 0))
    /\ List.map fst out = items
    /\ List.Forall
         (fun p => generateSummary openai (fst p) customPrompt model tt = (Ret (snd p), tt)
                   /\ snd p <> EmptyString)
         out.
Proof.
  unfold generateSummariesBatch.
  destruct (summariesLoop_spec openai items customPrompt (default 1000 delayMs)
              (Some (default "gpt-4o-mini"%string model)) slept) as (out & E & Hm & Hf).
  exists out. split; [exact E |]. split; [exact Hm |].
  eapply List.Forall_impl; [| exact Hf]. intros p [Hp Hne]. split; [| exact Hne].
  rewrite <- Hp. destruct model; reflexivity.
Qed.

Lemma backoff_0 (delayMs : Z) : backoff delayMs 0 = 0.
Proof. unfold backoff. simpl. apply Z.mul_0_r. Qed.

Lemma backoff_S (delayMs : Z) (k : nat) :
  backoff delayMs (S k) = backoff delayMs k + delayMs * (Z.of_nat k + 1).
Proof.
  unfold backoff. rewrite <- Z.mul_add_distr_l. f_equal.
  replace (Z.of_nat (S k) * (Z.of_nat (S k) + 1))
    with (Z.of_nat k * (Z.of_nat k + 1) + (Z.of_nat k + 1) * 2) by lia.
  rewrite Z.div_add by lia. reflexivity.
Qed.

(** The loop after [k] attempts that failed with errors worth a retry. *)
Lemma retryFrom_failures {A} (fn : nat -> Attempt A) (maxRetries delayMs : Z)
    (errs : nat -> ApiError) (k : nat) :
  forall (remaining : nat) (attempt : Z) (lastError : option ApiError) (st : RetryState),
    (forall i, (i < k)%nat ->
               fn (retry_calls st + i)%nat = RejectsWith (errs i)
               /\ isAuthError (errs i) = false) ->
    (k <= remaining)%nat ->
    attempt + Z.of_nat k <= maxRetries ->
    retryFrom fn maxRetries delayMs remaining attempt lastError st
    = retryFrom fn maxRetries delayMs (remaining - k) (attempt + Z.of_nat k)
        (match k with O => lastError | S k' => Some (errs k') end)
        (mkRetryState (retry_calls st + k)
           (retry_slept st + delayMs * (Z.of_nat k * (attempt - 1)) + backoff delayMs k)).
Proof.
  induction k as [|k IH]; intros remaining attempt lastError st Hf Hk Ha.
  - destruct st as [c s]. rewrite backoff_0. cbn [retry_calls retry_slept Z.of_nat].
    rewrite Nat.sub_0_r, Nat.add_0_r, Z.mul_0_l, Z.mul_0_r, !Z.add_0_r. reflexivity.
  - rewrite (IH remaining attempt lastError st); [| intros i Hi; apply Hf; lia | lia | lia].
    destruct (remaining - k)%nat as [|r] eqn:Er; [lia |].
    cbn [retryFrom retry_calls retry_slept].
    destruct (Hf k) as [Hfn Hauth]; [lia |].
    rewrite Hfn, Hauth.
    destruct (Z.ltb_spec (attempt + Z.of_nat k) maxRetries); [| lia].
    cbn [retry_calls retry_slept].
    replace (remaining - S k)%nat with r by lia.
    replace (attempt + Z.of_nat (S k)) with (attempt + Z.of_nat k + 1) by lia.
    f_equal. f_equal; [lia |]. rewrite backoff_S. lia.
Qed.

(** X11: retrying until a call succeeds. When the first [k] calls of [fn]
    fail with errors other than 401 and 403 and the next call succeeds,
    within the [maxRetries] attempts allowed, [retryWithBackoff] returns
    what that call returns, after [k + 1] calls and a sleep of
    [delayMs * attempt] after each failed attempt:
    [delayMs * (1 + ... + k)] in all, a linear backoff. *)
Theorem retryWithBackoff_first_success {A} (fn : nat -> Attempt A)
    (maxRetries delayMs : option Z) (errs : nat -> ApiError) (k : nat) (a : A) :
  Z.of_nat k < default 3 maxRetries ->
  (forall i, (i < k)%nat -> fn i = RejectsWith (errs i) /\ isAuthError (errs i) = false) ->
  fn k = Resolves a ->
  retryWithBackoff fn maxRetries delayMs
  = (Returns a, mkRetryState (S k) (backoff (default 1000 delayMs) k)).
Proof.
  intros Hk Hf Ha. unfold retryWithBackoff.
  rewrite (retryFrom_failures fn _ _ errs k); [| exact Hf | lia | lia].
  cbn [retry_calls retry_slept].
  destruct (Z.to_nat (default 3%Z maxRetries) - k)%nat as [|r] eqn:Er; [lia |].
  cbn [retryFrom retry_calls retry_slept Nat.add]. rewrite Ha.
  f_equal. f_equal. lia.
Qed.

(** X12: errors that are not retried, and giving up. When the first [k]
    calls fail with errors worth a retry and the next one fails with
    status 401 or 403, [retryWithBackoff] throws that error at once, after
    [k + 1] calls and no further sleep; when all the [maxRetries] calls
    fail with errors worth a retry, it throws the last of them, having
    slept after every attempt but the last. *)
Theorem retryWithBackoff_gives_up {A} (fn : nat -> Attempt A)
    (maxRetries delayMs : option Z) (errs : nat -> ApiError) (k : nat) :
  Z.of_nat k < default 3 maxRetries ->
  (forall i, (i < k)%nat -> fn i = RejectsWith (errs i) /\ isAuthError (errs i) = false) ->
  fn k = RejectsWith (errs k) ->
  (isAuthError (errs k) = true ->
   retryWithBackoff fn maxRetries delayMs
   = (Throws (Some (errs k)), mkRetryState (S k) (backoff (default 1000 delayMs) k)))
  /\ (isAuthError (errs k) = false -> Z.of_nat (S k) = default 3 maxRetries ->
      retryWithBackoff fn maxRetries delayMs
      = (Throws (Some (errs k)), mkRetryState (S k) (backoff (default 1000 delayMs) k))).
Proof.
  intros Hk Hf He. unfold retryWithBackoff.
  rewrite (retryFrom_failures fn _ _ errs k); [| exact Hf | lia | lia].
  cbn [retry_calls retry_slept].
  destruct (Z.to_nat (default 3%Z maxRetries) - k)%nat as [|r] eqn:Er; [lia |].
  cbn [retryFrom retry_calls retry_slept Nat.add]. rewrite He.
  split.
  - intros ->. f_equal. f_equal. lia.
  - intros -> Hlast.
    destruct (Z.ltb_spec (1 + Z.of_nat k) (default 3 maxRetries)); [lia |].
    assert (r = 0%nat) as -> by lia. cbn [retryFrom].
    f_equal. f_equal. lia.
Qed.

Lemma retryFrom_calls {A} (fn : nat -> Attempt A) (maxRetries delayMs : Z)
    (remaining : nat) :
  forall attempt lastError st,
    (retry_calls st
     <= retry_calls (snd (retryFrom fn maxRetries delayMs remaining attempt lastError st))
     <= retry_calls st + remaining)%nat.
Proof.
  induction remaining as [|r IH]; intros attempt lastError st; cbn [retryFrom].
  - simpl. lia.
  - destruct (fn (retry_calls st)) as [a|e]; [simpl; lia |].
    destruct (isAuthError e); [simpl; lia |].
    destruct (attempt <? maxRetries);
      match goal with |- context [retryFrom _ _ _ _ ?a ?l ?s] => specialize (IH a l s) end;
      simpl in *; lia.
Qed.

(** X13: the bound on the calls. [retryWithBackoff] never calls [fn] more
    than [maxRetries] times; with a [maxRetries] of zero or less it does
    not call it at all and throws [undefined]. *)
Theorem retryWithBackoff_bounded {A} (fn : nat -> Attempt A)
    (maxRetries delayMs : option Z) :
  (Z.of_nat (retry_calls (snd (retryWithBackoff fn maxRetries delayMs)))
   <= Z.max 0 (default 3 maxRetries))
  /\ (default 3 maxRetries <= 0 ->
      retryWithBackoff fn maxRetries delayMs = (Throws None, mkRetryState 0 0)).
Proof.
  split.
  - unfold retryWithBackoff.
    assert (H := retryFrom_calls fn (default 3 maxRetries) (default 1000 delayMs)
                   (Z.to_nat (default 3 maxRetries)) 1 None (mkRetryState 0 0)).
    simpl in H. lia.
  - intros H. unfold retryWithBackoff.
    replace (Z.to_nat (default 3 maxRetries)) with 0%nat by lia. reflexivity.
Qed.

(** X14: the retry wrapper around [generateSummary] never retries:
    [generateSummary] catches its own errors, so with at least one attempt
    allowed [generateSummaryWithRetry] returns the summary of the first
    call, without a sleep; with none allowed it throws [undefined]. *)
Theorem generateSummaryWithRetry_one_call (openai : OpenAI) (item : Item.t)
    (customPrompt model : option string) (maxRetries : option Z) :
  exists summary,
    generateSummary openai item customPrompt model tt = (Ret summary, tt)
    /\ generateSummaryWithRetry openai item customPrompt model maxRetries
       = if 0 <? default 3 maxRetries
         then (Returns summary, mkRetryState 1 0)
         else (Throws None, mkRetryState 0 0).
Proof.
  destruct (generateSummary_total openai item customPrompt model)
    as (summary & E & _).
  exists summary. split; [exact E |].
  unfold generateSummaryWithRetry, retryWithBackoff.
  change (default 3 (Some (default 3 maxRetries))) with (default 3 maxRetries).
  change (default 1000 None) with 1000.
  assert (Hthunk : summaryThunk openai item customPrompt
                     (Some (default "gpt-4o-mini"%string model)) 0%nat = Resolves summary).
  { unfold summaryThunk.
    replace (generateSummary openai item customPrompt
               (Some (default "gpt-4o-mini"%string model)) tt)
      with (generateSummary openai item customPrompt model tt)
      by (destruct model; reflexivity).
    now rewrite E. }
  destruct (Z.ltb_spec 0 (default 3 maxRetries)) as [Hpos | Hneg].
  - destruct (Z.to_nat (default 3 maxRetries)) as [|r] eqn:Er; [lia |].
    cbn [retryFrom retry_calls retry_slept]. now rewrite Hthunk.
  - replace (Z.to_nat (default 3 maxRetries)) with 0%nat by lia. reflexivity.
Qed.

(** ** What a run leaves in the two tables *)

Lemma markLoop_rows (botConfig : BotConfig) (createdPosts : list (Post.row * Item.t))
    (w : World) :
  returns (markLoop botConfig createdPosts) w
    (fun _ w' =>
       exists added marked,
         ledger w' = ledger w ++ added
         /\ marked `sublist_of` createdPosts
         /\ List.Forall2 (recordsPost botConfig) added marked).
Proof.
  revert w. induction createdPosts as [|[post item] rest IH]; intros w.
  - apply returns_ret. exists [], []. rewrite List.app_nil_r.
    split; [reflexivity |]. split; constructor.
  - cbn [markLoop]. apply returns_bind.
    eapply returns_mono; [apply markItemAsProcessed_returns |].
    intros b w1 (_ & _ & Hl1).
    eapply returns_mono; [apply IH |].
    intros [] w2 (added & marked & Hl2 & Hsub & Hrows).
    destruct Hl1 as [E | [E _]]; rewrite Hl2, E.
    + exists added, marked. split; [reflexivity |].
      split; [now constructor | exact Hrows].
    + exists (rowFor (cfg_id botConfig) (cfg_username botConfig) item
                     (Some (Post.id post)) w :: added), ((post, item) :: marked).
      rewrite <- List.app_assoc. split; [reflexivity |].
      split; [now constructor |]. constructor; [| exact Hrows].
      exists (clock w). reflexivity.
Qed.


Section RunTables.

Variable hostnameOf : string -> option string.

(** The posts and the rows a run adds. *)
Lemma run_tables (botConfig : BotConfig) (options : RunOptions) (w : World) :
  exists results w' sel created marked added,
    runBot hostnameOf botConfig options w = (Ret results, w')
    /\ posts w' = posts w ++ List.map fst created
    /\ ledger w' = ledger w ++ added
    /\ marked `sublist_of` created
    /\ List.Forall2 (recordsPost botConfig) added marked
    /\ List.Forall
         (fun c => exists t, Post.fields (fst c) = postDataOf hostnameOf botConfig (snd c) t)
         created
    /\ List.map snd created `sublist_of` JS.slice0 (default 5 (maxPostsPerRun options)) sel
    /\ (forall y, In y sel ->
          exists all,
            candidates hostnameOf botConfig options w = Ret all
            /\ In y all
            /\ (lookupsOk w -> recorded (cfg_id botConfig) y (ledger w) = false))
    /\ (default false (dryRun options) = true -> created = [])
    /\ itemsNew results = List.length sel
    /\ postsCreated results = List.length created.
Proof.
  destruct (runBot_course hostnameOf botConfig options w)
    as (ok & w1 & results & w' & Ev & Q1 & E & _ & _ & _ & H).
  assert (Hnone : (w' = w1 /\ postsCreated results = 0%nat /\ itemsNew results = 0%nat) ->
    exists results0 w0 sel created marked added,
      runBot hostnameOf botConfig options w = (Ret results0, w0)
      /\ posts w0 = posts w ++ List.map fst created
      /\ ledger w0 = ledger w ++ added
      /\ marked `sublist_of` created
      /\ List.Forall2 (recordsPost botConfig) added marked
      /\ List.Forall
           (fun c => exists t, Post.fields (fst c)
                               = postDataOf hostnameOf botConfig (snd c) t) created
      /\ List.map snd created `sublist_of` JS.slice0 (default 5 (maxPostsPerRun options)) sel
      /\ (forall y, In y sel ->
            exists all,
              candidates hostnameOf botConfig options w = Ret all
              /\ In y all
              /\ (lookupsOk w -> recorded (cfg_id botConfig) y (ledger w) = false))
      /\ (default false (dryRun options) = true -> created = [])
      /\ itemsNew results0 = List.length sel
      /\ postsCreated results0 = List.length created).
  { intros (-> & Hp & Hn). destruct Q1 as (Hl & Hpo & _).
    exists results, w1, [], [], [], [].
    rewrite Hl, Hpo, !List.app_nil_r. simpl.
    split; [exact E |]. split; [reflexivity |]. split; [reflexivity |].
    split; [constructor |]. split; [constructor |]. split; [constructor |].
    split; [apply sublist_nil_l |]. split; [intros y [] |].
    split; [reflexivity |]. split; assumption. }
  destruct ok; [| apply Hnone; tauto].
  destruct (candidates hostnameOf botConfig options w) as [all|e] eqn:Hc;
    [| apply Hnone; tauto].
  clear Hnone.
  destruct H as (sel & w2 & created & w3 & Q2 & K & F & Ec & Em & _ & _ & Hn & Hp).
  destruct (quiet_trans _ _ _ Q1 Q2) as (Hl2 & Hp2 & _).
  assert (Hsel : forall y, In y sel ->
            exists all',
              Ret all = Ret all'
              /\ In y all'
              /\ (lookupsOk w -> recorded (cfg_id botConfig) y (ledger w) = false)).
  { intros y Hy. exists all. split; [reflexivity |].
    split; [eapply kept_In; eassumption |].
    intros Hok. rewrite (F Hok) in Hy. apply List.filter_In in Hy as [_ Hy].
    unfold newFor in Hy. now apply negb_true_iff in Hy. }
  destruct (default false (dryRun options)) eqn:Hdry.
  - rewrite createPostsBatch_dryRun in Ec. injection Ec as <- <-. subst w'.
    exists results, w2, sel, [], [], [].
    rewrite Hl2, Hp2, !List.app_nil_r. simpl.
    split; [exact E |]. split; [reflexivity |]. split; [reflexivity |].
    split; [constructor |]. split; [constructor |]. split; [constructor |].
    split; [apply sublist_nil_l |].
    split; [exact Hsel |].
    split; [reflexivity |]. split; assumption.
  - assert (R1 := createPostsBatch_returns hostnameOf botConfig sel
                    (default 5 (maxPostsPerRun options)) w2).
    unfold returns in R1. rewrite Ec in R1.
    destruct R1 as (Hl3 & _ & Hp3 & Hsub & _ & _ & Hdata).
    assert (R2 := markLoop_rows botConfig created w3).
    unfold returns in R2. rewrite Em in R2.
    destruct R2 as (added & marked & Hl4 & Hm & Hrows).
    assert (R3 := markLoop_returns botConfig created w3).
    unfold returns in R3. rewrite Em in R3. destruct R3 as (Hp4 & _).
    exists results, w', sel, created, marked, added.
    split; [exact E |]. split; [congruence |]. split; [congruence |].
    split; [exact Hm |]. split; [exact Hrows |]. split; [exact Hdata |].
    split; [exact Hsub |].
    split; [exact Hsel |].
    split; [discriminate |]. split; assumption.
Qed.

(** X15: a dry run writes nothing. With [dryRun] set, [runBot] returns,
    reports no post created, sends no insert, and leaves the ledger and
    the posts as they are (so the same items are new at the next run). *)
Theorem dry_run_writes_nothing (botConfig : BotConfig) (options : RunOptions)
    (w : World) :
  dryRun options = Some true ->
  exists results w' sentNow,
    runBot hostnameOf botConfig options w = (Ret results, w')
    /\ postsCreated results = 0%nat
    /\ ledger w' = ledger w
    /\ posts w' = posts w
    /\ trace w' = trace w ++ sentNow
    /\ List.forallb (fun q => negb (isWrite q)) sentNow = true.
Proof.
  intros Hdry.
  destruct (runBot_course hostnameOf botConfig options w)
    as (ok & w1 & results & w' & Ev & Q1 & E & _ & _ & _ & H).
  assert (Hq : quiet w w' /\ postsCreated results = 0%nat).
  { destruct ok; [| destruct H as (-> & _ & _ & Hp & _); auto].
    destruct (candidates hostnameOf botConfig options w) as [all|e];
      [| destruct H as (-> & _ & _ & Hp & _); auto].
    destruct H as (sel & w2 & created & w3 & Q2 & _ & _ & Ec & Em & _ & _ & _ & Hp).
    rewrite Hdry in Ec, Em. change (default false (Some true)) with true in Ec, Em.
    cbv iota in Em.
    rewrite createPostsBatch_dryRun in Ec. injection Ec as <- <-. subst w'.
    split; [eapply quiet_trans; eassumption | exact Hp]. }
  destruct Hq as ((Hl & Hpo & d & (Ht & _) & Hd) & Hp).
  exists results, w', d. repeat split; assumption.
Qed.


(** X17: no ledger row without its post. Every row a run adds carries the
    id of the bot and the id of a post the same run added, a post of the
    kind [rss_bot] written under the bot's profile whose source address is
    the link of the row. *)
Theorem recorded_items_have_posts (botConfig : BotConfig) (options : RunOptions)
    (w : World) :
  exists results w' newPosts newRows,
    runBot hostnameOf botConfig options w = (Ret results, w')
    /\ posts w' = posts w ++ newPosts
    /\ ledger w' = ledger w ++ newRows
    /\ forall r, In r newRows ->
         Ledger.bot_id r = cfg_id botConfig
         /\ Ledger.bot_username r = cfg_username botConfig
         /\ exists p,
              In p newPosts
              /\ Ledger.created_post_id r = Some (Post.id p)
              /\ Post.rss_source_url (Post.fields p) = Some (Ledger.item_link r)
              /\ Post.user_id (Post.fields p) = cfg_user_id botConfig
              /\ Post.content_type (Post.fields p) = "rss_bot"%string.
Proof.
  destruct (run_tables botConfig options w)
    as (results & w' & sel & created & marked & added
        & E & Hp & Hl & Hm & Hrows & Hdata & _).
  exists results, w', (List.map fst created), added.
  split; [exact E |]. split; [exact Hp |]. split; [exact Hl |].
  intros r Hr.
  destruct (Forall2_In_l _ _ _ _ Hrows Hr) as (c & Hc & t & ->).
  assert (Hcc : In c created).
  { apply list_elem_of_In. eapply elem_of_sublist; [| exact Hm]. now apply list_elem_of_In. }
  split; [reflexivity |]. split; [reflexivity |].
  exists (fst c). split; [now apply List.in_map |].
  rewrite List.Forall_forall in Hdata. destruct (Hdata c Hcc) as (t' & ->).
  repeat split.
Qed.

(** X18: a run of one bot changes nothing for another. After a run of
    [botConfig], whether an item counts as processed for a bot with
    another id is what it was before the run. *)
Theorem run_leaves_other_bots_alone (botConfig : BotConfig) (options : RunOptions)
    (w : World) (otherId : string) (item : Item.t) :
  otherId <> cfg_id botConfig ->
  exists results w',
    runBot hostnameOf botConfig options w = (Ret results, w')
    /\ recorded otherId item (ledger w') = recorded otherId item (ledger w).
Proof.
  intros Hother.
  destruct (run_tables botConfig options w)
    as (results & w' & sel & created & marked & added
        & E & _ & Hl & _ & Hrows & _).
  exists results, w'. split; [exact E |].
  rewrite Hl, recorded_app.
  enough (recorded otherId item added = false) as -> by apply orb_false_r.
  clear - Hrows Hother. unfold recorded, Ledger.sameGuid, Ledger.sameLink.
  induction Hrows as [|r c added marked (t & ->) _ IH]; [reflexivity |].
  simpl. apply String.eqb_neq in Hother. rewrite String.eqb_sym in Hother.
  rewrite Hother. simpl. exact IH.
Qed.

(** X19: a run keeps the ledger's two uniqueness constraints: if no two
    rows share a (bot, GUID) or a (bot, link) pair before the run, none do
    after it, and so after the runs of several bots in a row. *)
Theorem runs_keep_ledger_unique (botConfig : BotConfig) (botConfigs : list BotConfig)
    (options : RunOptions) (w : World) :
  Ledger.unique (ledger w) ->
  (exists results w',
      runBot hostnameOf botConfig options w = (Ret results, w')
      /\ Ledger.unique (ledger w'))
  /\ exists entries w',
       runMultipleBots hostnameOf botConfigs options w = (Ret entries, w')
       /\ Ledger.unique (ledger w').
Proof.
  assert (Hone : forall b v, Ledger.unique (ledger v) ->
            returns (runBot hostnameOf b options) v (fun _ v' => Ledger.unique (ledger v'))).
  { intros b v Hu.
    destruct (runBot_course hostnameOf b options v)
      as (ok & v1 & results & v' & Ev & Q1 & E & _ & _ & _ & H).
    eapply eq_returns; [exact E |].
    assert (Hfail : v' = v1 -> Ledger.unique (ledger v')).
    { intros ->. destruct Q1 as (-> & _). exact Hu. }
    destruct ok; [| apply Hfail, H].
    destruct (candidates hostnameOf b options v) as [all|e]; [| apply Hfail, H].
    destruct H as (sel & v2 & created & v3 & Q2 & _ & _ & Ec & Em & _).
    destruct (quiet_trans _ _ _ Q1 Q2) as (Hl2 & _).
    destruct (default false (dryRun options)).
    - rewrite createPostsBatch_dryRun in Ec. injection Ec as _ <-. subst v'.
      now rewrite Hl2.
    - assert (R1 := createPostsBatch_returns hostnameOf b sel
                      (default 5 (maxPostsPerRun options)) v2).
      unfold returns in R1. rewrite Ec in R1. destruct R1 as (Hl3 & _).
      assert (R2 := markLoop_returns b created v3).
      unfold returns in R2. rewrite Em in R2. destruct R2 as (_ & _ & Hu3 & _).
      apply Hu3. now rewrite Hl3, Hl2. }
  intros Hu. split.
  - destruct (returns_eq _ _ _ (Hone botConfig w Hu)) as (results & w' & E & Hu').
    exists results, w'. auto.
  - enough (R : returns (runMultipleBots hostnameOf botConfigs options) w
                  (fun _ w' => Ledger.unique (ledger w'))).
    { destruct (returns_eq _ _ _ R) as (entries & w' & E & Hu'). exists entries, w'. auto. }
    revert w Hu. induction botConfigs as [|b rest IH]; intros w Hu.
    + apply returns_ret. exact Hu.
    + cbn [runMultipleBots]. apply returns_bind.
      assert (H1 : returns
                     (tryCatch
                        (result <- runBot hostnameOf b options ;;
                         sleep 2000 ;;; ret (Completed result))
                        (fun message => ret (Fatal (cfg_id b) (cfg_name b) [message]))) w
                     (fun _ w1 => Ledger.unique (ledger w1))).
      { destruct (returns_eq _ _ _ (Hone b w Hu)) as (results & w' & E & Hu').
        unfold returns, tryCatch, bind. rewrite E. simpl. exact Hu'. }
      eapply returns_mono; [exact H1 |]. intros entry w1 Hu1.
      apply returns_bind. eapply returns_mono; [apply IH; exact Hu1 |].
      intros entries w2 Hu2. apply returns_ret. exact Hu2.
Qed.

End RunTables.

(** ** What a run publishes *)

(** An item of the created posts is one of the run's selection. *)
Lemma created_In_selection (created : list (Post.row * Item.t)) (cap : Z)
    (sel : list Item.t) (c : Post.row * Item.t) :
  List.map snd created `sublist_of` JS.slice0 cap sel ->
  In c created -> In (snd c) sel.
Proof.
  intros Hsub Hc. eapply In_slice0. apply list_elem_of_In.
  eapply elem_of_sublist; [| exact Hsub].
  apply list_elem_of_In. now apply List.in_map.
Qed.

(** [(x || s) || x || s] is [x || s]. *)
Lemma orS_idem (x s : string) :
  JS.orS (JS.or (Some (JS.orS (Some x) s)) (Some x)) s = JS.orS (Some x) s.
Proof.
  unfold JS.or, JS.truthy, JS.orS.
  destruct (String.eqb x EmptyString) eqn:Ex.
  - destruct (String.eqb s EmptyString) eqn:Es; cbn [negb]; rewrite ?Ex, ?Es; reflexivity.
  - cbn [negb]. rewrite ?Ex. cbn [negb]. rewrite ?Ex. reflexivity.
Qed.

Section RunPosts.

Variable hostnameOf : string -> option string.

(** The runner hands every item on without a summary, its content (or
    its title) as the original. *)
Lemma candidates_unsummarized (botConfig : BotConfig) (options : RunOptions)
    (w : World) (all : list Item.t) (y : Item.t) :
  candidates hostnameOf botConfig options w = Ret all ->
  In y all ->
  Item.aiSummary y = None
  /\ Item.originalContent y = Some (JS.orS (Some (Item.content y)) (Item.title y)).
Proof.
  unfold candidates. intros Hc Hy.
  destruct (default true (processFeedsSeparately options)).
  - destruct (rssSeparately w botConfig _) as [feeds|e]; [| discriminate].
    injection Hc as <-. unfold allOf in Hy.
    apply List.in_concat in Hy as (l & Hl & Hy).
    apply List.in_map_iff in Hl as (feed & <- & _).
    apply List.in_map_iff in Hy as (x & <- & _). split; reflexivity.
  - destruct (rssCombined w botConfig _) as [items|e]; [| discriminate].
    injection Hc as <-.
    apply List.in_map_iff in Hy as (x & <- & _). split; reflexivity.
Qed.

(** X20: a run publishes the original text and no summary. Every post a
    run adds has no AI summary; what it stores as the original content is
    the content of an item the fetcher returned (the title, when the
    content is empty), and it is the text the post displays, bare or
    under the label of its source. *)
Theorem posts_carry_the_original_content (botConfig : BotConfig)
    (options : RunOptions) (w : World) :
  exists results w' newPosts,
    runBot hostnameOf botConfig options w = (Ret results, w')
    /\ posts w' = posts w ++ newPosts
    /\ forall p, In p newPosts ->
         Post.rss_ai_summary (Post.fields p) = None
         /\ exists all item,
              candidates hostnameOf botConfig options w = Ret all
              /\ In item all
              /\ Post.rss_source_url (Post.fields p) = Some (Item.link item)
              /\ Post.rss_original_content (Post.fields p)
                 = Some (JS.orS (Some (Item.content item)) (Item.title item))
              /\ (Post.content (Post.fields p)
                  = JS.orS (Some (Item.content item)) (Item.title item)
                  \/ exists name,
                       Post.rss_source_name (Post.fields p) = Some name
                       /\ Post.content (Post.fields p)
                          = sourceLabel name
                              (JS.orS (Some (Item.content item)) (Item.title item))).
Proof.
  destruct (run_tables hostnameOf botConfig options w)
    as (results & w' & sel & created & marked & added
        & E & Hp & _ & _ & _ & Hdata & Hsub & Hsel & _).
  exists results, w', (List.map fst created).
  split; [exact E |]. split; [exact Hp |].
  intros p Hin. apply List.in_map_iff in Hin as (c & <- & Hc).
  rewrite List.Forall_forall in Hdata. destruct (Hdata c Hc) as (t & ->).
  destruct (Hsel (snd c) (created_In_selection _ _ _ _ Hsub Hc)) as (all & Ha & Hy & _).
  destruct (candidates_unsummarized _ _ _ _ _ Ha Hy) as (Hs & Ho).
  assert (Hd : displayContentOf (snd c)
               = JS.orS (Some (Item.content (snd c))) (Item.title (snd c))).
  { unfold displayContentOf. rewrite Hs, Ho. apply orS_idem. }
  assert (Hor : originalContentOf (snd c)
               = JS.orS (Some (Item.content (snd c))) (Item.title (snd c))).
  { unfold originalContentOf. rewrite Ho. apply orS_idem. }
  split; [exact Hs |]. exists all, (snd c).
  split; [exact Ha |]. split; [exact Hy |]. split; [reflexivity |].
  unfold postDataOf, postDataFor. cbn [Post.rss_original_content Post.content Post.rss_source_name].
  rewrite Hd, Hor. split; [reflexivity |].
  destruct (JS.truthy (Some (sourceNameOf hostnameOf (snd c)))); [right | left; reflexivity].
  exists (sourceNameOf hostnameOf (snd c)). split; reflexivity.
Qed.

End RunPosts.

(** ** A run over the fetcher of rss-fetcher.js *)

Section CombinedRun.

Variable parseDate : string -> option Z.
Variable parseURL : string -> result ParsedFeed.
Variable hostnameOf : string -> option string.


End CombinedRun.

(** ** Validation of a summary *)

Lemma trimStart_length (s : string) :
  (String.length (JS.trimStart s) <= String.length s)%nat.
Proof.
  induction s as [|c r IH]; simpl; [lia |].
  destruct (JS.isSpace c); simpl; lia.
Qed.

Lemma trimEnd_length (s : string) :
  (String.length (JS.trimEnd s) <= String.length s)%nat.
Proof.
  induction s as [|c r IH]; simpl; [lia |].
  destruct (JS.trimEnd r) as [|c' r'].
  - destruct (JS.isSpace c); simpl; lia.
  - simpl in *. lia.
Qed.

Lemma trim_length (s : string) :
  (String.length (JS.trim s) <= String.length s)%nat.
Proof.
  unfold JS.trim.
  etransitivity; [apply trimEnd_length | apply trimStart_length].
Qed.

(** X22: the fallback summary is never too long for [validateSummary]:
    under the default upper bound of 280 the validation of a fallback
    summary comes down to the lower bound alone. *)
Theorem validateSummary_fallback (item : Item.t) (minLength : option Z) :
  validateSummary (Some (fallbackSummary item)) minLength None
  = (default 50 minLength
     <=? Z.of_nat (String.length (JS.trim (fallbackSummary item)))).
Proof.
  unfold validateSummary.
  destruct (String.eqb_spec (fallbackSummary item) EmptyString) as [E | _].
  - now apply fallbackSummary_nonempty in E.
  - cbn [default].
    assert (H := trim_length (fallbackSummary item)).
    assert (H' := substring0_length 280 (Item.title item ++ " - " ++ Item.link item)).
    fold (fallbackSummary item) in H'.
    replace (Z.of_nat (String.length (JS.trim (fallbackSummary item))) <=? 280)
      with true by (symmetry; apply Z.leb_le; lia).
    apply andb_true_r.
Qed.

(** ** The options of the entry point *)

Section EntryPoint.

Variable hostnameOf : string -> option string.

(** X23: a run cap of 0 cannot be configured. With [MAX_POSTS_PER_RUN]
    unset, not a number or 0, a run under [RUN_OPTIONS] that is not a dry
    run, in which the profile is found and the fetcher returns [all],
    selects every item of [all] that has no ledger row (all the new ones
    and no other, when the lookups work) and sends the write of a post
    for each of the first 999999 items selected, in order: for every new
    item the fetcher returned, when it returned no more than that. *)
Theorem zero_run_cap_is_no_cap (e : ProcessEnv) (botConfig : BotConfig)
    (w : World) (all : list Item.t) :
  MAX_POSTS_PER_RUN e = None \/ MAX_POSTS_PER_RUN e = Some 0 ->
  DRY_RUN e <> Some "true"%string ->
  candidates hostnameOf botConfig (RUN_OPTIONS e) w = Ret all ->
  fst (verifyBotProfile (cfg_user_id botConfig) w) = Ret true ->
  exists results w' sel lookups writes marks,
    runBot hostnameOf botConfig (RUN_OPTIONS e) w = (Ret results, w')
    /\ trace w' = trace w ++ lookups ++ writes ++ marks
    /\ List.forallb (fun q => negb (isWrite q)) lookups = true
    /\ List.Forall (fun q => exists r, q = InsertProcessed r) marks
    /\ kept (newFor (cfg_id botConfig) (ledger w)) all sel
    /\ (lookupsOk w -> sel = List.filter (newFor (cfg_id botConfig) (ledger w)) all)
    /\ itemsNew results = List.length sel
    /\ List.Forall2 (writesPostOf hostnameOf botConfig) writes (JS.slice0 999999 sel)
    /\ (Z.of_nat (List.length all) <= 999999 ->
        List.Forall2 (writesPostOf hostnameOf botConfig) writes sel
        /\ forall y, In y all ->
             recorded (cfg_id botConfig) y (ledger w) = false ->
             exists t, In (InsertPost (postDataOf hostnameOf botConfig y t)) writes).
Proof.
  intros Hcap Hdry Hc Hv.
  assert (Hd : default false (dryRun (RUN_OPTIONS e)) = false).
  { cbn [RUN_OPTIONS dryRun default].
    destruct (DRY_RUN e) as [s|]; [| reflexivity].
    destruct (String.eqb_spec s "true"); [subst; now destruct Hdry | reflexivity]. }
  assert (Hm : default 5 (maxPostsPerRun (RUN_OPTIONS e)) = 999999).
  { cbn [RUN_OPTIONS maxPostsPerRun default].
    destruct Hcap as [-> | ->]; reflexivity. }
  destruct (run_details hostnameOf botConfig (RUN_OPTIONS e) w all Hd Hc Hv)
    as (results & w' & sel & created & lookups & writes & marks & added
        & E & Ht & Hl & Hw & Hmk & K & F & Hn & _).
  rewrite Hm in Hw.
  exists results, w', sel, lookups, writes, marks.
  split; [exact E |]. split; [exact Ht |]. split; [exact Hl |].
  split; [exact Hmk |]. split; [exact K |]. split; [exact F |].
  split; [exact Hn |]. split; [exact Hw |].
  intros Hle.
  assert (Hall : JS.slice0 999999 sel = sel).
  { rewrite slice0_nonneg by lia. apply List.firstn_all2.
    apply kept_length in K. lia. }
  rewrite Hall in Hw. split; [exact Hw |].
  intros y Hy Hnew.
  assert (Hsel : In y sel).
  { clear - K Hy Hnew. induction K as [|z l l' K IH|z l l' Hz K IH].
    - destruct Hy.
    - destruct Hy as [-> | Hy]; [now left | right; now apply IH].
    - destruct Hy as [-> | Hy]; [| now apply IH].
      unfold newFor in Hz. rewrite Hnew in Hz. discriminate. }
  destruct (Forall2_In_r _ _ _ _ Hw Hsel) as (q & Hq & t & ->). now exists t.
Qed.

End EntryPoint.

(** ** The counters of a run *)

Lemma allOf_cons (hostnameOf : string -> option string) (feed : Feed.t)
    (rest : list Feed.t) :
  List.length (allOf hostnameOf (feed :: rest))
  = (List.length (Feed.items feed) + List.length (allOf hostnameOf rest))%nat.
Proof.
  unfold allOf. cbn [List.map List.concat].
  now rewrite List.length_app, List.length_map.
Qed.

Section RunCounters.

Variable hostnameOf : string -> option string.

Lemma feedLoop_counts (botConfig : BotConfig) (feeds : list Feed.t)
    (w : World) (r : RunResults) :
  returns (feedLoop hostnameOf botConfig feeds) (w, r)
    (fun _ s' =>
       itemsFetched (snd s')
       = (itemsFetched r + List.length (allOf hostnameOf feeds))%nat
       /\ feedsProcessed (snd s') = feedsProcessed r).
Proof.
  revert w r. induction feeds as [|feed rest IH]; intros w r.
  - apply returns_ret. simpl. split; [lia | reflexivity].
  - cbn [feedLoop]. apply returns_bind. apply returns_update. cbn [fst snd].
    rewrite allOf_cons.
    assert (Hrest : forall v r',
              itemsFetched r'
              = (itemsFetched r + List.length (Feed.items feed))%nat ->
              feedsProcessed r' = feedsProcessed r ->
              returns (feedLoop hostnameOf botConfig rest) (v, r')
                (fun _ s' =>
                   itemsFetched (snd s')
                   = (itemsFetched r
                      + (List.length (Feed.items feed)
                         + List.length (allOf hostnameOf rest)))%nat
                   /\ feedsProcessed (snd s') = feedsProcessed r)).
    { intros v r' Hf Hp. eapply returns_mono; [apply IH |].
      intros _ s' (H1 & H2). rewrite H1, H2, Hf, Hp. split; [lia | reflexivity]. }
    destruct (Feed.items feed) as [|item items] eqn:Ei.
    + apply Hrest; reflexivity.
    + apply returns_bind.
      eapply returns_mono;
        [apply returns_inWorld, filterUnprocessedItems_returns |].
      intros newItems [w1 r1] (_ & Hr1). cbn [fst snd] in *. subst r1.
      apply returns_bind. apply returns_update. cbn [fst snd].
      destruct newItems as [|n1 newItems]; [apply Hrest; reflexivity |].
      apply returns_bind. eapply returns_mono; [apply Hrest; reflexivity |].
      intros more s' H. apply returns_ret. exact H.
Qed.

(** X24: the counters of a run. [itemsFetched] is the number of items the
    fetcher returned, over all sources; [itemsNew] is no more than that;
    no summary is counted; and [feedsProcessed] is the number of sources
    in the mode that takes them one by one, and stays 0 in the other. *)
Theorem run_counters (botConfig : BotConfig) (options : RunOptions) (w : World) :
  exists results w',
    runBot hostnameOf botConfig options w = (Ret results, w')
    /\ (itemsNew results <= itemsFetched results)%nat
    /\ itemsSummarized results = 0%nat
    /\ (fst (verifyBotProfile (cfg_user_id botConfig) w) = Ret true ->
        forall all, candidates hostnameOf botConfig options w = Ret all ->
                    itemsFetched results = List.length all)
    /\ (fst (verifyBotProfile (cfg_user_id botConfig) w) = Ret true ->
        default true (processFeedsSeparately options) = true ->
        forall feeds,
          rssSeparately w botConfig (default 60 (fetchWindowMinutes options)) = Ret feeds ->
          feedsProcessed results = List.length feeds)
    /\ (default true (processFeedsSeparately options) = false ->
        feedsProcessed results = 0%nat).
Proof.
  destruct (returns_eq _ _ _ (verifyBotProfile_returns (cfg_user_id botConfig) w))
    as (ok & w1 & Ev & Q1).
  assert (Hs : rssSeparately w1 = rssSeparately w)
    by (destruct Q1 as (_ & _ & d & (_ & _ & _ & _ & _ & H & _) & _); exact H).
  assert (Hc : rssCombined w1 = rssCombined w)
    by (destruct Q1 as (_ & _ & d & (_ & _ & _ & _ & _ & _ & H) & _); exact H).
  rewrite Ev. cbn [fst].
  unfold runBot, tryCatch, runBotBody, candidates, bind, inWorld, update,
    fetchItemsForBotSeparately, fetchItemsForBot.
  cbn [fst snd]. rewrite Ev.
  destruct ok; cbn [negb];
    [| eexists _, _; split; [reflexivity |]; cbn;
       repeat split; try discriminate; auto ].
  destruct (default true (processFeedsSeparately options)).
  - cbn [fst snd]. rewrite Hs.
    destruct (rssSeparately w botConfig _) as [feeds|e];
      [| eexists _, _; split; [reflexivity |]; cbn;
         repeat split; try discriminate; auto ].
    destruct feeds as [|feed feeds].
    { eexists _, _. split; [reflexivity |]. cbn.
      split; [lia |]. split; [reflexivity |].
      split; [intros _ all [= <-]; reflexivity |].
      split; [intros _ _ feeds [= <-]; reflexivity | discriminate]. }
    destruct (returns_eq _ _ _
                (returns_and _ _ _ _
                   (feedLoop_returns hostnameOf botConfig (feed :: feeds) w1
                      (setFeedsProcessed (List.length (feed :: feeds))
                                         (initialResults botConfig)))
                   (feedLoop_counts botConfig (feed :: feeds) w1
                      (setFeedsProcessed (List.length (feed :: feeds))
                                         (initialResults botConfig)))))
      as (sel & [w2 r2] & Ef & (_ & K & _ & Hn & Hst) & Hf & Hfp).
    cbn [fst snd] in *. rewrite Ef.
    destruct Hst as (_ & _ & _ & Hsum & _).
    assert (Hle : (itemsNew r2 <= itemsFetched r2)%nat).
    { rewrite Hn, Hf. apply kept_length in K. simpl in *. lia. }
    destruct sel as [|x sel].
    + eexists _, _. split; [reflexivity |]. cbn.
      split; [exact Hle |]. split; [exact Hsum |].
      split; [intros _ all [= <-]; exact Hf |].
      split; [intros _ _ fs [= <-]; exact Hfp | discriminate].
    + destruct (publishAndRecord_eq hostnameOf botConfig (x :: sel)
                  (default 5 (maxPostsPerRun options))
                  (default false (dryRun options)) w2 r2)
        as (created & w3 & w4 & _ & _ & Ep).
      rewrite Ep.
      eexists _, _. split; [reflexivity |]. cbn.
      split; [exact Hle |]. split; [reflexivity |].
      split; [intros _ all [= <-]; exact Hf |].
      split; [intros _ _ fs [= <-]; exact Hfp | discriminate].
  - cbn [fst snd]. rewrite Hc.
    destruct (rssCombined w botConfig _) as [items|e];
      [| eexists _, _; split; [reflexivity |]; cbn;
         repeat split; try discriminate; auto ].
    destruct items as [|item items].
    { eexists _, _. split; [reflexivity |]. cbn.
      split; [lia |]. split; [reflexivity |].
      split; [intros _ all [= <-]; reflexivity |].
      split; [discriminate | reflexivity]. }
    destruct (returns_eq _ _ _
                (filterUnprocessedItems_returns (cfg_id botConfig) (item :: items) w1))
      as (newItems & w2 & Ef & _ & K & _).
    cbn [fst snd]. rewrite Ef. cbn [fst snd].
    apply kept_length in K.
    destruct newItems as [|n1 newItems].
    + eexists _, _. split; [reflexivity |]. cbn.
      split; [lia |]. split; [reflexivity |].
      split; [intros _ all [= <-]; simpl; now rewrite ?List.length_map |].
      split; [discriminate | reflexivity].
    + match goal with
      | |- context [publishAndRecord hostnameOf botConfig ?s ?m ?d (?v, ?r)] =>
          destruct (publishAndRecord_eq hostnameOf botConfig s m d v r)
            as (created & w3 & w4 & _ & _ & Ep)
      end.
      rewrite Ep.
      eexists _, _. split; [reflexivity |]. cbn.
      split; [exact K |]. split; [reflexivity |].
      split; [intros _ all [= <-]; simpl; now rewrite ?List.length_map |].
      split; [discriminate | reflexivity].
Qed.

End RunCounters.

(** ** The profile check and the ledger, as a run sees them *)

Section RunGuards.

Variable hostnameOf : string -> option string.

(** X25: a run needs the one profile of its bot. When the profile lookup
    meets a fault, or the profiles that carry the bot's user id are not
    exactly one, a run sends that lookup and nothing else, and reports
    the missing profile as its one error. *)
Theorem run_without_profile (botConfig : BotConfig) (options : RunOptions)
    (w : World) :
  env w (calls w) (SelectProfile (cfg_user_id botConfig)) <> NoFault
  \/ List.length
       (List.filter (fun p => String.eqb (profile_user_id p) (cfg_user_id botConfig))
                    (profiles w)) <> 1%nat ->
  exists results,
    runBot hostnameOf botConfig options w
    = (Ret results, sent (SelectProfile (cfg_user_id botConfig)) w)
    /\ success results = false
    /\ errors results = [profileNotFound (cfg_user_id botConfig)]
    /\ itemsNew results = 0%nat
    /\ postsCreated results = 0%nat.
Proof.
  intros H.
  assert (Ev : verifyBotProfile (cfg_user_id botConfig) w
               = (Ret false, sent (SelectProfile (cfg_user_id botConfig)) w)).
  { unfold verifyBotProfile, tryCatch, bind, selectProfile.
    destruct (env w (calls w) (SelectProfile (cfg_user_id botConfig))) eqn:Ee;
      [| reflexivity | reflexivity].
    destruct H as [H | H]; [now destruct H |].
    destruct (List.filter _ (profiles w)) as [|p [|q l]]; try reflexivity.
    now destruct H. }
  destruct (runBot_course hostnameOf botConfig options w)
    as (ok & w1 & results & w' & Ev' & _ & E & _ & _ & _ & C).
  rewrite Ev in Ev'. injection Ev' as <- <-.
  destruct C as (-> & Hs & He & Hp & Hn).
  exists results. auto.
Qed.

(** X26: with working lookups a run publishes nothing the ledger holds.
    When no lookup meets a fault, no post a run adds has for its source
    address the link of a ledger row of the bot. *)
Theorem run_publishes_no_recorded_link (botConfig : BotConfig)
    (options : RunOptions) (w : World) :
  lookupsOk w ->
  exists results w' newPosts,
    runBot hostnameOf botConfig options w = (Ret results, w')
    /\ posts w' = posts w ++ newPosts
    /\ forall p r,
         In p newPosts -> In r (ledger w) ->
         Ledger.bot_id r = cfg_id botConfig ->
         Post.rss_source_url (Post.fields p) <> Some (Ledger.item_link r).
Proof.
  intros Hok.
  destruct (run_tables hostnameOf botConfig options w)
    as (results & w' & sel & created & marked & added
        & E & Hp & _ & _ & _ & Hdata & Hsub & Hsel & _).
  exists results, w', (List.map fst created).
  split; [exact E |]. split; [exact Hp |].
  intros p r Hin Hr Hbot. apply List.in_map_iff in Hin as (c & <- & Hc).
  rewrite List.Forall_forall in Hdata. destruct (Hdata c Hc) as (t & ->).
  destruct (Hsel (snd c) (created_In_selection _ _ _ _ Hsub Hc)) as (all & _ & _ & Hnew).
  specialize (Hnew Hok). unfold recorded in Hnew.
  apply orb_false_elim in Hnew as [_ Hl].
  cbn [postDataOf postDataFor Post.rss_source_url]. intros [= Heq].
  enough (List.existsb (Ledger.sameLink (cfg_id botConfig) (Item.link (snd c)))
                       (ledger w) = true) by congruence.
  apply existsb_sameLink. exists r. auto.
Qed.

End RunGuards.

(** ** Instances *)

Lemma marked_item_is_processed_witness :
  exists w1,
    markItemAsProcessed "us-politics-bot" "uspolitics" Fixture.a1 (Some 0%nat)
      (Fixture.world Fixture.noFault []) = (Ret true, w1)
    /\ recorded "us-politics-bot" Fixture.a1 (ledger w1) = true.
Proof.
  destruct (marked_item_is_processed "us-politics-bot" "uspolitics" Fixture.a1
              (Some 0%nat) (Fixture.world Fixture.noFault []) eq_refl)
    as (w1 & E & Hr & _).
  exists w1. split; [exact E | exact Hr].
Defined.

Lemma cleaned_item_is_new_again_witness :
  let w := Fixture.world Fixture.noFault [Sample.oldRow] in
  exists deleted w',
    cleanupOldItems Sample.setDateBackUTC NoFault None w = (Ret deleted, w')
    /\ recorded "us-politics-bot" Fixture.a1 (ledger w') = false.
Proof.
  cbv zeta.
  destruct (cleaned_item_is_new_again Sample.setDateBackUTC None "us-politics-bot"
              Fixture.a1 (Fixture.world Fixture.noFault [Sample.oldRow])
              (Fixture.now - 30 * 86400000))
    as (deleted & w' & E & Hr & _).
  - reflexivity.
  - intros r Hin _. destruct Hin as [<- | []]. reflexivity.
  - exists deleted, w'. split; [exact E | exact Hr].
Defined.

Lemma retryWithBackoff_first_success_witness :
  retryWithBackoff Sample.thirdTimeLucky None None
  = (Returns "A summary"%string, mkRetryState 3 (backoff 1000 2)).
Proof.
  apply (retryWithBackoff_first_success Sample.thirdTimeLucky None None
           (fun _ => Sample.rateLimited) 2 "A summary"%string).
  - reflexivity.
  - intros i Hi. unfold Sample.thirdTimeLucky.
    destruct (Nat.ltb_spec i 2) as [_ | Hge]; [split; reflexivity | lia].
  - reflexivity.
Defined.

Lemma retryWithBackoff_gives_up_witness :
  retryWithBackoff Sample.alwaysLimited None None
  = (Throws (Some Sample.rateLimited), mkRetryState 3 (backoff 1000 2)).
Proof.
  apply (retryWithBackoff_gives_up Sample.alwaysLimited None None
           (fun _ => Sample.rateLimited) 2).
  - reflexivity.
  - intros i _. split; reflexivity.
  - reflexivity.
  - reflexivity.
  - reflexivity.
Defined.

Lemma dry_run_writes_nothing_witness :
  let w := Fixture.world Fixture.noFault [] in
  exists results w',
    runBot plainHostname Fixture.bot Sample.dry w = (Ret results, w')
    /\ postsCreated results = 0%nat
    /\ ledger w' = ledger w /\ posts w' = posts w.
Proof.
  cbv zeta.
  destruct (dry_run_writes_nothing plainHostname Fixture.bot Sample.dry
              (Fixture.world Fixture.noFault []) eq_refl)
    as (results & w' & d & E & Hp & Hl & Hpo & _).
  exists results, w'. auto.
Defined.

Lemma run_leaves_other_bots_alone_witness :
  let w := Fixture.world Fixture.noFault [] in
  exists results w',
    runBot plainHostname Fixture.bot Fixture.capped w = (Ret results, w')
    /\ recorded "tech-news-bot" Fixture.a1 (ledger w')
       = recorded "tech-news-bot" Fixture.a1 (ledger w).
Proof.
  cbv zeta.
  apply (run_leaves_other_bots_alone plainHostname Fixture.bot Fixture.capped
           (Fixture.world Fixture.noFault []) "tech-news-bot" Fixture.a1).
  discriminate.
Defined.

Lemma runs_keep_ledger_unique_witness :
  let w := Fixture.world Fixture.noFault [] in
  exists entries w',
    runMultipleBots plainHostname [Fixture.bot; Fixture.otherBot] Fixture.capped w
    = (Ret entries, w')
    /\ Ledger.unique (ledger w').
Proof.
  cbv zeta.
  apply (runs_keep_ledger_unique plainHostname Fixture.bot
           [Fixture.bot; Fixture.otherBot] Fixture.capped
           (Fixture.world Fixture.noFault []) I).
Defined.


Lemma zero_run_cap_is_no_cap_witness :
  let w := Fixture.world Fixture.noFault [] in
  exists results w' writes,
    runBot plainHostname Fixture.bot (RUN_OPTIONS Sample.zeroCap) w = (Ret results, w')
    /\ List.Forall2 (writesPostOf plainHostname Fixture.bot) writes
         (allOf plainHostname [Fixture.feedA; Fixture.feedB; Fixture.feedC])
    /\ exists t,
         In (InsertPost (postDataOf plainHostname Fixture.bot
                           (withSource plainHostname Fixture.feedC
                                       (Fixture.item "https://c.example/rss" "c1")) t))
            writes.
Proof.
  cbv zeta.
  destruct (zero_run_cap_is_no_cap plainHostname Sample.zeroCap Fixture.bot
              (Fixture.world Fixture.noFault [])
              (allOf plainHostname [Fixture.feedA; Fixture.feedB; Fixture.feedC]))
    as (results & w' & sel & lookups & writes & marks
        & E & _ & _ & _ & _ & F & _ & _ & H).
  - right. reflexivity.
  - discriminate.
  - reflexivity.
  - reflexivity.
  - destruct H as [Hw Hevery]; [vm_compute; discriminate |].
    exists results, w', writes. split; [exact E |].
    split.
    { rewrite F in Hw by (intros n req _; reflexivity). exact Hw. }
    apply Hevery; [| reflexivity].
    vm_compute. do 10 right. left. reflexivity.
Defined.

Lemma run_without_profile_witness :
  let w := Fixture.world Fixture.noFault [] in
  exists results,
    runBot plainHostname Fixture.otherBot Fixture.capped w
    = (Ret results, sent (SelectProfile "bot_technews") w)
    /\ success results = false
    /\ postsCreated results = 0%nat.
Proof.
  cbv zeta.
  destruct (run_without_profile plainHostname Fixture.otherBot Fixture.capped
              (Fixture.world Fixture.noFault []))
    as (results & E & Hs & _ & _ & Hp).
  - right. discriminate.
  - exists results. auto.
Defined.

Lemma run_publishes_no_recorded_link_witness :
  let w := Fixture.world Fixture.noFault [Fixture.rowOf Fixture.bot Fixture.a1] in
  exists results w' newPosts,
    runBot plainHostname Fixture.bot Fixture.capped w = (Ret results, w')
    /\ posts w' = posts w ++ newPosts
    /\ forall p, In p newPosts ->
         Post.rss_source_url (Post.fields p) <> Some (Item.link Fixture.a1).
Proof.
  cbv zeta.
  destruct (run_publishes_no_recorded_link plainHostname Fixture.bot Fixture.capped
              (Fixture.world Fixture.noFault [Fixture.rowOf Fixture.bot Fixture.a1]))
    as (results & w' & newPosts & E & Hp & H).
  - intros n req _. reflexivity.
  - exists results, w', newPosts. split; [exact E |]. split; [exact Hp |].
    intros p Hin.
    apply (H p (Fixture.rowOf Fixture.bot Fixture.a1) Hin); [now left | reflexivity].
Defined.
